(** * clip-app: job submission, worker loop and result routing

    A shallow embedding of the Kafka pipeline of [clip-app]:
    [kafka_config.py] (producers and consume loops), [image_processor.py]
    (the worker), [simple_api.py] (the polling API) and [realtime_app.py]
    (the WebSocket router with its Redis correlation store).

    Python dictionaries are finite maps, or lists of entries where the
    code iterates them; exceptions are values of [exn],
    and code that mutates state or raises runs in the monad [M], which
    threads the state through and keeps the mutations made before a raise. *)

From stdpp Require Import gmap strings list fin_maps pretty.
From Stdlib Require Import ZArith Lia.

Local Open Scope string_scope.
Local Open Scope Z_scope.
#[local] Set Warnings "-register-all".

(** ** Python values *)

(** The values that travel in messages: what [json.loads] yields, plus
    [bytes] for an uploaded payload.  Fractional numbers (confidence,
    processing time) are only carried around, never computed with; they
    are written scaled to an integer. *)
Inductive value : Type :=
| VNone
| VBool (b : bool)
| VNum (n : Z)
| VStr (s : string)
| VBytes (b : list Byte.byte)
| VList (l : list value)
| VDict (d : gmap string value).

Abbreviation dict := (gmap string value).

(** Python truthiness, as used by [if x:], [not x] and [x or y]. *)
Definition truthy (v : value) : bool :=
  match v with
  | VNone => false
  | VBool b => b
  | VNum n => negb (n =? 0)
  | VStr s => negb (String.eqb s "")
  | VBytes b => match b with [] => false | _ => true end
  | VList l => match l with [] => false | _ => true end
  | VDict d => negb (bool_decide (d = ∅))
  end.

(** [d.get(k)] and [d.get(k, default)] *)
Definition dict_get (d : dict) (k : string) : value := default VNone (d !! k).
Definition dict_get_or (d : dict) (k : string) (dflt : value) : value :=
  default dflt (d !! k).

(** ** Keys of dictionaries

    What is used as a key is hashed and compared by value: a [str] and a
    [bytes] are keys of their own, a boolean is the number it equals
    ([True == 1], [False == 0]), a list or a dictionary cannot be hashed.
    The result is [hash_key], once exceptions are defined. *)
Inductive key : Type :=
| KNone
| KNum (n : Z)
| KStr (s : string)
| KBytes (b : list Byte.byte).

#[global] Instance byte_eq_dec : EqDecision Byte.byte := Byte.byte_eq_dec.
#[global] Instance key_eq_dec : EqDecision key.
Proof. solve_decision. Defined.

Definition key_encode (k : key) : unit + Z + string + list N :=
  match k with
  | KNone => inl (inl (inl tt))
  | KNum n => inl (inl (inr n))
  | KStr s => inl (inr s)
  | KBytes b => inr (Byte.to_N <$> b)
  end.

Definition key_decode (c : unit + Z + string + list N) : key :=
  match c with
  | inl (inl (inl _)) => KNone
  | inl (inl (inr n)) => KNum n
  | inl (inr s) => KStr s
  | inr l => KBytes ((fun n => default Byte.x00 (Byte.of_N n)) <$> l)
  end.

#[global] Instance key_countable : Countable key.
Proof.
  apply (inj_countable' key_encode key_decode).
  intros [| | |b]; try reflexivity. cbn. f_equal.
  induction b as [|a b IH]; [reflexivity|].
  cbn. rewrite Byte.of_to_N. cbn. by rewrite IH.
Defined.

(** ** Exceptions *)

Inductive exn : Type :=
| HTTPException (status_code : Z) (detail : string)
| TypeError (msg : string)
| AttributeError (msg : string)
| KeyError (key : string)
| Error (cls : string) (msg : string)   (* any other subclass of Exception *)
| KeyboardInterrupt
| SystemExit.

(** [isinstance(e, Exception)]: what [except Exception] catches.
    [KeyboardInterrupt] and [SystemExit] derive from [BaseException] only. *)
Definition is_Exception (e : exn) : bool :=
  match e with
  | KeyboardInterrupt | SystemExit => false
  | _ => true
  end.

(** [str(e)].  For [HTTPException] this is Starlette's [__str__]
    ("<status_code>: <detail>"); no statement below depends on that case. *)
Definition str_exn (e : exn) : string :=
  match e with
  | HTTPException c d => pretty c +:+ ": " +:+ d
  | TypeError m | AttributeError m | Error _ m => m
  | KeyError k => "'" +:+ k +:+ "'"
  | KeyboardInterrupt | SystemExit => ""
  end.

(** ** State and exception monad *)

Definition M (S A : Type) : Type := S -> (exn + A) * S.

Definition ret {S A} (a : A) : M S A := fun s => (inr a, s).
Definition raise {S A} (e : exn) : M S A := fun s => (inl e, s).
Definition bind {S A B} (m : M S A) (k : A -> M S B) : M S B :=
  fun s => match m s with
           | (inr a, s') => k a s'
           | (inl e, s') => (inl e, s')
           end.
Definition get {S} : M S S := fun s => (inr s, s).
Definition modify {S} (f : S -> S) : M S unit := fun s => (inr tt, f s).
Definition lift_res {S A} (r : exn + A) : M S A := fun s => (r, s).

(** [try: body  except Exception as e: handler(e)] *)
Definition try_except {S A} (body : M S A) (handler : exn -> M S A) : M S A :=
  fun s => match body s with
           | (inl e, s') => if is_Exception e then handler e s' else (inl e, s')
           | r => r
           end.

(** Run a computation on a component of a larger state. *)
Definition zoom {S T A} (proj : S -> T) (put : T -> S -> S) (m : M T A) : M S A :=
  fun s => let '(r, t') := m (proj s) in (r, put t' s).

Declare Scope py_scope.
Delimit Scope py_scope with py.
Notation "x <- c1 ;; c2" := (bind c1 (fun x => c2))
  (at level 100, c1 at next level, right associativity) : py_scope.
Notation "c1 ;;; c2" := (bind c1 (fun _ => c2))
  (at level 100, right associativity) : py_scope.
Local Open Scope py_scope.

(** The key a value is, in [d[v] = ...], [d.pop(v, ...)], [v in d]. *)
Definition hash_key (v : value) : exn + key :=
  match v with
  | VNone => inr KNone
  | VBool b => inr (KNum (if b then 1 else 0))
  | VNum n => inr (KNum n)
  | VStr s => inr (KStr s)
  | VBytes b => inr (KBytes b)
  | VList _ => inl (TypeError "unhashable type: 'list'")
  | VDict _ => inl (TypeError "unhashable type: 'dict'")
  end.

(** [d[k]] *)
Definition dict_item (d : dict) (k : string) : exn + value :=
  match d !! k with
  | Some v => inr v
  | None => inl (KeyError k)
  end.

(** ** Calls with keyword arguments *)

(** A signature lists the parameter names with their defaults ([None] for
    a required parameter).  Binding fails with [TypeError] on a keyword the
    signature does not have, or when a required parameter is not given. *)
Definition signature := list (string * option value).

Fixpoint unexpected_keyword (sig : signature) (kwargs : list (string * value))
  : option string :=
  match kwargs with
  | [] => None
  | (k, _) :: rest =>
      if bool_decide (k ∈ sig.*1) then unexpected_keyword sig rest else Some k
  end.

Fixpoint bind_params (fname : string) (sig : signature) (given : dict)
  : exn + dict :=
  match sig with
  | [] => inr ∅
  | (p, dflt) :: rest =>
      match bind_params fname rest given with
      | inl e => inl e
      | inr bound =>
          match given !! p, dflt with
          | Some v, _ => inr (<[p := v]> bound)
          | None, Some v => inr (<[p := v]> bound)
          | None, None =>
              inl (TypeError (fname +:+ "() missing 1 required positional argument: '"
                              +:+ p +:+ "'"))
          end
      end
  end.

Definition bind_keywords (fname : string) (sig : signature)
    (kwargs : list (string * value)) : exn + dict :=
  match unexpected_keyword sig kwargs with
  | Some k =>
      inl (TypeError (fname +:+ "() got an unexpected keyword argument '" +:+ k +:+ "'"))
  | None => bind_params fname sig (list_to_map kwargs)
  end.

(** ** Dictionaries that are iterated

    A Python [dict] keeps its keys in the order they were first assigned,
    and [d.items()] visits them in that order.  A dictionary the code
    iterates is the list of its entries: [d[k] = v] replaces the value of
    a key already present where it stands and appends a new key at the
    end, [del d[k]] removes the entry, [len(d)] counts the entries. *)
Record odict (V : Type) : Type := ODict { items : list (string * V) }.
Arguments ODict {V} _.
Arguments items {V} _.

Fixpoint assoc_lookup {V} (k : string) (l : list (string * V)) : option V :=
  match l with
  | [] => None
  | (k', v) :: rest => if decide (k' = k) then Some v else assoc_lookup k rest
  end.

Fixpoint assoc_insert {V} (k : string) (v : V) (l : list (string * V))
  : list (string * V) :=
  match l with
  | [] => [(k, v)]
  | (k', v') :: rest =>
      if decide (k' = k) then (k', v) :: rest else (k', v') :: assoc_insert k v rest
  end.

Definition assoc_delete {V} (k : string) (l : list (string * V))
  : list (string * V) :=
  filter (fun e => e.1 <> k) l.

#[global] Instance odict_lookup {V} : Lookup string V (odict V) :=
  fun k d => assoc_lookup k (items d).
#[global] Instance odict_insert {V} : Insert string V (odict V) :=
  fun k v d => ODict (assoc_insert k v (items d)).
#[global] Instance odict_delete {V} : Delete string (odict V) :=
  fun k d => ODict (assoc_delete k (items d)).
#[global] Instance odict_empty {V} : Empty (odict V) := ODict [].
#[global] Instance odict_singleton {V} : SingletonM string V (odict V) :=
  fun k v => ODict [(k, v)].
#[global] Instance odict_size {V} : Size (odict V) := fun d => length (items d).

(** ** External services: the Kafka broker and the Redis store *)

(** Every call made to a service is recorded in [calls], in order, whatever
    its outcome.  [broker] holds the records the broker took, each with
    its topic and key, and [store] the keys of the Redis database with
    their expiry in seconds.
    [broker_outcomes] and [store_outcomes] schedule the outcome of the
    successive calls: [Some msg] makes the call raise the client library's
    error with that text (connection lost, timeout), [None] or an exhausted
    schedule lets it go through.

    [unacked] holds the records of the sends that raised once the key
    was serialized.  The caller cannot tell what became of such a record:
    when [send] itself raised it is lost, but [future.get(timeout=10)]
    gives up after ten seconds while the producer keeps the record and
    goes on trying to deliver it ([request_timeout_ms], [retries]), so
    that it may still be appended to its topic, at any later time.  A
    topic holds the records of [broker] and possibly some of those of
    [unacked]. *)
Inductive call : Type :=
| KafkaSend (topic : string) (key : value)
| RedisLPush (key v : string)
| RedisExpire (key : string) (seconds : Z)
| RedisSet (key v : string) (ex : Z)
| RedisGet (key : string)
| RedisDelete (key : string).

Inductive redis_val : Type :=
| RStr (s : string)
| RList (l : list string).

Record services : Type := {
  broker : list (string * option string * dict);
  unacked : list (string * option string * dict);
  broker_outcomes : list (option string);
  store : gmap string (redis_val * option Z);
  store_outcomes : list (option string);
  calls : list call
}.

Definition next_outcome (cls : string) (l : list (option string)) : option exn :=
  match l with
  | Some msg :: _ => Some (Error cls msg)
  | _ => None
  end.

Definition wrongtype : exn :=
  Error "ResponseError"
        "WRONGTYPE Operation against a key holding the wrong kind of value".

Module Redis.

(** One command: record the call, consume one scheduled outcome, then
    run the command on the database. *)
Definition command {A} (c : call)
    (run : gmap string (redis_val * option Z) ->
           exn + (A * gmap string (redis_val * option Z)))
  : M services A :=
  fun sv =>
    let logged := (calls sv ++ [c])%list in
    let rest := tail (store_outcomes sv) in
    match next_outcome "ConnectionError" (store_outcomes sv) with
    | Some e =>
        (inl e, {| broker := broker sv; unacked := unacked sv;
                   broker_outcomes := broker_outcomes sv;
                   store := store sv; store_outcomes := rest; calls := logged |})
    | None =>
        match run (store sv) with
        | inl e =>
            (inl e, {| broker := broker sv; unacked := unacked sv;
                       broker_outcomes := broker_outcomes sv;
                       store := store sv; store_outcomes := rest; calls := logged |})
        | inr (a, db) =>
            (inr a, {| broker := broker sv; unacked := unacked sv;
                       broker_outcomes := broker_outcomes sv;
                       store := db; store_outcomes := rest; calls := logged |})
        end
    end.

Definition lpush (key v : string) : M services unit :=
  command (RedisLPush key v) (fun db =>
    match db !! key with
    | None => inr (tt, <[key := (RList [v], None)]> db)
    | Some (RList l, ttl) => inr (tt, <[key := (RList (v :: l), ttl)]> db)
    | Some (RStr _, _) => inl wrongtype
    end).

Definition expire (key : string) (seconds : Z) : M services unit :=
  command (RedisExpire key seconds) (fun db =>
    match db !! key with
    | Some (v, _) => inr (tt, <[key := (v, Some seconds)]> db)
    | None => inr (tt, db)
    end).

Definition set (key v : string) (ex : Z) : M services unit :=
  command (RedisSet key v ex) (fun db => inr (tt, <[key := (RStr v, Some ex)]> db)).

Definition get (key : string) : M services (option string) :=
  command (RedisGet key) (fun db =>
    match db !! key with
    | None => inr (None, db)
    | Some (RStr s, _) => inr (Some s, db)
    | Some (RList _, _) => inl wrongtype
    end).

Definition delete (key : string) : M services unit :=
  command (RedisDelete key) (fun db => inr (tt, base.delete key db)).

End Redis.

(** ** kafka_config.py *)

Module KafkaConfig.

Definition IMAGE_UPLOAD_TOPIC := "image-uploads".
Definition ANALYSIS_RESULTS_TOPIC := "analysis-results".

(** [PRODUCER_CONFIG['key_serializer']]:
    [lambda k: k.encode('utf-8') if k else None] *)
Definition key_serializer (k : value) : exn + option string :=
  if truthy k then
    match k with
    | VStr s => inr (Some s)
    | _ => inl (AttributeError "object has no attribute 'encode'")
    end
  else inr None.

(** [future = producer.send(topic, key=..., value=...)] followed by
    [future.get(timeout=10)].  A key the serializer refuses makes [send]
    raise before there is a record.  Otherwise, when the acknowledgement
    arrives the record is in [broker]; when the call raises it is left
    in [unacked]. *)
Definition send_and_get (topic : string) (key : value) (v : dict)
  : M services unit :=
  fun sv =>
    let logged := (calls sv ++ [KafkaSend topic key])%list in
    match key_serializer key with
    | inl e =>
        (inl e, {| broker := broker sv; unacked := unacked sv;
                   broker_outcomes := broker_outcomes sv;
                   store := store sv; store_outcomes := store_outcomes sv;
                   calls := logged |})
    | inr k =>
        match next_outcome "KafkaError" (broker_outcomes sv) with
        | Some e =>
            (inl e, {| broker := broker sv;
                       unacked := (unacked sv ++ [(topic, k, v)])%list;
                       broker_outcomes := tail (broker_outcomes sv);
                       store := store sv; store_outcomes := store_outcomes sv;
                       calls := logged |})
        | None =>
            (inr tt, {| broker := (broker sv ++ [(topic, k, v)])%list;
                        unacked := unacked sv;
                        broker_outcomes := tail (broker_outcomes sv);
                        store := store sv; store_outcomes := store_outcomes sv;
                        calls := logged |})
        end
    end.

(** [base64.b64encode(data).decode('utf-8')] *)
Definition b64_alphabet :=
  "ABCDEFGHIJKLMNOPQRSTUVWXYZabcdefghijklmnopqrstuvwxyz0123456789+/".

Definition b64_char (n : N) : string :=
  match String.get (N.to_nat n) b64_alphabet with
  | Some c => String c ""
  | None => ""
  end.

Fixpoint b64encode (l : list Byte.byte) : string :=
  match l with
  | [] => ""
  | [a] =>
      let n := Byte.to_N a in
      b64_char (n / 4) +:+ b64_char ((n mod 4) * 16) +:+ "=="
  | [a; b] =>
      let n := (Byte.to_N a * 256 + Byte.to_N b)%N in
      b64_char (n / 1024) +:+ b64_char ((n / 16) mod 64)
        +:+ b64_char ((n mod 16) * 4) +:+ "="
  | a :: b :: c :: rest =>
      let n := (Byte.to_N a * 65536 + Byte.to_N b * 256 + Byte.to_N c)%N in
      b64_char (n / 262144) +:+ b64_char ((n / 4096) mod 64)
        +:+ b64_char ((n / 64) mod 64) +:+ b64_char (n mod 64)
        +:+ b64encode rest
  end%N.

(** [KafkaImageProducer.send_image_for_analysis(self, image_data,
    filename, user_id=None)].  [uuid] is what [uuid.uuid4()] returns in
    this call and [now] what [datetime.utcnow().isoformat()] returns. *)
Definition send_image_for_analysis_sig : signature :=
  [("image_data", None); ("filename", None); ("user_id", Some VNone)].

Definition send_image_for_analysis (kwargs : list (string * value))
    (uuid now : string) : M services string :=
  args <- lift_res (bind_keywords "send_image_for_analysis"
                      send_image_for_analysis_sig kwargs) ;;
  let image_data := dict_get args "image_data" in
  let filename := dict_get args "filename" in
  let user_id := dict_get args "user_id" in
  try_except
    (let request_id := uuid in
     image_base64 <- match image_data with
                     | VBytes b => ret (b64encode b)
                     | _ => raise (TypeError "a bytes-like object is required")
                     end ;;
     let message : dict :=
       <["request_id" := VStr request_id]>
       (<["user_id" := if truthy user_id then user_id else VStr "anonymous"]>
       (<["filename" := filename]>
       (<["image_data" := VStr image_base64]>
       (<["timestamp" := VStr now]>
       (<["status" := VStr "pending"]> ∅))))) in
     send_and_get IMAGE_UPLOAD_TOPIC (VStr request_id) message ;;;
     ret request_id)
    (fun e => raise e).

(** [KafkaResultsProducer.send_analysis_result(self, request_id, results,
    user_id, processing_time=None, error=None)] *)
Definition result_message (request_id results user_id processing_time error : value)
    (now : string) : dict :=
  <["request_id" := request_id]>
  (<["user_id" := user_id]>
  (<["results" := results]>
  (<["processing_time" := processing_time]>
  (<["error" := error]>
  (<["timestamp" := VStr now]>
  (<["status" := VStr (if negb (truthy error) then "completed" else "failed")]>
     ∅)))))).

Definition send_analysis_result (request_id results user_id processing_time error : value)
    (now : string) : M services unit :=
  try_except
    (send_and_get ANALYSIS_RESULTS_TOPIC request_id
       (result_message request_id results user_id processing_time error now))
    (fun e => raise e).

(** *** Connecting the producer

    [attempts] schedules the outcome of the successive calls of the
    [KafkaProducer(...)] constructor ([Some msg]: it raises with that
    text); [slept] records the arguments of [time.sleep], in order. *)
Record client : Type := {
  producer : bool;
  attempts : list (option string);
  slept : list Z
}.

Definition max_retries : Z := 5.

(** [self.producer = KafkaProducer(...)], built from [PRODUCER_CONFIG] *)
Definition construct : M client unit :=
  fun c =>
    match attempts c with
    | Some msg :: rest =>
        (inl (Error "NoBrokersAvailable" msg),
         {| producer := producer c; attempts := rest; slept := slept c |})
    | _ =>
        (inr tt, {| producer := true; attempts := tail (attempts c);
                    slept := slept c |})
    end.

Definition sleep (seconds : Z) : M client unit :=
  modify (fun c => {| producer := producer c; attempts := attempts c;
                      slept := (slept c ++ [seconds])%list |}).

(** The [while retry_count < max_retries] loop of
    [KafkaImageProducer.connect]; [fuel] bounds the number of iterations
    and [max_retries] of them are enough, since every iteration that does
    not leave the loop increments [retry_count]. *)
Fixpoint connect_from (fuel : nat) (retry_count : Z) : M client unit :=
  match fuel with
  | O => ret tt
  | S fuel' =>
      if retry_count <? max_retries then
        fun c =>
          match construct c with
          | (inr _, c') => (inr tt, c')
          | (inl e, c') =>
              if is_Exception e then
                let retry_count := retry_count + 1 in
                (if retry_count <? max_retries
                 then sleep (2 ^ retry_count) ;;; connect_from fuel' retry_count
                 else raise (Error "Exception"
                        ("Failed to connect to Kafka after " +:+ pretty max_retries
                         +:+ " attempts"))) c'
              else (inl e, c')
          end
      else ret tt
  end.

(** [KafkaImageProducer.connect] *)
Definition connect : M client unit := connect_from (Z.to_nat max_retries) 0.

(** [KafkaImageProducer.close] *)
Definition close : M client unit :=
  fun c => if producer c
           then (inr tt, {| producer := false; attempts := attempts c;
                            slept := slept c |})
           else (inr tt, c).

Definition SYSTEM_STATUS_TOPIC := "system-status".

(** [producer.send(topic, value=...)] without a key and without waiting
    for the acknowledgement: the only error the caller can see is one
    [send] itself raises, before the record is handed over. *)
Definition send_nowait (topic : string) (v : dict) : M services unit :=
  fun sv =>
    let logged := (calls sv ++ [KafkaSend topic VNone])%list in
    match next_outcome "KafkaError" (broker_outcomes sv) with
    | Some e =>
        (inl e, {| broker := broker sv; unacked := unacked sv;
                   broker_outcomes := tail (broker_outcomes sv);
                   store := store sv; store_outcomes := store_outcomes sv;
                   calls := logged |})
    | None =>
        (inr tt, {| broker := (broker sv ++ [(topic, None, v)])%list;
                    unacked := unacked sv;
                    broker_outcomes := tail (broker_outcomes sv);
                    store := store sv; store_outcomes := store_outcomes sv;
                    calls := logged |})
    end.

(** [KafkaImageProducer.send_status_update] *)
Definition send_status_update (message_type data : value) (now : string)
  : M services unit :=
  try_except
    (let status_message : dict :=
       <["type" := message_type]>
       (<["data" := data]>
       (<["timestamp" := VStr now]> ∅)) in
     send_nowait SYSTEM_STATUS_TOPIC status_message)
    (fun e => ret tt).

(** *** Consume loops

    [messages] is the sequence of deserialized message values the consumer
    iterator yields.  The state of the loop is the state the callback
    works on, together with the consumer handle, closed by [finally]. *)
Record consumer (S : Type) : Type := {
  consumer_closed : bool;
  app : S
}.
Arguments consumer_closed {S} _.
Arguments app {S} _.

Section Consume.
Context {S : Type}.
Variable callback_function : dict -> M S unit.

(** The body of [for message in self.consumer:].  The [print] reads
    [message.value['request_id']] before the callback is called; both
    are inside the inner [try], whose handler is [continue]. *)
Fixpoint consume_loop (messages : list dict) : M S unit :=
  match messages with
  | [] => ret tt
  | message :: rest =>
      try_except
        (_ <- lift_res (dict_item message "request_id") ;;
         callback_function message)
        (fun e => ret tt) ;;;
      consume_loop rest
  end.

(** The outer [try]: [except KeyboardInterrupt] and [except Exception]
    both print and fall through, [finally] closes the consumer. *)
Definition consume (messages : list dict) : M (consumer S) unit :=
  fun c =>
    let '(r, s') := consume_loop messages (app c) in
    let r' := match r with
              | inl KeyboardInterrupt => inr tt
              | inl e => if is_Exception e then inr tt else inl e
              | inr x => inr x
              end in
    (r', {| consumer_closed := true; app := s' |}).
End Consume.

(** [KafkaImageConsumer.consume_images] *)
Definition consume_images {S} (callback_function : dict -> M S unit)
    (messages : list dict) : M (consumer S) unit :=
  consume callback_function messages.

(** [KafkaResultsConsumer.consume_results]: the same loop on the results
    topic. *)
Definition consume_results {S} (callback_function : dict -> M S unit)
    (messages : list dict) : M (consumer S) unit :=
  consume callback_function messages.

End KafkaConfig.

Example b64encode_Man :
  KafkaConfig.b64encode [Byte.x4d; Byte.x61; Byte.x6e] = "TWFu"
  /\ KafkaConfig.b64encode [Byte.x4d; Byte.x61] = "TWE="
  /\ KafkaConfig.b64encode [Byte.x4d] = "TQ==".
Proof. repeat split; reflexivity. Qed.

(** ** image_processor.py *)

Module ImageProcessor.
Import KafkaConfig.

Section Engine.
(** The CLIP model invoked by [analyze_image] (decode, preprocess,
    softmax, top 8): given the [image_data] field it returns the list of
    [{label, confidence}] entries and the elapsed time, or raises. *)
Variable engine : value -> exn + (list value * Z).

(** [CLIPImageProcessor.analyze_image]: its handler prints and re-raises. *)
Definition analyze_image (image_data : value) : M services (value * value) :=
  try_except
    (r <- lift_res (engine image_data) ;;
     ret (VList r.1, VNum r.2))
    (fun e => raise e).

(** [request_id[:8]] in the first [print], outside the [try]. *)
Definition slice8 (v : value) : exn + unit :=
  match v with
  | VStr _ | VBytes _ | VList _ => inr tt
  | VDict _ => inl (TypeError "unhashable type: 'slice'")
  | _ => inl (TypeError "object is not subscriptable")
  end.

(** [CLIPImageProcessor.process_image_message].  [now] and [later] are
    the timestamps [datetime.utcnow()] gives to the two sends. *)
Definition process_image_message (now later : string) (message_data : dict)
  : M services unit :=
  request_id <- lift_res (dict_item message_data "request_id") ;;
  user_id <- lift_res (dict_item message_data "user_id") ;;
  filename <- lift_res (dict_item message_data "filename") ;;
  _ <- lift_res (slice8 request_id) ;;
  try_except
    (image_data <- lift_res (dict_item message_data "image_data") ;;
     r <- analyze_image image_data ;;
     send_analysis_result request_id r.1 user_id r.2 VNone now)
    (fun e =>
       send_analysis_result request_id (VList []) user_id VNone
         (VStr (str_exn e)) later).
End Engine.

End ImageProcessor.

(** ** Uploads and HTTP responses *)

(** Starlette's [UploadFile]: [filename] and [content_type] may be absent. *)
Record UploadFile : Type := {
  filename : value;
  content_type : option string;
  payload : list Byte.byte
}.

(** [file.content_type.startswith('image/')] *)
Definition content_type_is_image (file : UploadFile) : exn + bool :=
  match content_type file with
  | Some ct => inr (String.prefix "image/" ct)
  | None => inl (AttributeError "'NoneType' object has no attribute 'startswith'")
  end.

(** [len(image_data) > 10 * 1024 * 1024] *)
Definition too_large (image_data : list Byte.byte) : bool :=
  Z.of_nat (length image_data) >? 10 * 1024 * 1024.

(** The status code FastAPI answers with: 200 for a returned value, the
    code of a raised [HTTPException], 500 for any other exception. *)
Definition http_status {A} (r : exn + A) : Z :=
  match r with
  | inr _ => 200
  | inl (HTTPException c _) => c
  | inl _ => 500
  end.

(** ** simple_api.py *)

Module SimpleApi.
Import KafkaConfig.

(** The module globals.  The two tables are declared [Dict[str, dict]];
    the endpoints use them at [str] keys, the ids they generate and the
    path parameters, while [handle_analysis_result] uses whatever value
    the message has for its id. *)
Record state : Type := {
  analysis_results : gmap key dict;
  pending_requests : gmap key dict;
  svc : services
}.

Definition with_svc {A} (m : M services A) : M state A :=
  zoom svc (fun sv st => {| analysis_results := analysis_results st;
                            pending_requests := pending_requests st;
                            svc := sv |}) m.

Definition set_pending (p : gmap key dict) (st : state) : state :=
  {| analysis_results := analysis_results st; pending_requests := p; svc := svc st |}.

(** [handle_analysis_result].  A truthy id is used as the key, whatever
    its type; one that cannot be hashed makes the assignment raise. *)
Definition handle_analysis_result (result_data : dict) : M state unit :=
  let request_id := dict_get result_data "request_id" in
  if truthy request_id then
    k <- lift_res (hash_key request_id) ;;
    modify (fun st =>
      {| analysis_results := <[k := result_data]> (analysis_results st);
         pending_requests := delete k (pending_requests st);
         svc := svc st |})
  else ret tt.

(** [analyze_image].  [uuid] and [now] are what [uuid.uuid4()] and
    [datetime.now().isoformat()] return here; [uuid_p] and [now_p] are
    the ones the producer would draw. *)
Definition analyze_image (file : UploadFile) (uuid now uuid_p now_p : string)
  : M state dict :=
  try_except
    (is_image <- lift_res (content_type_is_image file) ;;
     if negb is_image then raise (HTTPException 400 "File must be an image") else
     let image_data := payload file in
     if too_large image_data then raise (HTTPException 400 "Image too large (max 10MB)") else
     let request_id := uuid in
     let size := VNum (Z.of_nat (length image_data)) in
     modify (fun st => set_pending
       (<[KStr request_id :=
            <["filename" := filename file]>
            (<["content_type" := from_option VStr VNone (content_type file)]>
            (<["size" := size]>
            (<["submitted_at" := VStr now]>
            (<["status" := VStr "submitted"]> ∅))))]> (pending_requests st)) st) ;;;
     success <- with_svc (send_image_for_analysis
                  [("image_data", VBytes image_data);
                   ("filename", filename file);
                   ("request_id", VStr request_id);
                   ("user_id", VStr "api-user")] uuid_p now_p) ;;
     if truthy (VStr success) then
       st <- get ;;
       entry <- match pending_requests st !! KStr request_id with
                | Some e => ret e
                | None => raise (KeyError request_id)
                end ;;
       modify (set_pending
         (<[KStr request_id := <["status" := VStr "processing"]> entry]>
            (pending_requests st))) ;;;
       ret (<["request_id" := VStr request_id]>
            (<["status" := VStr "accepted"]>
            (<["message" := VStr "Image submitted for analysis"]>
            (<["filename" := filename file]>
            (<["size_bytes" := size]> (∅ : dict))))))
     else raise (HTTPException 500 "Failed to submit image for processing"))
    (fun e => raise (HTTPException 500 (str_exn e))).

(** [get_status] *)
Definition get_status (request_id : string) : M state dict :=
  st <- get ;;
  match analysis_results st !! KStr request_id with
  | Some result =>
      ret (<["request_id" := VStr request_id]>
           (<["status" := VStr "completed"]>
           (<["result_available" := VBool true]>
           (<["completed_at" := dict_get result "timestamp"]> (∅ : dict)))))
  | None =>
      match pending_requests st !! KStr request_id with
      | Some entry =>
          status <- lift_res (dict_item entry "status") ;;
          submitted_at <- lift_res (dict_item entry "submitted_at") ;;
          ret (<["request_id" := VStr request_id]>
               (<["status" := status]>
               (<["result_available" := VBool false]>
               (<["submitted_at" := submitted_at]> (∅ : dict)))))
      | None =>
          ret (<["request_id" := VStr request_id]>
               (<["status" := VStr "not_found"]>
               (<["result_available" := VBool false]> (∅ : dict))))
      end
  end.

(** [get_result] *)
Definition get_result (request_id : string) : M state dict :=
  st <- get ;;
  match analysis_results st !! KStr request_id with
  | None =>
      match pending_requests st !! KStr request_id with
      | Some _ =>
          raise (HTTPException 202
                   "Analysis still in progress. Check /status/{request_id}")
      | None => raise (HTTPException 404 "Request ID not found")
      end
  | Some result =>
      ret (<["request_id" := VStr request_id]>
           (<["status" := VStr "completed"]>
           (<["analysis" := VDict
                (<["predictions" := dict_get_or result "predictions" (VList [])]>
                (<["confidence_scores" :=
                     dict_get_or result "confidence_scores" (VList [])]>
                (<["top_prediction" := dict_get result "top_prediction"]>
                (<["processing_time_seconds" :=
                     dict_get result "processing_time_seconds"]>
                (<["model_info" := dict_get_or result "model_info" (VDict ∅)]>
                   ∅)))))]>
           (<["metadata" := VDict
                (<["filename" := dict_get result "filename"]>
                (<["analyzed_at" := dict_get result "timestamp"]>
                (<["image_dimensions" := dict_get result "image_dimensions"]>
                   ∅)))]> (∅ : dict)))))
  end.

(** [cleanup_old_results] *)
Definition cleanup_old_results : M state dict :=
  st <- get ;;
  let old_count := size (analysis_results st) in
  modify (fun st => {| analysis_results := ∅; pending_requests := ∅;
                       svc := svc st |}) ;;;
  ret (<["message" := VStr ("Cleaned up " +:+ pretty old_count +:+ " old results")]>
       (<["remaining_results" := VNum 0]> (∅ : dict))).

End SimpleApi.

(** ** realtime_app.py *)

Module RealtimeApp.
Import KafkaConfig.

(** A client connection.  [send_text] on a connection the client has
    left raises; otherwise the frame is written. *)
Record WebSocket : Type := {
  ws_id : nat;
  ws_open : bool
}.

(** [manager.active_connections] (the only table [ConnectionManager.__init__]
    creates besides the Redis client, whose database is [store svc]), the
    frames written so far (socket id and message, before [json.dumps]),
    and the counters of [metrics.py] when that module could be imported. *)
Record state : Type := {
  active_connections : odict WebSocket;
  svc : services;
  frames : list (nat * dict);
  metrics_available : bool;
  image_uploads : nat;
  analysis_errors : nat
}.

Definition with_svc {A} (m : M services A) : M state A :=
  zoom svc (fun sv st =>
    {| active_connections := active_connections st; svc := sv;
       frames := frames st; metrics_available := metrics_available st;
       image_uploads := image_uploads st;
       analysis_errors := analysis_errors st |}) m.

Definition set_connections (c : odict WebSocket) (st : state) : state :=
  {| active_connections := c; svc := svc st; frames := frames st;
     metrics_available := metrics_available st;
     image_uploads := image_uploads st; analysis_errors := analysis_errors st |}.

(** [websocket.send_text(json.dumps(message))] *)
Definition send_text (ws : WebSocket) (message : dict) : M state unit :=
  if ws_open ws then
    modify (fun st =>
      {| active_connections := active_connections st; svc := svc st;
         frames := (frames st ++ [(ws_id ws, message)])%list;
         metrics_available := metrics_available st;
         image_uploads := image_uploads st;
         analysis_errors := analysis_errors st |})
  else raise (Error "RuntimeError" "Cannot call send once the connection is closed").

(** [ConnectionManager.connect], after [websocket.accept()] *)
Definition connect (websocket : WebSocket) (user_id : string) : M state unit :=
  modify (fun st => set_connections (<[user_id := websocket]> (active_connections st)) st).

(** [ConnectionManager.disconnect] *)
Definition disconnect (user_id : string) : M state unit :=
  modify (fun st => set_connections (delete user_id (active_connections st)) st) ;;;
  try_except
    (with_svc (Redis.delete ("user_requests:" +:+ user_id)))
    (fun e => ret tt).

(** [ConnectionManager.send_personal_message] *)
Definition send_personal_message (message : dict) (user_id : string)
  : M state unit :=
  st <- get ;;
  match active_connections st !! user_id with
  | Some ws => try_except (send_text ws message) (fun e => disconnect user_id)
  | None => ret tt
  end.

(** [ConnectionManager.broadcast]: the first loop goes through
    [active_connections.items()] and collects the users whose send
    raised, the second disconnects them. *)
Fixpoint broadcast_sends (message : dict) (conns : list (string * WebSocket))
  : M state (list string) :=
  match conns with
  | [] => ret []
  | (user_id, connection) :: rest =>
      failed <- try_except (send_text connection message ;;; ret false)
                           (fun e => ret true) ;;
      more <- broadcast_sends message rest ;;
      ret (if failed : bool then user_id :: more else more)
  end.

Fixpoint disconnect_all (users : list string) : M state unit :=
  match users with
  | [] => ret tt
  | user_id :: rest => disconnect user_id ;;; disconnect_all rest
  end.

Definition broadcast (message : dict) : M state unit :=
  st <- get ;;
  disconnected_users <- broadcast_sends message (items (active_connections st)) ;;
  disconnect_all disconnected_users.

(** [ConnectionManager.add_request_for_user] *)
Definition add_request_for_user (user_id request_id : string) : M state unit :=
  try_except
    (with_svc
       (let key := "user_requests:" +:+ user_id in
        Redis.lpush key request_id ;;;
        Redis.expire key 3600 ;;;
        let reverse_key := "request_user:" +:+ request_id in
        Redis.set reverse_key user_id 3600))
    (fun e => ret tt).

(** [ConnectionManager.get_user_for_request] *)
Definition get_user_for_request (request_id : string) : M state (option string) :=
  try_except
    (let reverse_key := "request_user:" +:+ request_id in
     user_id <- with_svc (Redis.get reverse_key) ;;
     match user_id with
     | Some u => if truthy (VStr u) then ret (Some u) else ret None
     | None => ret None
     end)
    (fun e => ret None).

Definition analysis_result_message (request_id : value) (result_data : dict) : dict :=
  <["type" := VStr "analysis_result"]>
  (<["request_id" := request_id]>
  (<["data" := VDict result_data]> ∅)).

Definition system_stats_message (now : string) : dict :=
  <["type" := VStr "system_stats"]>
  (<["data" := VDict (<["total_processed" := VNum 1]>
                     (<["timestamp" := VStr now]> ∅))]> ∅).

Section ResultRouter.
(** [repr(v)] for a value that is not a [str]: the text Python prints
    for a number, [None], a boolean, a list or a dictionary.  It is the
    interpreter's, and depends on what the values of the model do not
    record (the digits of a fractional number, the order of the keys of a
    dictionary). *)
Variable repr : value -> string.

(** [f"{v}"]: a [str] is inserted as it is, any other value as its
    [repr]. *)
Definition fstring (v : value) : string :=
  match v with
  | VStr s => s
  | _ => repr v
  end.

(** [consume_results.handle_result].  The id of the result is whatever
    value the message carries.  [get_user_for_request] uses its argument
    in f-strings only, and is called here on the formatted id. *)
Definition handle_result (now : string) (result_data : dict) : M state unit :=
  request_id <- lift_res (dict_item result_data "request_id") ;;
  user_id <- get_user_for_request (fstring request_id) ;;
  match user_id with
  | Some user_id =>
      try_except
        (send_personal_message (analysis_result_message request_id result_data)
                               user_id ;;;
         broadcast (system_stats_message now))
        (fun e => ret tt)
  | None => ret tt
  end.
End ResultRouter.

(** The multipart form of [upload_image]: [form.get("file")] is an
    upload, a plain text field, or absent. *)
Inductive form_field : Type :=
| FormFile (f : UploadFile)
| FormText (s : string).

Record form : Type := {
  form_file : option form_field;
  form_user_id : option string
}.

Definition bump_uploads (st : state) : state :=
  {| active_connections := active_connections st; svc := svc st;
     frames := frames st; metrics_available := metrics_available st;
     image_uploads := S (image_uploads st);
     analysis_errors := analysis_errors st |}.

Definition bump_errors (st : state) : state :=
  {| active_connections := active_connections st; svc := svc st;
     frames := frames st; metrics_available := metrics_available st;
     image_uploads := image_uploads st;
     analysis_errors := S (analysis_errors st) |}.

(** [upload_image] *)
Definition upload_image (request : form) (uuid now : string) : M state dict :=
  try_except
    (let user_id := default "anonymous" (form_user_id request) in
     file <- match form_file request with
             | Some (FormFile f) => ret f
             | _ => raise (HTTPException 400 "No file provided")
             end ;;
     is_image <- lift_res (content_type_is_image file) ;;
     if negb is_image then raise (HTTPException 400 "File must be an image") else
     let image_data := payload file in
     if too_large image_data then raise (HTTPException 400 "Image too large (max 10MB)") else
     request_id <- with_svc (send_image_for_analysis
                     [("image_data", VBytes image_data);
                      ("filename", filename file);
                      ("user_id", VStr user_id)] uuid now) ;;
     add_request_for_user user_id request_id ;;;
     send_personal_message
       (<["type" := VStr "upload_received"]>
        (<["request_id" := VStr request_id]>
        (<["filename" := filename file]>
        (<["message" := VStr "Image received and queued for processing"]> ∅))))
       user_id ;;;
     st <- get ;;
     (if metrics_available st then modify bump_uploads else ret tt) ;;;
     ret (<["status" := VStr "success"]>
          (<["request_id" := VStr request_id]>
          (<["message" := VStr "Image uploaded and queued for processing"]>
             (∅ : dict)))))
    (fun e =>
       st <- get ;;
       (if metrics_available st then modify bump_errors else ret tt) ;;;
       raise (HTTPException 500 (str_exn e))).

(** Attribute lookup on the [ConnectionManager] instance: the two
    attributes [__init__] assigns and the methods of the class.  No
    other attribute is assigned anywhere. *)
Inductive attr : Type :=
| AConnections (c : odict WebSocket)
| ARedisClient
| AMethod (name : string).

Definition ConnectionManager_methods : list string :=
  ["connect"; "disconnect"; "send_personal_message"; "broadcast";
   "add_request_for_user"; "get_user_for_request"].

Definition manager_getattr (name : string) : M state attr :=
  st <- get ;;
  if String.eqb name "active_connections" then ret (AConnections (active_connections st))
  else if String.eqb name "redis_client" then ret ARedisClient
  else if bool_decide (name ∈ ConnectionManager_methods) then ret (AMethod name)
  else raise (AttributeError
                ("'ConnectionManager' object has no attribute '" +:+ name +:+ "'")).

Definition len (a : attr) : exn + value :=
  match a with
  | AConnections c => inr (VNum (Z.of_nat (size c)))
  | _ => inl (TypeError "object has no len()")
  end.

(** [get_stats] *)
Definition get_stats (now : string) : M state dict :=
  conns <- manager_getattr "active_connections" ;;
  active <- lift_res (len conns) ;;
  requests <- manager_getattr "user_requests" ;;
  total_users <- lift_res (len requests) ;;
  ret (<["active_connections" := active]>
       (<["total_users" := total_users]>
       (<["kafka_connected" := VBool true]>
       (<["timestamp" := VStr now]> (∅ : dict))))).

(** [try: body  except cls: handler], for one class of [Exception] *)
Definition try_except_class {A} (cls : string) (body handler : M state A)
  : M state A :=
  fun s => match body s with
           | (inl (Error c msg), s') =>
               if String.eqb c cls then handler s' else (inl (Error c msg), s')
           | r => r
           end.

(** [message.get(key)] on what [json.loads] returned *)
Definition value_get (message : value) (key : string) : exn + value :=
  match message with
  | VDict d => inr (dict_get d key)
  | _ => inl (AttributeError "object has no attribute 'get'")
  end.

Definition is_ping (v : value) : bool :=
  match v with
  | VStr s => String.eqb s "ping"
  | _ => false
  end.

Definition pong_message (now : string) : dict :=
  <["type" := VStr "pong"]> (<["timestamp" := VStr now]> ∅).

Definition connection_established_message : dict :=
  <["type" := VStr "connection_established"]>
  (<["message" := VStr "Connected to real-time CLIP analysis service"]> ∅).

(** The [while True] loop of [websocket_endpoint].  [incoming] lists the
    frames the client sends before it leaves, each with the outcome of
    [json.loads] on it and the time it is handled at; once they are
    exhausted [receive_text] raises [WebSocketDisconnect]. *)
Fixpoint receive_loop (user_id : string) (incoming : list (string * (exn + value)))
  : M state unit :=
  match incoming with
  | [] => raise (Error "WebSocketDisconnect" "")
  | (now, parsed) :: rest =>
      message <- lift_res parsed ;;
      message_type <- lift_res (value_get message "type") ;;
      (if is_ping message_type
       then send_personal_message (pong_message now) user_id
       else ret tt) ;;;
      receive_loop user_id rest
  end.

(** [websocket_endpoint], after [websocket.accept()] *)
Definition websocket_endpoint (websocket : WebSocket) (user_id : string)
    (incoming : list (string * (exn + value))) : M state unit :=
  connect websocket user_id ;;;
  send_personal_message connection_established_message user_id ;;;
  try_except_class "WebSocketDisconnect"
    (receive_loop user_id incoming)
    (disconnect user_id).

(** [health_check], the sibling endpoint that reads only
    [manager.active_connections] *)
Definition health_check (now : string) : M state dict :=
  conns <- manager_getattr "active_connections" ;;
  active <- lift_res (len conns) ;;
  ret (<["status" := VStr "healthy"]>
       (<["timestamp" := VStr now]>
       (<["kafka_connected" := VBool true]>
       (<["active_connections" := active]> (∅ : dict))))).

End RealtimeApp.

(** * Properties *)

(** An upload the validation of both endpoints refuses: its content type
    is missing or does not start with [image/], or its payload is larger
    than 10 MB. *)
Definition invalid_upload (file : UploadFile) : Prop :=
  content_type_is_image file <> inr true \/ too_large (payload file) = true.

Definition valid_upload (file : UploadFile) : Prop :=
  content_type_is_image file = inr true /\ too_large (payload file) = false.

Definition jpeg_upload : UploadFile :=
  {| filename := VStr "cat.jpg"; content_type := Some "image/jpeg";
     payload := [Byte.xff; Byte.xd8; Byte.xff] |}.

Definition text_upload : UploadFile :=
  {| filename := VStr "notes.txt"; content_type := Some "text/plain";
     payload := [Byte.x68; Byte.x69] |}.

Definition no_services : services :=
  {| broker := []; unacked := []; broker_outcomes := []; store := ∅;
     store_outcomes := []; calls := [] |}.

Definition fresh_api : SimpleApi.state :=
  {| SimpleApi.analysis_results := ∅; SimpleApi.pending_requests := ∅;
     SimpleApi.svc := no_services |}.

(** Unfolding of the monad, for proofs by evaluation. *)
Ltac run_monad :=
  unfold try_except, zoom, bind, ret, raise, get, modify, lift_res in *.

(** ** Dictionaries in insertion order *)

Section Odict.
Context {V : Type}.
Implicit Types (d : odict V) (k : string) (v : V) (l : list (string * V)).

Lemma assoc_lookup_insert_eq l k v : assoc_lookup k (assoc_insert k v l) = Some v.
Proof.
  induction l as [|[k' v'] l IH]; cbn.
  - by rewrite decide_True.
  - destruct (decide (k' = k)) as [->|Hne]; cbn.
    + by rewrite decide_True.
    + by rewrite decide_False.
Qed.

Lemma assoc_lookup_insert_ne l k k' v :
  k <> k' -> assoc_lookup k' (assoc_insert k v l) = assoc_lookup k' l.
Proof.
  intros Hne. induction l as [|[k0 v0] l IH]; cbn.
  - by rewrite decide_False.
  - destruct (decide (k0 = k)) as [->|Hk]; cbn.
    + by rewrite !decide_False.
    + destruct (decide (k0 = k')); [reflexivity|exact IH].
Qed.

Lemma assoc_lookup_delete_eq l k : assoc_lookup k (assoc_delete k l) = None.
Proof.
  unfold assoc_delete. induction l as [|[k' v'] l IH]; [reflexivity|].
  rewrite filter_cons. cbn.
  destruct (decide (k' <> k)) as [Hne|Heq]; [|exact IH].
  cbn. by rewrite decide_False.
Qed.

Lemma assoc_lookup_delete_ne l k k' :
  k <> k' -> assoc_lookup k' (assoc_delete k l) = assoc_lookup k' l.
Proof.
  intros Hne. unfold assoc_delete. induction l as [|[k0 v0] l IH]; [reflexivity|].
  rewrite filter_cons. cbn.
  destruct (decide (k0 <> k)) as [Hk|Hk]; cbn.
  - destruct (decide (k0 = k')); [reflexivity|exact IH].
  - apply dec_stable in Hk. subst k0. by rewrite decide_False.
Qed.

Lemma odict_lookup_insert_eq d k v : <[k := v]> d !! k = Some v.
Proof. apply assoc_lookup_insert_eq. Qed.

Lemma odict_lookup_insert_ne d k k' v : k <> k' -> <[k := v]> d !! k' = d !! k'.
Proof. apply assoc_lookup_insert_ne. Qed.

Lemma odict_lookup_delete_eq d k : delete k d !! k = None.
Proof. apply assoc_lookup_delete_eq. Qed.

Lemma odict_lookup_delete_ne d k k' : k <> k' -> delete k d !! k' = d !! k'.
Proof. apply assoc_lookup_delete_ne. Qed.

(** In a dictionary no key occurs twice, and the entries are what the
    lookups give. *)
Lemma assoc_lookup_None l k : k ∉ l.*1 -> assoc_lookup k l = None.
Proof.
  induction l as [|[k' v'] l IH]; [reflexivity|]. cbn. intros Hnin.
  rewrite decide_False.
  - apply IH. intros H. apply Hnin. by right.
  - intros ->. apply Hnin. by left.
Qed.

Lemma odict_elem_of_items d k v :
  NoDup (items d).*1 -> (k, v) ∈ items d <-> d !! k = Some v.
Proof.
  unfold lookup, odict_lookup. generalize (items d) as l. clear d.
  induction l as [|[k' v'] l IH]; cbn; intros Hnd.
  - split; [intros H; by apply elem_of_nil in H|discriminate].
  - apply NoDup_cons in Hnd as [Hnin Hnd].
    destruct (decide (k' = k)) as [->|Hne].
    + split.
      * intros H. apply elem_of_cons in H as [[= ->]|H]; [reflexivity|].
        destruct Hnin. apply list_elem_of_fmap. by exists (k, v).
      * intros [= ->]. by left.
    + rewrite <- (IH Hnd). split.
      * intros H. apply elem_of_cons in H as [[= -> ->]|H]; [done|exact H].
      * intros H. by right.
Qed.

Lemma assoc_insert_keys l k v :
  (assoc_insert k v l).*1 = if decide (k ∈ l.*1) then l.*1 else (l.*1 ++ [k])%list.
Proof.
  induction l as [|[k' v'] l IH]; cbn.
  - rewrite decide_False; [reflexivity|]. intros H. by apply elem_of_nil in H.
  - destruct (decide (k' = k)) as [->|Hne]; cbn.
    + rewrite decide_True; [reflexivity|by left].
    + rewrite IH. destruct (decide (k ∈ l.*1)) as [Hin|Hnin].
      * rewrite decide_True; [reflexivity|by right].
      * rewrite decide_False; [reflexivity|].
        intros H. apply elem_of_cons in H as [->|H]; done.
Qed.

Lemma odict_insert_NoDup d k v :
  NoDup (items d).*1 -> NoDup (items (<[k := v]> d)).*1.
Proof.
  intros Hnd. unfold insert, odict_insert. cbn. rewrite assoc_insert_keys.
  destruct (decide (k ∈ (items d).*1)) as [Hin|Hnin]; [exact Hnd|].
  apply NoDup_app. split; [exact Hnd|]. split.
  - intros x Hx Hx'. apply list_elem_of_singleton in Hx'. by subst x.
  - apply NoDup_singleton.
Qed.

Lemma assoc_delete_NoDup l k : NoDup l.*1 -> NoDup (assoc_delete k l).*1.
Proof.
  unfold assoc_delete. induction l as [|[k' v'] l IH]; [done|]. intros Hnd.
  rewrite fmap_cons in Hnd. apply NoDup_cons in Hnd as [Hnin Hnd].
  rewrite filter_cons.
  destruct (decide ((k', v').1 <> k)); [|by apply IH].
  rewrite fmap_cons. apply NoDup_cons. split; [|by apply IH].
  intros H. apply Hnin. apply list_elem_of_fmap in H as ([k0 v0] & E & H).
  apply list_elem_of_filter in H as [_ H]. apply list_elem_of_fmap. by exists (k0, v0).
Qed.

Lemma odict_delete_NoDup d k :
  NoDup (items d).*1 -> NoDup (items (delete k d)).*1.
Proof. apply assoc_delete_NoDup. Qed.

End Odict.

Lemma unexpected_request_id uuid (image_data fname : value) :
  bind_keywords "send_image_for_analysis" KafkaConfig.send_image_for_analysis_sig
    [("image_data", image_data); ("filename", fname);
     ("request_id", VStr uuid); ("user_id", VStr "api-user")]
  = inl (TypeError
      "send_image_for_analysis() got an unexpected keyword argument 'request_id'").
Proof. reflexivity. Qed.

Lemma invalid_upload_cases file :
  invalid_upload file ->
  content_type file = None
  \/ (exists ct, content_type file = Some ct /\ String.prefix "image/" ct = false)
  \/ (exists ct, content_type file = Some ct /\ String.prefix "image/" ct = true
                 /\ too_large (payload file) = true).
Proof.
  unfold invalid_upload, content_type_is_image.
  destruct (content_type file) as [ct|]; [|by left].
  destruct (String.prefix "image/" ct) eqn:Hp; intros [H|H]; try congruence.
  - right; right; eauto.
  - right; left; eauto.
  - right; left; eauto.
Qed.

Section SimpleApiUpload.
Import SimpleApi.

(** The entry [analyze_image] stores before it calls the producer. *)
Definition submitted_entry (file : UploadFile) (now : string) : dict :=
  <["filename" := filename file]>
  (<["content_type" := from_option VStr VNone (content_type file)]>
  (<["size" := VNum (Z.of_nat (length (payload file)))]>
  (<["submitted_at" := VStr now]>
  (<["status" := VStr "submitted"]> ∅)))).

(** C1, on the code: a valid upload never reaches the broker.  The call
    [send_image_for_analysis(..., request_id=...)] names a parameter the
    method does not have, the [TypeError] is turned into a 500 response,
    and the request stays in [pending_requests] as "submitted". *)
Theorem analyze_image_valid_upload_is_500 file uuid now uuid_p now_p st :
  valid_upload file ->
  exists detail,
    analyze_image file uuid now uuid_p now_p st =
      (inl (HTTPException 500 detail),
       {| analysis_results := analysis_results st;
          pending_requests := <[KStr uuid := submitted_entry file now]> (pending_requests st);
          svc := svc st |}).
Proof.
  intros [Hct Hsz]. unfold analyze_image, KafkaConfig.send_image_for_analysis, with_svc.
  run_monad. rewrite Hct. cbn [negb]. rewrite Hsz.
  rewrite unexpected_request_id. cbn. eexists. reflexivity.
Qed.

Lemma analyze_image_valid_upload_is_500_witness :
  valid_upload jpeg_upload
  /\ http_status (analyze_image jpeg_upload "u1" "t0" "u2" "t1" fresh_api).1 = 500
  /\ broker (svc (analyze_image jpeg_upload "u1" "t0" "u2" "t1" fresh_api).2) = [].
Proof.
  assert (Hv : valid_upload jpeg_upload) by (split; reflexivity).
  split; [exact Hv|].
  destruct (analyze_image_valid_upload_is_500 jpeg_upload "u1" "t0" "u2" "t1" fresh_api Hv)
    as [detail ->].
  split; reflexivity.
Defined.

(** An upload refused by validation: the 400 raised inside the [try] is
    caught by [except Exception] and answered as a 500; nothing changes. *)
Lemma analyze_image_invalid file uuid now uuid_p now_p st :
  invalid_upload file ->
  exists detail,
    analyze_image file uuid now uuid_p now_p st = (inl (HTTPException 500 detail), st).
Proof.
  intros H. apply invalid_upload_cases in H.
  unfold analyze_image, content_type_is_image. run_monad.
  destruct H as [H|[(ct & H & Hp)|(ct & H & Hp & Hsz)]]; rewrite H; cbn.
  - eauto.
  - rewrite Hp. cbn. eauto.
  - rewrite Hp. cbn. rewrite Hsz. cbn. eauto.
Qed.
End SimpleApiUpload.

Section RealtimeUpload.
Import RealtimeApp.

(** What the handler of [upload_image] leaves behind: the error counter
    is bumped when [metrics] is loaded, nothing else moves. *)
Definition after_upload_error (st : state) : state :=
  if metrics_available st then bump_errors st else st.

Lemma upload_image_invalid file user_id uuid now st :
  invalid_upload file ->
  exists detail,
    upload_image {| form_file := Some (FormFile file); form_user_id := user_id |}
                 uuid now st
    = (inl (HTTPException 500 detail), after_upload_error st).
Proof.
  intros H. apply invalid_upload_cases in H.
  unfold upload_image, content_type_is_image, after_upload_error. run_monad. cbn.
  destruct H as [H|[(ct & H & Hp)|(ct & H & Hp & Hsz)]]; rewrite H; cbn.
  - destruct (metrics_available st); cbn; eauto.
  - rewrite Hp. cbn. destruct (metrics_available st); cbn; eauto.
  - rewrite Hp. cbn. rewrite Hsz. cbn. destruct (metrics_available st); cbn; eauto.
Qed.

(** Attribute lookup succeeds on the names the class and [__init__]
    define, and on no other. *)
Lemma manager_getattr_defined name st :
  (exists a, manager_getattr name st = (inr a, st))
  <-> name = "active_connections" \/ name = "redis_client"
      \/ name ∈ ConnectionManager_methods.
Proof.
  unfold manager_getattr. run_monad.
  destruct (String.eqb_spec name "active_connections") as [->|H1].
  { split; [by left|]. intros _. eauto. }
  destruct (String.eqb_spec name "redis_client") as [->|H2].
  { split; [right; by left|]. intros _. eauto. }
  destruct (bool_decide_reflect (name ∈ ConnectionManager_methods)) as [H3|H3].
  - split; [by right; right|]. intros _. eauto.
  - split; [intros [a [=]]|]. intros [?|[?|?]]; done.
Qed.

Lemma health_check_answers now st :
  http_status (health_check now st).1 = 200 /\ (health_check now st).2 = st.
Proof. split; reflexivity. Qed.

(** C10: [get_stats] reads [manager.user_requests], which no
    [ConnectionManager] has; every call raises [AttributeError], state
    untouched, and FastAPI answers 500. *)
Theorem get_stats_raises_AttributeError now st :
  get_stats now st
    = (inl (AttributeError "'ConnectionManager' object has no attribute 'user_requests'"),
       st)
  /\ http_status (get_stats now st).1 = 500.
Proof. split; reflexivity. Qed.
End RealtimeUpload.

(** C2, on the code: an upload refused by validation is answered with
    status 500 by both endpoints, not 400: the [HTTPException(400)] is
    raised inside the [try] whose [except Exception] re-raises a 500. *)
Theorem invalid_upload_is_answered_500 file uuid now uuid_p now_p user_id st st' :
  invalid_upload file ->
  http_status (SimpleApi.analyze_image file uuid now uuid_p now_p st).1 = 500
  /\ http_status
       (RealtimeApp.upload_image
          {| RealtimeApp.form_file := Some (RealtimeApp.FormFile file);
             RealtimeApp.form_user_id := user_id |} uuid now st').1 = 500.
Proof.
  intros H. split.
  - destruct (analyze_image_invalid file uuid now uuid_p now_p st H) as [d ->].
    reflexivity.
  - destruct (upload_image_invalid file user_id uuid now st' H) as [d ->].
    reflexivity.
Qed.

Lemma invalid_upload_is_answered_500_witness :
  invalid_upload text_upload
  /\ http_status (SimpleApi.analyze_image text_upload "u1" "t0" "u2" "t1" fresh_api).1
     = 500.
Proof.
  assert (H : invalid_upload text_upload) by (left; discriminate).
  split; [exact H|].
  exact (proj1 (invalid_upload_is_answered_500 text_upload "u1" "t0" "u2" "t1" None
                  fresh_api
                  {| RealtimeApp.active_connections := ∅; RealtimeApp.svc := no_services;
                     RealtimeApp.frames := []; RealtimeApp.metrics_available := false;
                     RealtimeApp.image_uploads := 0; RealtimeApp.analysis_errors := 0 |}
                  H)).
Defined.

(** C6: an upload refused by validation makes no call to the broker or
    to the store.  [analyze_image] leaves its whole state as it was, tables
    included; [upload_image] leaves the services, the registry and the
    frames as they were. *)
Theorem rejected_upload_leaves_broker_and_store file uuid now uuid_p now_p user_id st st' :
  invalid_upload file ->
  (SimpleApi.analyze_image file uuid now uuid_p now_p st).2 = st
  /\ let after := (RealtimeApp.upload_image
                     {| RealtimeApp.form_file := Some (RealtimeApp.FormFile file);
                        RealtimeApp.form_user_id := user_id |} uuid now st').2 in
     RealtimeApp.svc after = RealtimeApp.svc st'
     /\ RealtimeApp.active_connections after = RealtimeApp.active_connections st'
     /\ RealtimeApp.frames after = RealtimeApp.frames st'.
Proof.
  intros H. split.
  - destruct (analyze_image_invalid file uuid now uuid_p now_p st H) as [d ->].
    reflexivity.
  - destruct (upload_image_invalid file user_id uuid now st' H) as [d ->].
    cbn. unfold after_upload_error.
    destruct (RealtimeApp.metrics_available st'); repeat split.
Qed.

Definition fresh_realtime : RealtimeApp.state :=
  {| RealtimeApp.active_connections := ∅; RealtimeApp.svc := no_services;
     RealtimeApp.frames := []; RealtimeApp.metrics_available := true;
     RealtimeApp.image_uploads := 0; RealtimeApp.analysis_errors := 0 |}.

Lemma rejected_upload_leaves_broker_and_store_witness :
  invalid_upload text_upload
  /\ calls (RealtimeApp.svc
       (RealtimeApp.upload_image
          {| RealtimeApp.form_file := Some (RealtimeApp.FormFile text_upload);
             RealtimeApp.form_user_id := Some "alice" |} "u1" "t0" fresh_realtime).2)
     = [].
Proof.
  assert (H : invalid_upload text_upload) by (left; discriminate).
  split; [exact H|].
  pose proof (rejected_upload_leaves_broker_and_store text_upload "u1" "t0" "u2" "t1"
                (Some "alice") fresh_api fresh_realtime H) as [_ [Hsvc _]].
  cbn zeta in Hsvc. rewrite Hsvc. reflexivity.
Defined.

(** ** The consume loop *)

Section ConsumeLoop.
Import KafkaConfig.
Context {S : Type}.
Variable callback : dict -> M S unit.

(** The callback fails with exceptions proper: nothing it raises is a
    [KeyboardInterrupt] or a [SystemExit]. *)
Definition raises_only_Exception : Prop :=
  forall message s e, (callback message s).1 = inl e -> is_Exception e = true.

Definition has_request_id (message : dict) : Prop :=
  is_Some (message !! "request_id").

(** State left by calling the callback on each message in turn, whether
    the calls return or raise. *)
Definition callback_on_all (messages : list dict) (s : S) : S :=
  foldl (fun s message => (callback message s).2) s messages.

Lemma consume_loop_runs_callback_on_all messages s :
  raises_only_Exception ->
  Forall has_request_id messages ->
  consume_loop callback messages s = (inr tt, callback_on_all messages s).
Proof.
  intros Hexn Hall. revert s.
  induction Hall as [|message rest [rid Hrid] _ IH]; intros s; [reflexivity|].
  cbn [consume_loop callback_on_all foldl].
  unfold dict_item. rewrite Hrid. run_monad.
  specialize (Hexn message s).
  destruct (callback message s) as [[e|[]] s']; cbn in *.
  - rewrite (Hexn e eq_refl). apply IH.
  - apply IH.
Qed.
End ConsumeLoop.

(** C9: whatever subset of the calls raises, [consume_images] calls the
    callback on every job message of the sequence, in order, each call
    starting from the state the previous one left, and only then leaves
    the loop: an exception raised for one message is caught and the
    messages after it are still processed. *)
Theorem consume_images_survives_failures {S} (callback : dict -> M S unit)
    (messages : list dict) (c : KafkaConfig.consumer S) :
  raises_only_Exception callback ->
  Forall has_request_id messages ->
  KafkaConfig.consume_images callback messages c
    = (inr tt, {| KafkaConfig.consumer_closed := true;
                  KafkaConfig.app := callback_on_all callback messages
                                       (KafkaConfig.app c) |}).
Proof.
  intros Hexn Hall. unfold KafkaConfig.consume_images, KafkaConfig.consume.
  by rewrite consume_loop_runs_callback_on_all.
Qed.

(** A callback that records the ids it is called on and raises on "bad". *)
Definition picky_callback (message : dict) : M (list value) unit :=
  fun seen =>
    let rid := dict_get message "request_id" in
    (match rid with
     | VStr "bad" => inl (Error "ValueError" "cannot process")
     | _ => inr tt
     end, (seen ++ [rid])%list).

Definition job (rid : string) : dict := <["request_id" := VStr rid]> ∅.

Lemma consume_images_survives_failures_witness :
  (KafkaConfig.consume_images picky_callback [job "a"; job "bad"; job "c"]
     {| KafkaConfig.consumer_closed := false; KafkaConfig.app := [] |}).2
  = {| KafkaConfig.consumer_closed := true;
       KafkaConfig.app := [VStr "a"; VStr "bad"; VStr "c"] |}.
Proof.
  assert (Hexn : raises_only_Exception picky_callback).
  { intros message s e. unfold picky_callback. cbn.
    destruct (dict_get message "request_id") as [| | |rid| | |]; try discriminate.
    destruct (decide (rid = "bad")) as [->|Hne]; [intros [= <-]; reflexivity|].
    intros H. exfalso. revert H.
    repeat (match goal with
            | |- context [match ?x with _ => _ end] => destruct x
            end; try discriminate; try congruence). }
  assert (Hall : Forall has_request_id [job "a"; job "bad"; job "c"]).
  { repeat constructor; eexists; reflexivity. }
  rewrite (consume_images_survives_failures picky_callback _ _ Hexn Hall).
  reflexivity.
Defined.

(** ** Stored results and the query endpoints *)

Section Queries.
Import SimpleApi.

(** A result whose id is a non-empty [str] is stored under that id and
    taken off the pending table. *)
Lemma handle_analysis_result_stores result_data rid st :
  result_data !! "request_id" = Some (VStr rid) ->
  rid <> "" ->
  handle_analysis_result result_data st
    = (inr tt, {| analysis_results := <[KStr rid := result_data]> (analysis_results st);
                  pending_requests := delete (KStr rid) (pending_requests st);
                  svc := svc st |}).
Proof.
  intros Hrid Hne. unfold handle_analysis_result, dict_get.
  rewrite Hrid. cbn.
  apply String.eqb_neq in Hne. rewrite Hne. reflexivity.
Qed.

(** The [analysis] part of what [get_result] answers. *)
Definition analysis_of (r : exn + dict) : option dict :=
  match r with
  | inr response =>
      match response !! "analysis" with
      | Some (VDict analysis) => Some analysis
      | _ => None
      end
  | inl _ => None
  end.

Definition status_of (r : exn + dict) : option value :=
  match r with
  | inr response => response !! "status"
  | inl _ => None
  end.

(** C7, on the code: the worker publishes its predictions under the key
    ["results"] and [get_result] reads the key ["predictions"].  After the
    result of a successful analysis is consumed and stored, [get_result]
    answers "completed" with an empty list of predictions, whatever
    predictions were published. *)
Theorem get_result_loses_published_predictions rid predictions user_id seconds now st :
  rid <> "" ->
  let published :=
    KafkaConfig.result_message (VStr rid) (VList predictions) user_id
                               (VNum seconds) VNone now in
  let stored := (handle_analysis_result published st).2 in
  published !! "results" = Some (VList predictions)
  /\ status_of (get_result rid stored).1 = Some (VStr "completed")
  /\ exists analysis,
       analysis_of (get_result rid stored).1 = Some analysis
       /\ analysis !! "predictions" = Some (VList []).
Proof.
  intros Hne published stored.
  assert (Hrid : published !! "request_id" = Some (VStr rid)) by reflexivity.
  unfold stored. rewrite (handle_analysis_result_stores published rid st Hrid Hne).
  cbn [snd]. unfold get_result. run_monad. cbn [analysis_results].
  rewrite lookup_insert_eq. cbn [fst status_of analysis_of].
  split; [reflexivity|]. split; [reflexivity|].
  eexists. split; reflexivity.
Qed.

Definition cat_prediction : value :=
  VDict (<["label" := VStr "cat"]> (<["confidence" := VNum 9120]> ∅)).

Lemma get_result_loses_published_predictions_witness :
  exists analysis,
    analysis_of
      (get_result "r1"
         (handle_analysis_result
            (KafkaConfig.result_message (VStr "r1") (VList [cat_prediction])
               (VStr "api-user") (VNum 42) VNone "t1") fresh_api).2).1
    = Some analysis
    /\ analysis !! "predictions" = Some (VList []).
Proof.
  assert (Hne : "r1" <> "") by discriminate.
  exact (proj2 (proj2 (get_result_loses_published_predictions
                         "r1" [cat_prediction] (VStr "api-user") 42 "t1" fresh_api Hne))).
Defined.

(** *** Status reads over time *)

(** What can happen to the two tables once a request is known: a result
    arrives from the results topic, a status is read, the tables are
    cleaned up. *)
Inductive event : Type :=
| ResultArrival (result_data : dict)
| StatusRead (request_id : string)
| Cleanup.

Definition step (st : state) (ev : event) : state :=
  match ev with
  | ResultArrival result_data => (handle_analysis_result result_data st).2
  | StatusRead request_id => (get_status request_id st).2
  | Cleanup => (cleanup_old_results st).2
  end.

Definition run (events : list event) (st : state) : state := foldl step st events.

(** The status a read of [rid] shows, if the read answers. *)
Definition reported (rid : string) (st : state) : option value :=
  status_of (get_status rid st).1.

Definition terminal (rid : string) (st : state) : Prop :=
  reported rid st = Some (VStr "completed") \/ reported rid st = Some (VStr "not_found").

Lemma reported_cases rid st :
  reported rid st =
    match analysis_results st !! KStr rid with
    | Some _ => Some (VStr "completed")
    | None =>
        match pending_requests st !! KStr rid with
        | Some entry =>
            match entry !! "status", entry !! "submitted_at" with
            | Some s, Some _ => Some s
            | _, _ => None
            end
        | None => Some (VStr "not_found")
        end
    end.
Proof.
  unfold reported, get_status, dict_item. run_monad.
  destruct (analysis_results st !! KStr rid); [reflexivity|].
  destruct (pending_requests st !! KStr rid) as [entry|]; [|reflexivity].
  destruct (entry !! "status"); [|reflexivity].
  destruct (entry !! "submitted_at"); reflexivity.
Qed.

Lemma handle_analysis_result_tables result_data st :
  (handle_analysis_result result_data st).2 = st
  \/ exists k,
       (handle_analysis_result result_data st).2
       = {| analysis_results := <[k := result_data]> (analysis_results st);
            pending_requests := delete k (pending_requests st);
            svc := svc st |}.
Proof.
  unfold handle_analysis_result.
  destruct (truthy (dict_get result_data "request_id")); [|by left].
  destruct (dict_get result_data "request_id"); try (by left);
    right; eexists; reflexivity.
Qed.

Lemma get_status_reads_only request_id st : (get_status request_id st).2 = st.
Proof.
  unfold get_status, dict_item. run_monad.
  destruct (analysis_results st !! KStr request_id); [reflexivity|].
  destruct (pending_requests st !! KStr request_id) as [entry|]; [|reflexivity].
  destruct (entry !! "status"); [|reflexivity].
  destruct (entry !! "submitted_at"); reflexivity.
Qed.

Lemma terminal_step rid st ev : terminal rid st -> terminal rid (step st ev).
Proof.
  unfold terminal. rewrite !reported_cases. intros H.
  destruct ev as [result_data|request_id|]; cbn [step].
  - destruct (handle_analysis_result_tables result_data st) as [->|[rid' ->]];
      [exact H|].
    cbn [analysis_results pending_requests].
    destruct (decide (rid' = KStr rid)) as [->|Hne].
    + rewrite lookup_insert_eq. by left.
    + rewrite lookup_insert_ne, lookup_delete_ne by done.
      exact H.
  - rewrite get_status_reads_only. exact H.
  - cbn. right. reflexivity.
Qed.

Lemma terminal_run rid events st : terminal rid st -> terminal rid (run events st).
Proof.
  revert st. induction events as [|ev events IH]; intros st H; [exact H|].
  cbn. apply IH, terminal_step, H.
Qed.

(** C8: once a status read of [rid] has shown "completed", the read that
    follows any sequence of result arrivals, status reads and cleanups
    shows "completed" or "not_found", hence neither "pending" nor
    "processing". *)
Theorem status_never_regresses rid st events :
  reported rid st = Some (VStr "completed") ->
  let later := reported rid (run events st) in
  later <> Some (VStr "pending")
  /\ later <> Some (VStr "processing")
  /\ (later = Some (VStr "completed") \/ later = Some (VStr "not_found")).
Proof.
  intros H later.
  assert (Ht : terminal rid (run events st)) by (apply terminal_run; by left).
  unfold terminal in Ht. fold later in Ht.
  destruct Ht as [Ht|Ht]; rewrite Ht; repeat split; try discriminate; auto.
Qed.

Definition completed_r1 : state :=
  {| analysis_results :=
       {[ KStr "r1" := KafkaConfig.result_message (VStr "r1") (VList [cat_prediction])
                    (VStr "api-user") (VNum 42) VNone "t1" ]};
     pending_requests :=
       {[ KStr "r1" := (<["status" := VStr "processing"]>
                       (<["submitted_at" := VStr "t0"]> ∅) : dict) ]};
     svc := no_services |}.

Lemma status_never_regresses_witness :
  reported "r1" completed_r1 = Some (VStr "completed")
  /\ reported "r1"
       (run [StatusRead "r1"; ResultArrival (job "r2"); Cleanup; StatusRead "r1"]
            completed_r1)
     <> Some (VStr "processing").
Proof.
  assert (H : reported "r1" completed_r1 = Some (VStr "completed")) by reflexivity.
  split; [exact H|].
  exact (proj1 (proj2 (status_never_regresses "r1" completed_r1
           [StatusRead "r1"; ResultArrival (job "r2"); Cleanup; StatusRead "r1"] H))).
Defined.

End Queries.

(** ** The worker *)

Section Worker.
Import KafkaConfig ImageProcessor.
Variable engine : value -> exn + (list value * Z).

(** The broker acknowledges the next send. *)
Definition acknowledges (sv : services) : Prop :=
  next_outcome "KafkaError" (broker_outcomes sv) = None.

(** The services after one acknowledged send of [msg] to the results
    topic with key [rid]. *)
Definition with_result (sv : services) (rid : string) (msg : dict) : services :=
  {| broker := (broker sv ++ [(ANALYSIS_RESULTS_TOPIC, Some rid, msg)])%list;
     unacked := unacked sv;
     broker_outcomes := tail (broker_outcomes sv);
     store := store sv; store_outcomes := store_outcomes sv;
     calls := (calls sv ++ [KafkaSend ANALYSIS_RESULTS_TOPIC (VStr rid)])%list |}.

(** A job message as the producer writes it: the three fields read
    before the [try], with a non-empty [str] id. *)
Definition job_fields (message_data : dict) (rid : string) (user_id fname : value) : Prop :=
  message_data !! "request_id" = Some (VStr rid)
  /\ rid <> ""
  /\ message_data !! "user_id" = Some user_id
  /\ message_data !! "filename" = Some fname.

(** Outcome of the analysis step of the [try] body. *)
Definition analysis (message_data : dict) : exn + (list value * Z) :=
  match dict_item message_data "image_data" with
  | inl e => inl e
  | inr image_data => engine image_data
  end.

Lemma send_analysis_result_acknowledged rid results user_id seconds error now sv :
  rid <> "" ->
  acknowledges sv ->
  send_analysis_result (VStr rid) results user_id seconds error now sv
    = (inr tt, with_result sv rid
                 (result_message (VStr rid) results user_id seconds error now)).
Proof.
  intros Hne Hack. unfold send_analysis_result, send_and_get, key_serializer.
  run_monad. cbn [truthy]. apply String.eqb_neq in Hne. rewrite Hne. cbn [negb].
  unfold acknowledges in Hack. rewrite Hack. reflexivity.
Qed.

(** With an acknowledging broker, one job message gives one record on the
    results topic, keyed by the id of the job.  After a successful
    analysis it carries the predictions and no error; after a failed one,
    the text of the exception and no predictions. *)
Lemma process_image_message_publishes_one message_data rid user_id fname now later sv :
  job_fields message_data rid user_id fname ->
  acknowledges sv ->
  (forall e, analysis message_data = inl e -> is_Exception e = true) ->
  process_image_message engine now later message_data sv
    = (inr tt,
       with_result sv rid
         match analysis message_data with
         | inr (predictions, seconds) =>
             result_message (VStr rid) (VList predictions) user_id (VNum seconds)
                            VNone now
         | inl e =>
             result_message (VStr rid) (VList []) user_id VNone
                            (VStr (str_exn e)) later
         end).
Proof.
  intros (Hrid & Hne & Huid & Hfn) Hack Hexn.
  unfold process_image_message, analyze_image, analysis, dict_item in *.
  rewrite Hrid, Huid, Hfn. run_monad. cbn [slice8].
  destruct (message_data !! "image_data") as [image_data|].
  - destruct (engine image_data) as [e|[predictions seconds]].
    + rewrite (Hexn e eq_refl). cbn.
      rewrite (Hexn e eq_refl).
      by rewrite send_analysis_result_acknowledged.
    + cbn. by rewrite send_analysis_result_acknowledged.
  - cbn. by rewrite send_analysis_result_acknowledged.
Qed.

(** The status written into a result follows the truth value of the
    error field: "failed" for a non-empty text, "completed" otherwise. *)
Lemma result_message_status rid results user_id seconds error now :
  result_message rid results user_id seconds error now !! "status"
  = Some (VStr (if truthy error then "failed" else "completed")).
Proof. unfold result_message. by destruct (truthy error). Qed.

(** C3, on the code: when the analysis fails with an exception whose text
    is empty ([str(e) == '']), the one result published for the job has an
    empty error text, no predictions, and status "completed" instead of
    "failed": [send_analysis_result] tests [not error], and [''] is falsy. *)
Theorem failure_with_empty_text_is_published_completed
    message_data rid user_id fname now later sv e :
  job_fields message_data rid user_id fname ->
  acknowledges sv ->
  analysis message_data = inl e ->
  is_Exception e = true ->
  str_exn e = "" ->
  exists msg,
    process_image_message engine now later message_data sv
      = (inr tt, with_result sv rid msg)
    /\ msg !! "request_id" = Some (VStr rid)
    /\ msg !! "results" = Some (VList [])
    /\ msg !! "error" = Some (VStr "")
    /\ msg !! "status" = Some (VStr "completed").
Proof.
  intros Hjob Hack Hfail Hexn Hstr.
  eexists. split.
  - rewrite (process_image_message_publishes_one _ rid user_id fname now later sv Hjob Hack).
    + rewrite Hfail, Hstr. reflexivity.
    + intros e' He'. congruence.
  - repeat split; reflexivity.
Qed.

End Worker.

(** An engine that runs out of memory: [str(MemoryError()) == '']. *)
Definition out_of_memory (image_data : value) : exn + (list value * Z) :=
  inl (Error "MemoryError" "").

Definition job_r2 : dict :=
  <["request_id" := VStr "r2"]>
  (<["user_id" := VStr "alice"]>
  (<["filename" := VStr "cat.jpg"]>
  (<["image_data" := VStr "/9j/"]>
  (<["timestamp" := VStr "t0"]>
  (<["status" := VStr "pending"]> ∅))))).

Lemma failure_with_empty_text_is_published_completed_witness :
  exists msg,
    broker (ImageProcessor.process_image_message out_of_memory "t1" "t2" job_r2
              no_services).2
      = [(KafkaConfig.ANALYSIS_RESULTS_TOPIC, Some "r2", msg)]
    /\ msg !! "error" = Some (VStr "")
    /\ msg !! "status" = Some (VStr "completed").
Proof.
  assert (Hjob : job_fields job_r2 "r2" (VStr "alice") (VStr "cat.jpg")).
  { repeat split; try reflexivity. discriminate. }
  assert (Hack : acknowledges no_services) by reflexivity.
  assert (Hfail : analysis out_of_memory job_r2 = inl (Error "MemoryError" ""))
    by reflexivity.
  destruct (failure_with_empty_text_is_published_completed out_of_memory
              job_r2 "r2" (VStr "alice") (VStr "cat.jpg") "t1" "t2" no_services
              (Error "MemoryError" "") Hjob Hack Hfail eq_refl eq_refl)
    as (msg & Hrun & _ & _ & Herr & Hst).
  exists msg. rewrite Hrun. repeat split; assumption.
Defined.

(** ** Result routing *)

Section Router.
Import RealtimeApp.

(** [st'] differs from [st] in the services only. *)
Definition same_instance (st st' : state) : Prop :=
  active_connections st' = active_connections st /\ frames st' = frames st.

(** [st'] has the frames of [st] followed by [fs]. *)
Definition wrote (st st' : state) (fs : list (nat * dict)) : Prop :=
  frames st' = (frames st ++ fs)%list.

Lemma redis_command_Exception {A} c run sv e sv' :
  @Redis.command A c run sv = (inl e, sv') ->
  (forall db e', run db = inl e' -> is_Exception e' = true) ->
  is_Exception e = true.
Proof.
  unfold Redis.command. intros H Hrun.
  destruct (store_outcomes sv) as [|[msg|] rest]; cbn in H.
  - destruct (run (store sv)) as [e'|[a db]] eqn:Hr; inversion H; subst; eauto.
  - inversion H. reflexivity.
  - destruct (run (store sv)) as [e'|[a db]] eqn:Hr; inversion H; subst; eauto.
Qed.

Lemma get_user_for_request_total request_id st :
  exists owner st',
    get_user_for_request request_id st = (inr owner, st')
    /\ same_instance st st'.
Proof.
  unfold get_user_for_request, with_svc. run_monad.
  destruct (Redis.get ("request_user:" +:+ request_id) (svc st)) as [[e|[u|]] sv'] eqn:Hget;
    cbn.
  - assert (He : is_Exception e = true).
    { eapply redis_command_Exception; [exact Hget|].
      intros db e'. cbn beta.
      destruct (db !! ("request_user:" +:+ request_id)) as [[[s|l] ttl]|];
        intros [= <-]; reflexivity. }
    rewrite He. do 2 eexists. split; [reflexivity|]. by split.
  - destruct (String.eqb u ""); cbn; do 2 eexists; (split; [reflexivity|by split]).
  - do 2 eexists. split; [reflexivity|]. by split.
Qed.

(** The owner the lookup gives. *)
Definition owner_of (request_id : string) (st : state) : option string :=
  match (get_user_for_request request_id st).1 with
  | inr owner => owner
  | inl _ => None
  end.

Lemma disconnect_total user_id st :
  exists st',
    disconnect user_id st = (inr tt, st')
    /\ active_connections st' = delete user_id (active_connections st)
    /\ frames st' = frames st
    /\ svc st' = (Redis.delete ("user_requests:" +:+ user_id) (svc st)).2.
Proof.
  unfold disconnect, with_svc. run_monad. cbn.
  destruct (Redis.delete _ _) as [[e|[]] sv'] eqn:Hdel; cbn.
  - assert (He : is_Exception e = true).
    { eapply redis_command_Exception; [exact Hdel|]. intros db e'. discriminate. }
    rewrite He. eexists. split; [reflexivity|]. by repeat split.
  - eexists. split; [reflexivity|]. by repeat split.
Qed.

(** [send_personal_message] writes one frame when the user has an open
    connection in the registry, and none otherwise; it never raises.  On a
    connection that is registered but dead it disconnects the user. *)
Lemma send_personal_message_total message user_id st :
  exists st',
    send_personal_message message user_id st = (inr tt, st')
    /\ match active_connections st !! user_id with
       | Some ws =>
           if ws_open ws
           then wrote st st' [(ws_id ws, message)]
                /\ active_connections st' = active_connections st
                /\ svc st' = svc st
           else wrote st st' []
                /\ svc st' = (Redis.delete ("user_requests:" +:+ user_id) (svc st)).2
       | None => st' = st
       end.
Proof.
  unfold send_personal_message, send_text, wrote. run_monad.
  destruct (active_connections st !! user_id) as [ws|]; [|eauto].
  destruct (ws_open ws); cbn -[disconnect].
  - eexists. split; [reflexivity|]. by split.
  - destruct (disconnect_total user_id st) as (st' & -> & _ & Hf & Hsvc).
    eexists. split; [reflexivity|]. by rewrite Hf, app_nil_r.
Qed.

Lemma broadcast_sends_total message conns st :
  exists failed st' fs,
    broadcast_sends message conns st = (inr failed, st')
    /\ wrote st st' fs
    /\ Forall (fun f => f.2 = message) fs.
Proof.
  revert st. induction conns as [|[user_id connection] rest IH]; intros st.
  - exists [], st, []. unfold wrote. by rewrite app_nil_r.
  - cbn [broadcast_sends]. unfold send_text. run_monad.
    destruct (ws_open connection); cbn.
    + match goal with |- context [broadcast_sends message rest ?s] =>
        destruct (IH s) as (failed & st' & fs & -> & Hw & Hall) end.
      exists failed, st', ((ws_id connection, message) :: fs).
      split; [reflexivity|]. split; [|by constructor].
      unfold wrote in *. cbn in Hw. by rewrite Hw, <- app_assoc.
    + destruct (IH st) as (failed & st' & fs & -> & Hw & Hall).
      exists (user_id :: failed), st', fs. by split.
Qed.

Lemma disconnect_all_total users st :
  exists st', disconnect_all users st = (inr tt, st') /\ frames st' = frames st.
Proof.
  revert st. induction users as [|user_id rest IH]; intros st; [by exists st|].
  cbn [disconnect_all]. run_monad.
  destruct (disconnect_total user_id st) as (st1 & -> & _ & Hf1 & _).
  destruct (IH st1) as (st2 & -> & Hf2).
  exists st2. split; [reflexivity|congruence].
Qed.

Lemma broadcast_total message st :
  exists st' fs,
    broadcast message st = (inr tt, st')
    /\ wrote st st' fs
    /\ Forall (fun f => f.2 = message) fs.
Proof.
  unfold broadcast. run_monad.
  destruct (broadcast_sends_total message (items (active_connections st)) st)
    as (failed & st1 & fs & -> & Hw & Hall).
  destruct (disconnect_all_total failed st1) as (st2 & -> & Hf).
  exists st2, fs. split; [reflexivity|]. split; [|exact Hall].
  unfold wrote in *. congruence.
Qed.

(** A frame that carries a result: its type is "analysis_result", and it
    has the id of the result and the result itself as its data. *)
Definition carries_result (request_id : value) (result_data : dict) (frame : dict)
  : Prop :=
  frame !! "type" = Some (VStr "analysis_result")
  /\ frame !! "request_id" = Some request_id
  /\ frame !! "data" = Some (VDict result_data).

Lemma stats_is_not_a_result now request_id result_data :
  ~ carries_result request_id result_data (system_stats_message now).
Proof. intros [H _]. discriminate H. Qed.

(** The frames written after those of [before]. *)
Definition new_frames (before after : state) : list (nat * dict) :=
  drop (length (frames before)) (frames after).

(** The result was written to the connection [id]. *)
Definition delivered (id : nat) (request_id : value) (result_data : dict)
    (before after : state) : Prop :=
  exists frame, (id, frame) ∈ new_frames before after
                /\ carries_result request_id result_data frame.

(** What a lookup in the correlation store gives for the key
    [request_user:<request_id>]: the user recorded there, when the store
    answers and the entry is a string that is not empty. *)
Definition recorded_owner (request_id : string) (sv : services) : option string :=
  match store_outcomes sv with
  | Some _ :: _ => None
  | _ =>
      match store sv !! ("request_user:" +:+ request_id) with
      | Some (RStr user_id, _) => if String.eqb user_id "" then None else Some user_id
      | _ => None
      end
  end.

(** The store names an owner for the request, and the registry of this
    instance holds for that owner the open connection [id]. *)
Definition owner_connected_here (id : nat) (request_id : string) (st : state) : Prop :=
  exists user_id ws,
    recorded_owner request_id (svc st) = Some user_id
    /\ active_connections st !! user_id = Some ws
    /\ ws_open ws = true
    /\ ws_id ws = id.

Lemma new_frames_wrote before after fs :
  wrote before after fs -> new_frames before after = fs.
Proof. unfold wrote, new_frames. intros ->. by rewrite drop_app_length. Qed.

Lemma get_user_for_request_recorded request_id st :
  exists st',
    get_user_for_request request_id st
    = (inr (recorded_owner request_id (svc st)), st')
    /\ same_instance st st'.
Proof.
  unfold get_user_for_request, with_svc, Redis.get, Redis.command, recorded_owner.
  run_monad.
  destruct (store_outcomes (svc st)) as [|[msg|] rest]; cbn;
    try (eexists; split; [reflexivity|by split]);
    destruct (store (svc st) !! ("request_user:" +:+ request_id)) as [[[u|l] ttl]|];
    cbn; try (eexists; split; [reflexivity|by split]);
    destruct (String.eqb u ""); cbn; eexists; (split; [reflexivity|by split]).
Qed.

(** C4: [handle_result] never lets an error out, whatever value the
    result has for its id, and it writes a frame carrying the result to a
    connection exactly when that connection is the open connection this
    instance holds for the owner the correlation store names.  The frame
    is then the first one written and the only one with the result.  When
    the lookup gives no owner -- no entry, or an error of the store -- no
    frame is written and the registry is left as it was. *)
Theorem handle_result_delivers_iff_owner_connected repr now result_data request_id st :
  result_data !! "request_id" = Some request_id ->
  let after := (handle_result repr now result_data st).2 in
  (handle_result repr now result_data st).1 = inr tt
  /\ (forall id,
        delivered id request_id result_data st after
        <-> owner_connected_here id (fstring repr request_id) st)
  /\ (forall id,
        delivered id request_id result_data st after ->
        exists frame others,
          new_frames st after = (id, frame) :: others
          /\ carries_result request_id result_data frame
          /\ Forall (fun f => ~ carries_result request_id result_data f.2) others)
  /\ (recorded_owner (fstring repr request_id) (svc st) = None ->
      same_instance st after).
Proof.
  intros Hrid after. subst after.
  unfold handle_result, dict_item, owner_connected_here, delivered.
  rewrite Hrid. run_monad.
  destruct (get_user_for_request_recorded (fstring repr request_id) st)
    as (st1 & Hget & Hc & Hf).
  rewrite Hget. cbn [fst snd].
  assert (Hcarries : carries_result request_id result_data
                       (analysis_result_message request_id result_data))
    by (by repeat split).
  destruct (recorded_owner (fstring repr request_id) (svc st)) as [user_id|].
  - destruct (send_personal_message_total
                (analysis_result_message request_id result_data) user_id st1)
      as (st2 & Hsend & Hcase).
    rewrite Hsend.
    destruct (broadcast_total (system_stats_message now) st2)
      as (st3 & fs & Hb & Hw & Hall).
    rewrite Hb. cbn [fst snd]. split; [reflexivity|].
    assert (Hnot : Forall (fun f => ~ carries_result request_id result_data f.2) fs).
    { eapply Forall_impl; [exact Hall|]. intros f ->. apply stats_is_not_a_result. }
    rewrite Hc in Hcase.
    destruct (active_connections st !! user_id) as [ws|] eqn:Hreg.
    + destruct (ws_open ws) eqn:Hopen.
      * destruct Hcase as (Hw2 & _ & _).
        assert (Hnew : new_frames st st3
                       = (ws_id ws, analysis_result_message request_id result_data) :: fs).
        { apply new_frames_wrote. unfold wrote in *. rewrite Hw, Hw2, Hf.
          by rewrite <- app_assoc. }
        rewrite Hnew.
        assert (Hid : forall id frame,
                  (id, frame) ∈ (ws_id ws, analysis_result_message request_id result_data)
                                  :: fs ->
                  carries_result request_id result_data frame -> id = ws_id ws).
        { intros id frame Hin Hfr. apply elem_of_cons in Hin as [[= -> ->]|Hin];
            [reflexivity|].
          rewrite Forall_forall in Hnot. by destruct (Hnot _ Hin). }
        split; [|split; [|discriminate]].
        -- intros id. split.
           ++ intros (frame & Hin & Hfr). exists user_id, ws.
              repeat split; try done. symmetry. by eapply Hid.
           ++ intros (u & ws' & [= <-] & Hreg' & _ & <-).
              assert (ws' = ws) by congruence. subst ws'.
              eexists. split; [by left|exact Hcarries].
        -- intros id (frame & Hin & Hfr). rewrite (Hid _ _ Hin Hfr).
           eexists _, fs. by repeat split.
      * destruct Hcase as [Hw2 _].
        assert (Hnew : new_frames st st3 = fs).
        { apply new_frames_wrote. unfold wrote in *. rewrite Hw, Hw2, Hf.
          by rewrite app_nil_r. }
        rewrite Hnew.
        assert (Hnone : forall id frame,
                  (id, frame) ∈ fs -> ~ carries_result request_id result_data frame).
        { intros id frame Hin. rewrite Forall_forall in Hnot. exact (Hnot _ Hin). }
        split; [|split; [|discriminate]].
        -- intros id. split.
           ++ intros (frame & Hin & Hfr). by destruct (Hnone _ _ Hin).
           ++ intros (u & ws' & [= <-] & Hreg' & Hopen' & _). congruence.
        -- intros id (frame & Hin & Hfr). by destruct (Hnone _ _ Hin).
    + subst st2.
      assert (Hnew : new_frames st st3 = fs).
      { apply new_frames_wrote. unfold wrote in *. by rewrite Hw, Hf. }
      rewrite Hnew.
      assert (Hnone : forall id frame,
                (id, frame) ∈ fs -> ~ carries_result request_id result_data frame).
      { intros id frame Hin. rewrite Forall_forall in Hnot. exact (Hnot _ Hin). }
      split; [|split; [|discriminate]].
      * intros id. split.
        -- intros (frame & Hin & Hfr). by destruct (Hnone _ _ Hin).
        -- intros (u & ws' & [= <-] & Hreg' & _). congruence.
      * intros id (frame & Hin & Hfr). by destruct (Hnone _ _ Hin).
  - cbn. split; [reflexivity|].
    assert (Hnew : new_frames st st1 = []).
    { unfold new_frames. by rewrite Hf, drop_all. }
    rewrite Hnew. split; [|split; [|intros _; by split]].
    + intros id. split.
      * intros (frame & Hin & _). by apply elem_of_nil in Hin.
      * intros (u & ws & [=] & _).
    + intros id (frame & Hin & _). by apply elem_of_nil in Hin.
Qed.

Definition alice_socket : WebSocket := {| ws_id := 7; ws_open := true |}.

Definition alice_waiting : state :=
  {| active_connections := {[ "alice" := alice_socket ]};
     svc := {| broker := []; unacked := []; broker_outcomes := [];
               store := <["request_user:r1" := (RStr "alice", Some 3600)]>
                        (<["request_user:42" := (RStr "alice", Some 3600)]> ∅);
               store_outcomes := []; calls := [] |};
     frames := []; metrics_available := false;
     image_uploads := 0; analysis_errors := 0 |}.

Definition result_r1 : dict :=
  KafkaConfig.result_message (VStr "r1") (VList [cat_prediction]) (VStr "alice")
                             (VNum 42) VNone "t1".

(** A result whose id is the number 42. *)
Definition result_42 : dict :=
  KafkaConfig.result_message (VNum 42) (VList [cat_prediction]) (VStr "alice")
                             (VNum 42) VNone "t1".

(** [repr] on the integers, which is all the instances need of it. *)
Definition repr_int (v : value) : string :=
  match v with
  | VNum n => pretty n
  | _ => ""
  end.

Lemma handle_result_delivers_iff_owner_connected_witness :
  delivered 7 (VStr "r1") result_r1 alice_waiting
    (handle_result repr_int "t2" result_r1 alice_waiting).2
  /\ delivered 7 (VNum 42) result_42 alice_waiting
       (handle_result repr_int "t2" result_42 alice_waiting).2.
Proof.
  assert (Hrid : result_r1 !! "request_id" = Some (VStr "r1")) by reflexivity.
  assert (Hnum : result_42 !! "request_id" = Some (VNum 42)) by reflexivity.
  split.
  - apply (proj1 (proj2 (handle_result_delivers_iff_owner_connected
                           repr_int "t2" result_r1 (VStr "r1") alice_waiting Hrid))).
    exists "alice", alice_socket. repeat split; reflexivity.
  - apply (proj1 (proj2 (handle_result_delivers_iff_owner_connected
                           repr_int "t2" result_42 (VNum 42) alice_waiting Hnum))).
    exists "alice", alice_socket. repeat split; reflexivity.
Defined.

End Router.

(** ** Ingress of the realtime app *)

Section Ingress.
Import KafkaConfig RealtimeApp.

(** The job message [send_image_for_analysis] builds. *)
Definition job_message (uuid : string) (user_id fname : value)
    (image_data : list Byte.byte) (now : string) : dict :=
  <["request_id" := VStr uuid]>
  (<["user_id" := if truthy user_id then user_id else VStr "anonymous"]>
  (<["filename" := fname]>
  (<["image_data" := VStr (b64encode image_data)]>
  (<["timestamp" := VStr now]>
  (<["status" := VStr "pending"]> ∅))))).

Lemma upload_keywords_bind image_data fname user_id :
  bind_keywords "send_image_for_analysis" send_image_for_analysis_sig
    [("image_data", VBytes image_data); ("filename", fname); ("user_id", user_id)]
  = inr (<["image_data" := VBytes image_data]>
         (<["filename" := fname]> (<["user_id" := user_id]> ∅))).
Proof. reflexivity. Qed.

Lemma send_image_for_analysis_run image_data fname user_id uuid now sv :
  send_image_for_analysis
    [("image_data", VBytes image_data); ("filename", fname); ("user_id", user_id)]
    uuid now sv
  = match next_outcome "KafkaError" (broker_outcomes sv) with
    | Some e =>
        (inl e, {| broker := broker sv;
                   unacked := (unacked sv ++
                                 [(IMAGE_UPLOAD_TOPIC,
                                   if truthy (VStr uuid) then Some uuid else None,
                                   job_message uuid user_id fname image_data now)])%list;
                   broker_outcomes := tail (broker_outcomes sv);
                   store := store sv; store_outcomes := store_outcomes sv;
                   calls := (calls sv ++ [KafkaSend IMAGE_UPLOAD_TOPIC (VStr uuid)])%list |})
    | None =>
        (inr uuid,
         {| broker := (broker sv ++
                         [(IMAGE_UPLOAD_TOPIC,
                           if truthy (VStr uuid) then Some uuid else None,
                           job_message uuid user_id fname image_data now)])%list;
            unacked := unacked sv;
            broker_outcomes := tail (broker_outcomes sv);
            store := store sv; store_outcomes := store_outcomes sv;
            calls := (calls sv ++ [KafkaSend IMAGE_UPLOAD_TOPIC (VStr uuid)])%list |})
    end.
Proof.
  unfold send_image_for_analysis. rewrite upload_keywords_bind.
  unfold send_and_get, key_serializer, dict_get. run_monad.
  change ((<["image_data" := VBytes image_data]>
           (<["filename" := fname]> (<["user_id" := user_id]> ∅)) : dict)
            !! "image_data") with (Some (VBytes image_data)).
  change ((<["image_data" := VBytes image_data]>
           (<["filename" := fname]> (<["user_id" := user_id]> ∅)) : dict)
            !! "filename") with (Some fname).
  change ((<["image_data" := VBytes image_data]>
           (<["filename" := fname]> (<["user_id" := user_id]> ∅)) : dict)
            !! "user_id") with (Some user_id).
  cbn [default from_option id].
  destruct (truthy (VStr uuid)) eqn:Hu;
    destruct (next_outcome "KafkaError" (broker_outcomes sv)) as [e|] eqn:Hn.
  - assert (He : is_Exception e = true).
    { destruct (broker_outcomes sv) as [|[m|] l]; inversion Hn. reflexivity. }
    by rewrite He.
  - reflexivity.
  - assert (He : is_Exception e = true).
    { destruct (broker_outcomes sv) as [|[m|] l]; inversion Hn. reflexivity. }
    by rewrite He.
  - reflexivity.
Qed.

(** The store executes the three commands of [add_request_for_user]:
    no connection error is scheduled for them, and the key of the user's
    list does not hold a plain string. *)
Definition store_accepts (sv : services) (user_id : string) : Prop :=
  next_outcome "ConnectionError" (store_outcomes sv) = None
  /\ next_outcome "ConnectionError" (tail (store_outcomes sv)) = None
  /\ next_outcome "ConnectionError" (tail (tail (store_outcomes sv))) = None
  /\ forall s ttl, store sv !! ("user_requests:" +:+ user_id) <> Some (RStr s, ttl).

Lemma redis_command_ok {A} c run sv (a : A) db :
  next_outcome "ConnectionError" (store_outcomes sv) = None ->
  run (store sv) = inr (a, db) ->
  Redis.command c run sv
  = (inr a, {| broker := broker sv; unacked := unacked sv;
               broker_outcomes := broker_outcomes sv;
               store := db; store_outcomes := tail (store_outcomes sv);
               calls := (calls sv ++ [c])%list |}).
Proof. intros Hn Hrun. unfold Redis.command. by rewrite Hn, Hrun. Qed.

Lemma correlation_keys_differ user_id request_id :
  "request_user:" +:+ request_id <> "user_requests:" +:+ user_id.
Proof. discriminate. Qed.

(** The requests already listed for the user. *)
Definition listed (sv : services) (user_id : string) : list string :=
  match store sv !! ("user_requests:" +:+ user_id) with
  | Some (RList l, _) => l
  | _ => []
  end.

Definition correlation_calls (user_id request_id : string) : list call :=
  [RedisLPush ("user_requests:" +:+ user_id) request_id;
   RedisExpire ("user_requests:" +:+ user_id) 3600;
   RedisSet ("request_user:" +:+ request_id) user_id 3600].

Lemma add_request_for_user_stores user_id request_id st :
  store_accepts (svc st) user_id ->
  exists st',
    add_request_for_user user_id request_id st = (inr tt, st')
    /\ same_instance st st'
    /\ metrics_available st' = metrics_available st
    /\ broker (svc st') = broker (svc st)
    /\ calls (svc st') = (calls (svc st) ++ correlation_calls user_id request_id)%list
    /\ store (svc st') !! ("request_user:" +:+ request_id)
       = Some (RStr user_id, Some 3600)
    /\ store (svc st') !! ("user_requests:" +:+ user_id)
       = Some (RList (request_id :: listed (svc st) user_id), Some 3600).
Proof.
  intros (H1 & H2 & H3 & Hty).
  unfold add_request_for_user, with_svc, Redis.lpush, Redis.expire, Redis.set, listed.
  run_monad.
  set (key := "user_requests:" +:+ user_id) in *.
  set (rkey := "request_user:" +:+ request_id).
  assert (Hk : rkey <> key) by apply correlation_keys_differ.
  destruct (store (svc st) !! key) as [[[s|l] ttl]|] eqn:Hold.
  - by destruct (Hty s ttl).
  - erewrite redis_command_ok;
      [|exact H1|cbn beta; rewrite Hold; reflexivity].
    erewrite redis_command_ok;
      [|exact H2|cbn beta; cbn [store]; rewrite lookup_insert_eq; reflexivity].
    erewrite redis_command_ok; [|exact H3|reflexivity].
    eexists. split; [reflexivity|]. cbn.
    repeat split.
    + by rewrite <- !app_assoc.
    + by rewrite lookup_insert_eq.
    + by rewrite lookup_insert_ne, lookup_insert_eq.
  - erewrite redis_command_ok;
      [|exact H1|cbn beta; rewrite Hold; reflexivity].
    erewrite redis_command_ok;
      [|exact H2|cbn beta; cbn [store]; rewrite lookup_insert_eq; reflexivity].
    erewrite redis_command_ok; [|exact H3|reflexivity].
    eexists. split; [reflexivity|]. cbn.
    repeat split.
    + by rewrite <- !app_assoc.
    + by rewrite lookup_insert_eq.
    + by rewrite lookup_insert_ne, lookup_insert_eq.
Qed.

Lemma try_except_returns {S A} (body : M S A) handler s a s' :
  try_except body handler s = (inr a, s') ->
  (forall e s1, (handler e s1).1 <> inr a) ->
  body s = (inr a, s').
Proof.
  unfold try_except. intros H Hh.
  destruct (body s) as [[e|a'] s1]; [|exact H].
  destruct (is_Exception e); [|discriminate].
  specialize (Hh e s1). rewrite H in Hh. by destruct Hh.
Qed.

Lemma redis_delete_effect key sv :
  let sv' := (Redis.delete key sv).2 in
  calls sv' = (calls sv ++ [RedisDelete key])%list
  /\ broker sv' = broker sv
  /\ forall k, k <> key -> store sv' !! k = store sv !! k.
Proof.
  unfold Redis.delete, Redis.command.
  destruct (next_outcome "ConnectionError" (store_outcomes sv)); cbn.
  - by repeat split.
  - repeat split. intros k Hk. by rewrite lookup_delete_ne.
Qed.

(** The calls made to the services after those of [before]. *)
Definition new_calls (before after : state) : list call :=
  drop (length (calls (svc before))) (calls (svc after)).

Definition is_publish (c : call) : bool :=
  match c with KafkaSend _ _ => true | _ => false end.

Definition is_store_write (c : call) : bool :=
  match c with
  | RedisLPush _ _ | RedisExpire _ _ | RedisSet _ _ _ => true
  | _ => false
  end.

(** Every call satisfying [first] is made before every call satisfying
    [second]. *)
Fixpoint all_before (first second : call -> bool) (cs : list call) : bool :=
  match cs with
  | [] => true
  | c :: rest =>
      (if second c then forallb (fun d => negb (first d)) rest else true)
      && all_before first second rest
  end.

(** The user's registered connection is dead: the [upload_received]
    frame cannot be written and [send_personal_message] disconnects. *)
Definition stale (st : state) (user_id : string) : Prop :=
  exists ws, active_connections st !! user_id = Some ws /\ ws_open ws = false.

Lemma upload_image_returns request uuid now st response st' :
  upload_image request uuid now st = (inr response, st') ->
  exists file,
    form_file request = Some (FormFile file)
    /\ valid_upload file
    /\ acknowledges (svc st).
Proof.
  intros H. unfold upload_image in H. apply try_except_returns in H.
  2:{ intros e s1. run_monad. by destruct (metrics_available s1). }
  destruct (form_file request) as [[file|txt]|]; try discriminate H.
  exists file. split; [reflexivity|].
  unfold valid_upload, acknowledges. revert H. run_monad. cbn [fst snd].
  destruct (content_type_is_image file) as [e|[]]; try discriminate.
  cbn [negb]. destruct (too_large (payload file)); try discriminate.
  unfold with_svc, zoom. rewrite send_image_for_analysis_run.
  destruct (next_outcome "KafkaError" (broker_outcomes (svc st))); [discriminate|].
  by intros _.
Qed.

Lemma deletes_are_neither key rest :
  Forall (fun c => c = RedisDelete key) rest ->
  forallb (fun d => negb (is_publish d)) rest = true
  /\ all_before is_publish is_store_write rest = true.
Proof.
  induction 1 as [|c rest -> _ [IH1 IH2]]; [done|].
  cbn. by rewrite IH1, IH2.
Qed.

(** C5, as the code has it: on a successful upload the job message is
    published first, under the id the producer drew, and both directions
    of the correlation entry are written after it, each with an expiry of
    3600 seconds, when the store executes the writes.  The entry
    [request_user:<id>] is in the store when the upload returns; so is the
    user's list, unless the user's registered connection is dead. *)
Theorem upload_publishes_then_stores request uuid now st response st' :
  upload_image request uuid now st = (inr response, st') ->
  let user_id := default "anonymous" (form_user_id request) in
  store_accepts (svc st) user_id ->
  response !! "request_id" = Some (VStr uuid)
  /\ (exists rest,
        new_calls st st'
        = (KafkaSend IMAGE_UPLOAD_TOPIC (VStr uuid)
             :: correlation_calls user_id uuid ++ rest)%list
        /\ Forall (fun c => c = RedisDelete ("user_requests:" +:+ user_id)) rest)
  /\ all_before is_publish is_store_write (new_calls st st') = true
  /\ store (svc st') !! ("request_user:" +:+ uuid) = Some (RStr user_id, Some 3600)
  /\ (~ stale st user_id ->
      store (svc st') !! ("user_requests:" +:+ user_id)
      = Some (RList (uuid :: listed (svc st) user_id), Some 3600)).
Proof.
  intros Hrun user_id Hstore.
  destruct (upload_image_returns _ _ _ _ _ _ Hrun) as (file & Hfile & [Hct Hsz] & Hack).
  unfold upload_image in Hrun. apply try_except_returns in Hrun.
  2:{ intros e s1. run_monad. by destruct (metrics_available s1). }
  rewrite Hfile in Hrun. fold user_id in Hrun. revert Hrun. run_monad.
  rewrite Hct. cbn [negb fst snd]. rewrite Hsz.
  unfold with_svc, zoom. rewrite send_image_for_analysis_run.
  unfold acknowledges in Hack. rewrite Hack.
  match goal with |- context [add_request_for_user user_id uuid ?s] =>
    set (st1 := s) end.
  assert (Hstore1 : store_accepts (svc st1) user_id) by exact Hstore.
  destruct (add_request_for_user_stores user_id uuid st1 Hstore1)
    as (st2 & -> & [Hreg2 _] & Hm2 & _ & Hcalls2 & Hrev2 & Hfwd2).
  match goal with |- context [send_personal_message ?m user_id st2] =>
    destruct (send_personal_message_total m user_id st2) as (st3 & -> & Hcase) end.
  assert (Hsvc : exists rest,
            calls (svc st3) = (calls (svc st2) ++ rest)%list
            /\ Forall (fun c => c = RedisDelete ("user_requests:" +:+ user_id)) rest
            /\ store (svc st3) !! ("request_user:" +:+ uuid)
               = store (svc st2) !! ("request_user:" +:+ uuid)
            /\ (~ stale st user_id ->
                store (svc st3) !! ("user_requests:" +:+ user_id)
                = store (svc st2) !! ("user_requests:" +:+ user_id))).
  { rewrite Hreg2 in Hcase. change (active_connections st1) with (active_connections st) in Hcase.
    destruct (active_connections st !! user_id) as [ws|] eqn:Hreg.
    - destruct (ws_open ws) eqn:Hopen.
      + destruct Hcase as (_ & _ & ->). exists []. by rewrite app_nil_r.
      + destruct Hcase as [_ ->].
        destruct (redis_delete_effect ("user_requests:" +:+ user_id) (svc st2))
          as (Hc & _ & Hs).
        exists [RedisDelete ("user_requests:" +:+ user_id)].
        split; [exact Hc|]. split; [by constructor|]. split.
        * apply Hs, correlation_keys_differ.
        * intros Hns. destruct Hns. by exists ws.
    - subst st3. exists []. by rewrite app_nil_r. }
  destruct Hsvc as (rest & Hcalls3 & Hrest & Hrev3 & Hfwd3).
  assert (Hnew : forall st4, svc st4 = svc st3 ->
            new_calls st st4
            = (KafkaSend IMAGE_UPLOAD_TOPIC (VStr uuid)
                 :: correlation_calls user_id uuid ++ rest)%list).
  { intros st4 E. unfold new_calls. rewrite E, Hcalls3, Hcalls2. cbn [svc st1 calls].
    rewrite <- !app_assoc. by rewrite drop_app_length. }
  assert (Hgoal : forall st4 : state, svc st4 = svc st3 ->
            (exists rest0,
               new_calls st st4
               = (KafkaSend IMAGE_UPLOAD_TOPIC (VStr uuid)
                    :: correlation_calls user_id uuid ++ rest0)%list
               /\ Forall (fun c => c = RedisDelete ("user_requests:" +:+ user_id)) rest0)
            /\ all_before is_publish is_store_write (new_calls st st4) = true
            /\ store (svc st4) !! ("request_user:" +:+ uuid)
               = Some (RStr user_id, Some 3600)
            /\ (~ stale st user_id ->
                store (svc st4) !! ("user_requests:" +:+ user_id)
                = Some (RList (uuid :: listed (svc st) user_id), Some 3600))).
  { intros st4 E. split; [exists rest; by split; [apply Hnew|]|].
    split.
    - rewrite (Hnew st4 E). destruct (deletes_are_neither _ _ Hrest) as [H1 H2].
      cbn. by rewrite H1, H2.
    - rewrite E. split; [by rewrite Hrev3|].
      intros Hns. rewrite (Hfwd3 Hns). exact Hfwd2. }
  destruct (metrics_available st3); cbn; intros [= <- <-];
    (split; [reflexivity|]); by apply Hgoal.
Qed.

Definition alice_form : form :=
  {| form_file := Some (FormFile jpeg_upload); form_user_id := Some "alice" |}.

Lemma alice_upload_returns :
  exists response st',
    upload_image alice_form "r1" "t0" fresh_realtime = (inr response, st')
    /\ response !! "status" = Some (VStr "success").
Proof. do 2 eexists. split; [vm_compute; reflexivity|reflexivity]. Qed.

Lemma upload_publishes_then_stores_witness :
  store (svc (upload_image alice_form "r1" "t0" fresh_realtime).2) !! "request_user:r1"
    = Some (RStr "alice", Some 3600)
  /\ store (svc (upload_image alice_form "r1" "t0" fresh_realtime).2) !! "user_requests:alice"
    = Some (RList ["r1"], Some 3600).
Proof.
  destruct alice_upload_returns as (response & st' & Hrun & _).
  assert (Hstore : store_accepts (svc fresh_realtime) "alice").
  { repeat split; try reflexivity. intros s ttl. discriminate. }
  destruct (upload_publishes_then_stores alice_form "r1" "t0" fresh_realtime
              response st' Hrun Hstore) as (_ & _ & _ & Hrev & Hfwd).
  rewrite Hrun. split; [exact Hrev|].
  apply Hfwd. intros (ws & Hws & _). discriminate Hws.
Defined.

(** C5 as stated fails on the order: a successful upload whose first call
    is the send to the broker, the three store commands coming after it. *)
Lemma store_is_written_after_publish :
  exists response st',
    upload_image alice_form "r1" "t0" fresh_realtime = (inr response, st')
    /\ new_calls fresh_realtime st'
       = [KafkaSend "image-uploads" (VStr "r1");
          RedisLPush "user_requests:alice" "r1";
          RedisExpire "user_requests:alice" 3600;
          RedisSet "request_user:r1" "alice" 3600]
    /\ all_before is_store_write is_publish (new_calls fresh_realtime st') = false.
Proof.
  do 2 eexists. split; [vm_compute; reflexivity|]. split; reflexivity.
Qed.

End Ingress.

(** * Further properties of the code *)

(** ** Connecting to the broker *)

Section Connect.
Import KafkaConfig.

(** The sleeps of an exponential backoff after [k] failed attempts:
    2, 4, ..., 2^k seconds. *)
Definition backoff (k : nat) : list Z := map (fun i => 2 ^ Z.of_nat i) (seq 1 k).

(** X1: when fewer than five constructor calls fail before one goes
    through, [connect] returns with the producer set, having slept
    2, 4, ..., 2^k seconds after the k failures and made no further
    attempt. *)
Theorem connect_retries_with_backoff msgs rest c :
  (length msgs < 5)%nat ->
  attempts c = (map Some msgs ++ None :: rest)%list ->
  connect c = (inr tt, {| producer := true; attempts := rest;
                          slept := (slept c ++ backoff (length msgs))%list |}).
Proof.
  intros Hlen Hatt. unfold connect, backoff.
  destruct c as [p att sl]. cbn in Hatt. subst att.
  destruct msgs as [|m1 [|m2 [|m3 [|m4 [|m5 more]]]]]; cbn in Hlen; try lia;
    cbn [map Datatypes.app length seq];
    cbv -[Datatypes.app Z.pow]; rewrite <- ?app_assoc, ?app_nil_r; reflexivity.
Qed.

Lemma connect_retries_with_backoff_witness :
  connect {| producer := false;
             attempts := [Some "no brokers"; Some "no brokers"; None];
             slept := [] |}
  = (inr tt, {| producer := true; attempts := []; slept := [2; 4] |}).
Proof.
  apply (connect_retries_with_backoff ["no brokers"; "no brokers"] []
           {| producer := false;
              attempts := [Some "no brokers"; Some "no brokers"; None];
              slept := [] |}).
  - cbn. lia.
  - reflexivity.
Defined.

(** X2: when the first five constructor calls fail, [connect] raises
    after the fifth, leaves the producer unset, has slept 2, 4, 8 and 16
    seconds between the attempts, and makes no sixth attempt. *)
Theorem connect_gives_up_after_five m1 m2 m3 m4 m5 rest c :
  attempts c = (Some m1 :: Some m2 :: Some m3 :: Some m4 :: Some m5 :: rest) ->
  connect c
  = (inl (Error "Exception" "Failed to connect to Kafka after 5 attempts"),
     {| producer := producer c; attempts := rest;
        slept := (slept c ++ [2; 4; 8; 16])%list |}).
Proof.
  intros Hatt. unfold connect. destruct c as [p att sl]. cbn in Hatt. subst att.
  cbv -[Datatypes.app Z.pow]. rewrite <- !app_assoc. reflexivity.
Qed.

Lemma connect_gives_up_after_five_witness :
  (connect {| producer := false;
              attempts := [Some "a"; Some "b"; Some "c"; Some "d"; Some "e"; None];
              slept := [] |}).2
  = {| producer := false; attempts := [None]; slept := [2; 4; 8; 16] |}.
Proof.
  rewrite (connect_gives_up_after_five "a" "b" "c" "d" "e" [None]
             {| producer := false;
                attempts := [Some "a"; Some "b"; Some "c"; Some "d"; Some "e"; None];
                slept := [] |} eq_refl).
  reflexivity.
Defined.

End Connect.

(** ** Edges of the consume loop *)

(** The messages of a sequence that carry a [request_id]. *)
Definition jobs_of (messages : list dict) : list dict :=
  filter (fun message => is_Some (message !! "request_id")) messages.

Section ConsumeEdges.
Import KafkaConfig.
Context {S : Type}.
Variable callback : dict -> M S unit.

Lemma consume_loop_prefix pre rest s :
  (forall message s e, message ∈ pre ->
     (callback message s).1 = inl e -> is_Exception e = true) ->
  consume_loop callback (pre ++ rest) s
  = consume_loop callback rest (callback_on_all callback (jobs_of pre) s).
Proof.
  revert s. induction pre as [|message pre IH]; intros s Hexn; [reflexivity|].
  assert (Hpre : forall message s e, message ∈ pre ->
            (callback message s).1 = inl e -> is_Exception e = true).
  { intros m' s' e Hin. apply Hexn. by right. }
  cbn [Datatypes.app consume_loop]. unfold jobs_of. rewrite filter_cons.
  fold (jobs_of pre). unfold dict_item. run_monad.
  destruct (decide (is_Some (message !! "request_id"))) as [[rid Hrid]|Hno].
  - rewrite Hrid. cbn [callback_on_all foldl].
    specialize (Hexn message s).
    destruct (callback message s) as [[e|[]] s1]; cbn in *.
    + rewrite (Hexn e (ltac:(by left)) eq_refl). by apply IH.
    + by apply IH.
  - destruct (message !! "request_id") as [v|] eqn:Hv; [destruct Hno; eauto|].
    cbn. by apply IH.
Qed.

(** X3: a message without a [request_id] field is passed over -- the
    callback is not called on it -- and the loop goes on: what
    [consume_images] leaves is the callback run on the messages that
    carry an id, in order. *)
Theorem consume_images_skips_messages_without_id messages c :
  raises_only_Exception callback ->
  consume_images callback messages c
  = (inr tt, {| consumer_closed := true;
                app := callback_on_all callback (jobs_of messages) (app c) |}).
Proof.
  intros Hexn. unfold consume_images, consume.
  rewrite <- (app_nil_r messages) at 1.
  rewrite consume_loop_prefix by (intros m s e _; apply Hexn).
  reflexivity.
Qed.

(** X4: an interrupt raised by the callback ([KeyboardInterrupt],
    [SystemExit]) is not caught by the inner handler: the messages after
    it are not consumed and the consumer is closed.  [KeyboardInterrupt]
    ends [consume_images] normally, [SystemExit] leaves it. *)
Theorem consume_images_stops_on_interrupt pre message post c e s' :
  (forall m s e, m ∈ pre -> (callback m s).1 = inl e -> is_Exception e = true) ->
  has_request_id message ->
  callback message (callback_on_all callback (jobs_of pre) (app c)) = (inl e, s') ->
  is_Exception e = false ->
  consume_images callback (pre ++ message :: post) c
  = (match e with KeyboardInterrupt => inr tt | _ => inl e end,
     {| consumer_closed := true; app := s' |}).
Proof.
  intros Hpre [rid Hrid] Hcall He. unfold consume_images, consume.
  rewrite consume_loop_prefix by exact Hpre.
  cbn [consume_loop]. unfold dict_item. rewrite Hrid. run_monad.
  rewrite Hcall, He. destruct e; try discriminate He; reflexivity.
Qed.

End ConsumeEdges.

(** A callback that is interrupted on the message "stop". *)
Definition interrupted_callback (message : dict) : M (list value) unit :=
  fun seen =>
    let rid := dict_get message "request_id" in
    (match rid with
     | VStr "stop" => inl KeyboardInterrupt
     | _ => inr tt
     end, (seen ++ [rid])%list).

Lemma consume_images_skips_messages_without_id_witness :
  (KafkaConfig.consume_images picky_callback [job "a"; ∅; job "bad"; job "c"]
     {| KafkaConfig.consumer_closed := false; KafkaConfig.app := [] |}).2
  = {| KafkaConfig.consumer_closed := true;
       KafkaConfig.app := [VStr "a"; VStr "bad"; VStr "c"] |}.
Proof.
  assert (Hexn : raises_only_Exception picky_callback).
  { intros message s e. unfold picky_callback. cbn.
    destruct (dict_get message "request_id") as [| | |rid| | |]; try discriminate.
    destruct (decide (rid = "bad")) as [->|Hne]; [intros [= <-]; reflexivity|].
    intros H. exfalso. revert H.
    repeat (match goal with
            | |- context [match ?x with _ => _ end] => destruct x
            end; try discriminate; try congruence). }
  rewrite (consume_images_skips_messages_without_id picky_callback _ _ Hexn).
  reflexivity.
Defined.

Lemma consume_images_stops_on_interrupt_witness :
  KafkaConfig.consume_images interrupted_callback [job "a"; job "stop"; job "c"]
     {| KafkaConfig.consumer_closed := false; KafkaConfig.app := [] |}
  = (inr tt, {| KafkaConfig.consumer_closed := true;
                KafkaConfig.app := [VStr "a"; VStr "stop"] |}).
Proof.
  apply (consume_images_stops_on_interrupt interrupted_callback
           [job "a"] (job "stop") [job "c"]
           {| KafkaConfig.consumer_closed := false; KafkaConfig.app := [] |}
           KeyboardInterrupt [VStr "a"; VStr "stop"]).
  - intros m s e Hin. apply list_elem_of_singleton in Hin. subst m.
    cbn. discriminate.
  - eexists. reflexivity.
  - reflexivity.
  - reflexivity.
Defined.

(** ** More on the worker *)

Section WorkerEdges.
Import KafkaConfig ImageProcessor.
Variable engine : value -> exn + (list value * Z).

(** [sv'] is [sv] after [n] calls to the producer: [acked] are the
    records the broker acknowledged, [pending] those handed over and left
    unacknowledged, all of them for the results topic. *)
Definition produced (sv sv' : services)
    (acked pending : list (string * option string * dict)) (n : nat) : Prop :=
  broker sv' = (broker sv ++ acked)%list
  /\ unacked sv' = (unacked sv ++ pending)%list
  /\ Forall (fun r => r.1.1 = ANALYSIS_RESULTS_TOPIC) (acked ++ pending)
  /\ store sv' = store sv
  /\ exists cs, calls sv' = (calls sv ++ cs)%list /\ length cs = n
                /\ Forall (fun c => is_publish c = true) cs.

Lemma produced_refl sv : produced sv sv [] [] 0.
Proof.
  repeat split; rewrite ?app_nil_r; try done.
  exists []. by rewrite app_nil_r.
Qed.

Lemma produced_trans sv1 sv2 sv3 acked1 pending1 acked2 pending2 n1 n2 :
  produced sv1 sv2 acked1 pending1 n1 -> produced sv2 sv3 acked2 pending2 n2 ->
  produced sv1 sv3 (acked1 ++ acked2) (pending1 ++ pending2) (n1 + n2).
Proof.
  intros (Hb1 & Hu1 & Ht1 & Hs1 & cs1 & Hc1 & Hl1 & Hp1)
         (Hb2 & Hu2 & Ht2 & Hs2 & cs2 & Hc2 & Hl2 & Hp2).
  apply Forall_app in Ht1 as [Ha1 Hq1]. apply Forall_app in Ht2 as [Ha2 Hq2].
  repeat split.
  - by rewrite Hb2, Hb1, app_assoc.
  - by rewrite Hu2, Hu1, app_assoc.
  - rewrite !Forall_app. by repeat split.
  - congruence.
  - exists (cs1 ++ cs2)%list. rewrite Hc2, Hc1, app_assoc, length_app.
    repeat split; [lia|by apply Forall_app].
Qed.

(** One call of [send_analysis_result]: either it returns and its record
    was acknowledged, or it raises an [Exception] and no record was: the
    record, if it was handed over at all, is left unacknowledged. *)
Lemma send_analysis_result_cases request_id results user_id seconds error now sv :
  exists r sv',
    send_analysis_result request_id results user_id seconds error now sv = (r, sv')
    /\ ((r = inr tt /\ exists rec, produced sv sv' [rec] [] 1)
        \/ (exists e, r = inl e /\ is_Exception e = true
                      /\ exists pending, produced sv sv' [] pending 1
                                         /\ (length pending <= 1)%nat)).
Proof.
  unfold send_analysis_result, send_and_get. run_monad.
  destruct (key_serializer request_id) as [e|k] eqn:Hk.
  - assert (He : is_Exception e = true).
    { unfold key_serializer in Hk. destruct (truthy request_id); [|discriminate].
      destruct request_id; inversion Hk; reflexivity. }
    rewrite He. do 2 eexists. split; [reflexivity|]. right. exists e.
    split; [reflexivity|]. split; [exact He|]. exists [].
    split; [|cbn; lia].
    repeat split; cbn; rewrite ?app_nil_r; try done.
    eexists. split; [reflexivity|]. split; [reflexivity|]. by repeat constructor.
  - destruct (next_outcome "KafkaError" (broker_outcomes sv)) as [e|] eqn:Hn.
    + assert (He : is_Exception e = true).
      { destruct (broker_outcomes sv) as [|[m|] l]; inversion Hn. reflexivity. }
      rewrite He. do 2 eexists. split; [reflexivity|]. right. exists e.
      split; [reflexivity|]. split; [exact He|].
      exists [(ANALYSIS_RESULTS_TOPIC, k,
               result_message request_id results user_id seconds error now)].
      split; [|cbn; lia].
      repeat split; cbn; rewrite ?app_nil_r; try done; [by repeat constructor|].
      eexists. split; [reflexivity|]. split; [reflexivity|]. by repeat constructor.
    + do 2 eexists. split; [reflexivity|]. left. split; [reflexivity|].
      eexists. repeat split; cbn; rewrite ?app_nil_r; try done;
        [by repeat constructor|].
      eexists. split; [reflexivity|]. split; [reflexivity|]. by repeat constructor.
Qed.

(** What one call may leave behind: at most two records handed to the
    producer in at most two calls, at most one of them acknowledged. *)
Definition at_most_one_acknowledged (sv sv' : services) : Prop :=
  exists acked pending n,
    produced sv sv' acked pending n
    /\ (length acked <= 1)%nat
    /\ (length acked + length pending <= n)%nat
    /\ (n <= 2)%nat.

(** The handler of [process_image_message], entered after [n] calls that
    left nothing acknowledged. *)
Lemma error_result_sent request_id user_id error later sv sv0 pending n :
  produced sv sv0 [] pending n ->
  (length pending <= n)%nat ->
  (n <= 1)%nat ->
  at_most_one_acknowledged sv
    (send_analysis_result request_id (VList []) user_id VNone error later sv0).2.
Proof.
  intros H0 Hlen Hn.
  destruct (send_analysis_result_cases request_id (VList []) user_id VNone error later sv0)
    as (r & sv' & -> & [[-> [rec Hp]]|(e & -> & He & pending' & Hp & Hlen')]); cbn [snd].
  - exists [rec], (pending ++ [])%list, (n + 1)%nat.
    split; [exact (produced_trans _ _ _ _ _ _ _ _ _ H0 Hp)|].
    rewrite length_app. cbn. lia.
  - exists [], (pending ++ pending')%list, (n + 1)%nat.
    split; [exact (produced_trans _ _ _ _ _ _ _ _ _ H0 Hp)|].
    rewrite length_app. cbn. lia.
Qed.

(** X5: whatever the message, the engine and the broker do, one call of
    [process_image_message] calls the producer at most twice and hands it
    at most two records, all for the results topic.  At most one of them
    is acknowledged; a record left unacknowledged may still reach the
    topic.  The store is never touched. *)
Theorem process_image_message_publishes_at_most_one now later message_data sv :
  at_most_one_acknowledged sv
    (process_image_message engine now later message_data sv).2.
Proof.
  assert (Hnone : at_most_one_acknowledged sv sv).
  { exists [], [], 0%nat. split; [apply produced_refl|cbn; lia]. }
  unfold process_image_message, analyze_image, dict_item. run_monad.
  destruct (message_data !! "request_id") as [request_id|]; [|exact Hnone].
  destruct (message_data !! "user_id") as [user_id|]; [|exact Hnone].
  destruct (message_data !! "filename") as [fname|]; [|exact Hnone].
  destruct (slice8 request_id) as [e|[]]; [exact Hnone|].
  destruct (message_data !! "image_data") as [image_data|].
  - destruct (engine image_data) as [e|[predictions seconds]].
    + destruct (is_Exception e) eqn:He; cbn; rewrite ?He; [|exact Hnone].
      pose proof (error_result_sent request_id user_id (VStr (str_exn e)) later sv sv
                    [] 0 (produced_refl sv)) as H.
      destruct (send_analysis_result _ _ _ _ _ _ sv) as [[e'|[]] sv']; cbn in *;
        [destruct (is_Exception e')|]; apply H; lia.
    + cbn.
      destruct (send_analysis_result_cases request_id (VList predictions) user_id
                  (VNum seconds) VNone now sv)
        as (r & sv1 & -> & [[-> [rec Hp]]|(e & -> & He & pending & Hp & Hlen)]).
      * exists [rec], [], 1%nat. split; [exact Hp|cbn; lia].
      * rewrite He.
        pose proof (error_result_sent request_id user_id (VStr (str_exn e)) later sv sv1
                      pending 1 Hp) as H.
        destruct (send_analysis_result _ _ _ _ _ _ sv1) as [[e'|[]] sv']; cbn in *;
          [destruct (is_Exception e')|]; apply H; lia.
  - cbn.
    pose proof (error_result_sent request_id user_id
                  (VStr (str_exn (KeyError "image_data"))) later sv sv
                  [] 0 (produced_refl sv)) as H.
    destruct (send_analysis_result _ _ _ _ _ _ sv) as [[e'|[]] sv']; cbn in *;
      [destruct (is_Exception e')|]; apply H; lia.
Qed.

(** X6: with an acknowledging broker, a job whose analysis succeeds
    gets one result carrying its predictions, no error and status
    "completed"; a job whose analysis fails with a non-empty text gets
    one result carrying that text, no predictions and status "failed".
    Either way the record is keyed by the id of the job and names its
    user. *)
Theorem process_image_message_reports_outcome
    message_data rid user_id fname now later sv :
  job_fields message_data rid user_id fname ->
  acknowledges sv ->
  (forall e, analysis engine message_data = inl e -> is_Exception e = true) ->
  exists msg,
    process_image_message engine now later message_data sv
      = (inr tt, with_result sv rid msg)
    /\ msg !! "request_id" = Some (VStr rid)
    /\ msg !! "user_id" = Some user_id
    /\ match analysis engine message_data with
       | inr (predictions, seconds) =>
           msg !! "results" = Some (VList predictions)
           /\ msg !! "error" = Some VNone
           /\ msg !! "status" = Some (VStr "completed")
       | inl e =>
           str_exn e <> "" ->
           msg !! "results" = Some (VList [])
           /\ msg !! "error" = Some (VStr (str_exn e))
           /\ msg !! "status" = Some (VStr "failed")
       end.
Proof.
  intros Hjob Hack Hexn. eexists. split.
  - exact (process_image_message_publishes_one engine _ rid user_id fname now later sv
             Hjob Hack Hexn).
  - destruct (analysis engine message_data) as [e|[predictions seconds]].
    + repeat split; try reflexivity.
      rewrite result_message_status. cbn.
      apply String.eqb_neq in H. by rewrite H.
    + repeat split; reflexivity.
Qed.

(** X7: a message that lacks [request_id], [user_id] or [filename] makes
    [process_image_message] raise [KeyError] before the [try]: no result
    is published for it and the producer is not called. *)
Theorem process_image_message_missing_field now later message_data sv :
  message_data !! "request_id" = None
  \/ message_data !! "user_id" = None
  \/ message_data !! "filename" = None ->
  exists key,
    process_image_message engine now later message_data sv = (inl (KeyError key), sv).
Proof.
  intros H. unfold process_image_message, dict_item. run_monad.
  destruct (message_data !! "request_id") as [request_id|]; [|eauto].
  destruct (message_data !! "user_id") as [user_id|]; [|eauto].
  destruct (message_data !! "filename") as [fname|]; [|eauto].
  by destruct H as [H|[H|H]].
Qed.

(** X8: when the analysis succeeds but the acknowledgement of its
    result does not arrive, the handler of the same [try] sends an error
    result.  If that second send is acknowledged, the acknowledged record
    of the job is the error result: it has the text of the broker error
    as its error and no predictions.  The result with the predictions
    stays with the producer, unacknowledged: the topic may end up with
    both records for the one job. *)
Theorem failed_send_publishes_error_result
    message_data rid user_id fname now later sv predictions seconds msg rest :
  job_fields message_data rid user_id fname ->
  analysis engine message_data = inr (predictions, seconds) ->
  broker_outcomes sv = Some msg :: rest ->
  next_outcome "KafkaError" rest = None ->
  let after := (process_image_message engine now later message_data sv).2 in
  exists failed succeeded,
    broker after = (broker sv ++ [(ANALYSIS_RESULTS_TOPIC, Some rid, failed)])%list
    /\ unacked after
       = (unacked sv ++ [(ANALYSIS_RESULTS_TOPIC, Some rid, succeeded)])%list
    /\ failed !! "request_id" = Some (VStr rid)
    /\ failed !! "results" = Some (VList [])
    /\ failed !! "error" = Some (VStr msg)
    /\ failed !! "status"
       = Some (VStr (if String.eqb msg "" then "completed" else "failed"))
    /\ succeeded !! "request_id" = Some (VStr rid)
    /\ succeeded !! "results" = Some (VList predictions)
    /\ succeeded !! "error" = Some VNone
    /\ succeeded !! "status" = Some (VStr "completed")
    /\ calls after
       = (calls sv ++ [KafkaSend ANALYSIS_RESULTS_TOPIC (VStr rid);
                       KafkaSend ANALYSIS_RESULTS_TOPIC (VStr rid)])%list.
Proof.
  intros (Hrid & Hne & Huid & Hfn) Han Hout Hnext.
  exists (result_message (VStr rid) (VList []) user_id VNone (VStr msg) later),
         (result_message (VStr rid) (VList predictions) user_id (VNum seconds) VNone now).
  assert (Hrun : let after := (process_image_message engine now later message_data sv).2 in
            broker after
            = (broker sv ++
                 [(ANALYSIS_RESULTS_TOPIC, Some rid,
                   result_message (VStr rid) (VList []) user_id VNone (VStr msg)
                                  later)])%list
            /\ unacked after
               = (unacked sv ++
                    [(ANALYSIS_RESULTS_TOPIC, Some rid,
                      result_message (VStr rid) (VList predictions) user_id
                                     (VNum seconds) VNone now)])%list
            /\ calls after
               = (calls sv ++ [KafkaSend ANALYSIS_RESULTS_TOPIC (VStr rid);
                               KafkaSend ANALYSIS_RESULTS_TOPIC (VStr rid)])%list).
  { unfold process_image_message, analyze_image, analysis, dict_item in *.
    rewrite Hrid, Huid, Hfn. run_monad. cbn [slice8].
    destruct (message_data !! "image_data") as [image_data|]; [|discriminate].
    rewrite Han. cbn [fst snd is_Exception].
    unfold send_analysis_result, send_and_get, key_serializer. run_monad.
    cbn [truthy]. apply String.eqb_neq in Hne. rewrite Hne. cbn [negb].
    rewrite Hout. cbn. rewrite Hnext. cbn. rewrite <- app_assoc. by repeat split. }
  destruct Hrun as (Hb & Hu & Hc).
  split; [exact Hb|]. split; [exact Hu|].
  repeat split; try reflexivity; try exact Hc.
  rewrite result_message_status. cbn. by destruct (String.eqb msg "").
Qed.

End WorkerEdges.

Definition one_cat (image_data : value) : exn + (list value * Z) :=
  inr ([cat_prediction], 42).

Definition bad_image (image_data : value) : exn + (list value * Z) :=
  inl (Error "UnidentifiedImageError" "cannot identify image file").

Lemma job_r2_fields : job_fields job_r2 "r2" (VStr "alice") (VStr "cat.jpg").
Proof. repeat split; try reflexivity. discriminate. Qed.

Lemma process_image_message_reports_outcome_witness :
  exists msg,
    broker (ImageProcessor.process_image_message bad_image "t1" "t2" job_r2
              no_services).2
      = [(KafkaConfig.ANALYSIS_RESULTS_TOPIC, Some "r2", msg)]
    /\ msg !! "status" = Some (VStr "failed")
    /\ msg !! "error" = Some (VStr "cannot identify image file").
Proof.
  destruct (process_image_message_reports_outcome bad_image job_r2 "r2"
              (VStr "alice") (VStr "cat.jpg") "t1" "t2" no_services
              job_r2_fields eq_refl)
    as (msg & Hrun & _ & _ & Hcase).
  { intros e [= <-]. reflexivity. }
  exists msg. rewrite Hrun. split; [reflexivity|].
  cbn in Hcase. destruct Hcase as (_ & Herr & Hst); [discriminate|]. by split.
Defined.

Lemma process_image_message_missing_field_witness :
  exists key,
    ImageProcessor.process_image_message one_cat "t1" "t2" (job "r3") no_services
    = (inl (KeyError key), no_services).
Proof.
  apply (process_image_message_missing_field one_cat "t1" "t2" (job "r3") no_services).
  right. left. reflexivity.
Defined.

Definition flaky_broker : services :=
  {| broker := []; unacked := []; broker_outcomes := [Some "timed out"]; store := ∅;
     store_outcomes := []; calls := [] |}.

Lemma failed_send_publishes_error_result_witness :
  let after :=
    (ImageProcessor.process_image_message one_cat "t1" "t2" job_r2 flaky_broker).2 in
  exists failed succeeded,
    broker after = [(KafkaConfig.ANALYSIS_RESULTS_TOPIC, Some "r2", failed)]
    /\ unacked after = [(KafkaConfig.ANALYSIS_RESULTS_TOPIC, Some "r2", succeeded)]
    /\ failed !! "error" = Some (VStr "timed out")
    /\ failed !! "status" = Some (VStr "failed")
    /\ succeeded !! "results" = Some (VList [cat_prediction]).
Proof.
  destruct (failed_send_publishes_error_result one_cat job_r2 "r2" (VStr "alice")
              (VStr "cat.jpg") "t1" "t2" flaky_broker [cat_prediction] 42
              "timed out" [] job_r2_fields eq_refl eq_refl eq_refl)
    as (failed & succeeded & Hb & Hu & _ & _ & He & Hs & _ & Hr & _).
  exists failed, succeeded. by repeat split.
Defined.

(** ** The worker loop as a whole *)

Section WorkerLoop.
Import KafkaConfig ImageProcessor.
Variable engine : value -> exn + (list value * Z).

(** The engine fails with exceptions proper. *)
Definition engine_raises_only_Exception : Prop :=
  forall image_data e, engine image_data = inl e -> is_Exception e = true.

Definition job_id (message : dict) : option string :=
  match message !! "request_id" with
  | Some (VStr rid) => Some rid
  | _ => None
  end.

Definition well_formed_job (message : dict) : Prop :=
  exists rid user_id fname, job_fields message rid user_id fname.

Lemma analysis_raises_only_Exception message_data e :
  engine_raises_only_Exception ->
  analysis engine message_data = inl e -> is_Exception e = true.
Proof.
  intros Heng. unfold analysis, dict_item.
  destruct (message_data !! "image_data") as [image_data|].
  - apply Heng.
  - intros [= <-]. reflexivity.
Qed.

Lemma process_all_jobs now later jobs sv :
  engine_raises_only_Exception ->
  Forall well_formed_job jobs ->
  broker_outcomes sv = [] ->
  let after := callback_on_all (process_image_message engine now later) jobs sv in
  exists new,
    broker after = (broker sv ++ new)%list
    /\ map (fun r => r.1.2) new = map job_id jobs
    /\ Forall (fun r => r.1.1 = ANALYSIS_RESULTS_TOPIC) new
    /\ broker_outcomes after = [].
Proof.
  intros Heng Hjobs. revert sv.
  induction Hjobs as [|message jobs (rid & user_id & fname & Hjob) _ IH]; intros sv Hout.
  - exists []. by rewrite app_nil_r.
  - cbn [callback_on_all foldl].
    assert (Hack : acknowledges sv) by (unfold acknowledges; by rewrite Hout).
    rewrite (process_image_message_publishes_one engine message rid user_id fname
               now later sv Hjob Hack)
      by (intros e; by apply analysis_raises_only_Exception).
    cbn [snd].
    match goal with |- context [with_result sv rid ?m] => set (msg := m) end.
    destruct (IH (with_result sv rid msg)) as (new & Hb & Hk & Ht & Ho).
    { cbn. by rewrite Hout. }
    exists ((ANALYSIS_RESULTS_TOPIC, Some rid, msg) :: new).
    split; [|split; [|split]].
    + unfold callback_on_all in Hb. rewrite Hb. cbn. by rewrite <- app_assoc.
    + cbn. rewrite Hk. unfold job_id. destruct Hjob as (-> & _). reflexivity.
    + by constructor.
    + exact Ho.
Qed.

(** X9: run over a sequence of well-formed jobs with a broker that
    acknowledges every send, the worker loop publishes exactly one result
    per job, in the order of the jobs, each keyed by the id of its job,
    whether the analyses succeed or fail. *)
Theorem worker_publishes_one_result_per_job now later jobs c :
  engine_raises_only_Exception ->
  Forall well_formed_job jobs ->
  broker_outcomes (app c) = [] ->
  let after :=
    (consume_images (process_image_message engine now later) jobs c).2 in
  exists new,
    broker (app after) = (broker (app c) ++ new)%list
    /\ map (fun r => r.1.2) new = map job_id jobs
    /\ Forall (fun r => r.1.1 = ANALYSIS_RESULTS_TOPIC) new.
Proof.
  intros Heng Hjobs Hout after. subst after.
  unfold consume_images, consume.
  pose proof (consume_loop_prefix (process_image_message engine now later)
                jobs [] (app c)) as Hloop.
  rewrite app_nil_r in Hloop. rewrite Hloop; clear Hloop.
  - cbn [consume_loop snd app].
    assert (Hall : jobs_of jobs = jobs).
    { unfold jobs_of. clear Hout. induction Hjobs as [|m l (rid & u & f & Hr & _) _ IH];
        [reflexivity|].
      rewrite filter_cons, IH. rewrite decide_True; [reflexivity|by eexists]. }
    rewrite Hall.
    destruct (process_all_jobs now later jobs (app c) Heng Hjobs Hout)
      as (new & Hb & Hk & Ht & _).
    exists new. by repeat split.
  - intros message s e Hin Hr.
    rewrite Forall_forall in Hjobs.
    destruct (Hjobs _ Hin) as (rid & user_id & fname & Hjob).
    revert Hr. clear Hout.
    destruct Hjob as (Hrid & Hne & Huid & Hfn).
    unfold process_image_message, analyze_image, dict_item.
    rewrite Hrid, Huid, Hfn. run_monad. cbn [slice8].
    destruct (message !! "image_data") as [image_data|].
    + destruct (engine image_data) as [e'|[predictions seconds]] eqn:He'.
      * rewrite (Heng _ _ He'). cbn. rewrite (Heng _ _ He').
        destruct (send_analysis_result_cases (VStr rid) (VList []) user_id VNone
                    (VStr (str_exn e')) later s)
          as (r & sv' & -> & [[-> _]|(e2 & -> & He2 & _)]); cbn;
          [discriminate|by intros [= <-]].
      * cbn.
        destruct (send_analysis_result_cases (VStr rid) (VList predictions) user_id
                    (VNum seconds) VNone now s)
          as (r & sv' & -> & [[-> _]|(e2 & -> & He2 & _)]); cbn;
          [discriminate|].
        rewrite He2.
        destruct (send_analysis_result_cases (VStr rid) (VList []) user_id VNone
                    (VStr (str_exn e2)) later sv')
          as (r3 & sv3 & -> & [[-> _]|(e3 & -> & He3 & _)]); cbn;
          [discriminate|by intros [= <-]].
    + cbn -[send_analysis_result str_exn].
      destruct (send_analysis_result_cases (VStr rid) (VList []) user_id VNone
                  (VStr (str_exn (KeyError "image_data"))) later s)
        as (r & sv' & -> & [[-> _]|(e2 & -> & He2 & _)]); cbn;
        [discriminate|by intros [= <-]].
Qed.

End WorkerLoop.

Definition job_r3 : dict :=
  <["request_id" := VStr "r3"]>
  (<["user_id" := VStr "bob"]>
  (<["filename" := VStr "dog.png"]> ∅)).

Lemma worker_publishes_one_result_per_job_witness :
  exists new,
    broker (KafkaConfig.app
              (KafkaConfig.consume_images
                 (ImageProcessor.process_image_message one_cat "t1" "t2")
                 [job_r2; job_r3]
                 {| KafkaConfig.consumer_closed := false;
                    KafkaConfig.app := no_services |}).2) = new
    /\ map (fun r => r.1.2) new = [Some "r2"; Some "r3"].
Proof.
  destruct (worker_publishes_one_result_per_job one_cat "t1" "t2" [job_r2; job_r3]
              {| KafkaConfig.consumer_closed := false; KafkaConfig.app := no_services |})
    as (new & Hb & Hk & _).
  - intros image_data e. discriminate.
  - repeat constructor.
    + exists "r2", (VStr "alice"), (VStr "cat.jpg"). exact job_r2_fields.
    + exists "r3", (VStr "bob"), (VStr "dog.png").
      repeat split; try reflexivity. discriminate.
  - reflexivity.
  - exists new. split; [by rewrite Hb|exact Hk].
Defined.

(** ** Base64: what the producer encodes, the worker decodes *)

Module Base64.
Import Stdlib.Strings.Ascii KafkaConfig.

Definition BASE64_PAD : Ascii.ascii := "="%char.

Fixpoint index_of (c : Ascii.ascii) (s : string) (i : N) : option N :=
  match s with
  | EmptyString => None
  | String d rest => if Ascii.eqb c d then Some i else index_of c rest (i + 1)%N
  end.

(** [table_a2b_base64]: the value of a character of the alphabet *)
Definition table_a2b_base64 (c : Ascii.ascii) : option N := index_of c b64_alphabet 0.

(** Storing into an [unsigned char] *)
Definition to_byte (n : N) : Byte.byte :=
  default Byte.x00 (Byte.of_N (n mod 256)).

(** The loop of [binascii.a2b_base64] in its default, non-strict mode
    (CPython 3.11 and later): characters outside the alphabet are
    skipped, a complete pad sequence ends the input. *)
Fixpoint a2b_loop (data : string) (quad_pos leftchar pads : N)
    (out : list Byte.byte) : exn + list Byte.byte :=
  match data with
  | EmptyString =>
      if (quad_pos =? 0)%N then inr out
      else if (quad_pos =? 1)%N then
        inl (Error "binascii.Error"
               "Invalid base64-encoded string: number of data characters cannot be 1 more than a multiple of 4")
      else inl (Error "binascii.Error" "Incorrect padding")
  | String this_ch rest =>
      if Ascii.eqb this_ch BASE64_PAD then
        if (2 <=? quad_pos)%N then
          if (4 <=? quad_pos + (pads + 1))%N then inr out
          else a2b_loop rest quad_pos leftchar (pads + 1)%N out
        else a2b_loop rest quad_pos leftchar pads out
      else
        match table_a2b_base64 this_ch with
        | None => a2b_loop rest quad_pos leftchar pads out
        | Some v =>
            if (quad_pos =? 0)%N then a2b_loop rest 1 v 0 out
            else if (quad_pos =? 1)%N then
              a2b_loop rest 2 (N.land v 15) 0
                (out ++ [to_byte (N.lor (N.shiftl leftchar 2) (N.shiftr v 4))])%list
            else if (quad_pos =? 2)%N then
              a2b_loop rest 3 (N.land v 3) 0
                (out ++ [to_byte (N.lor (N.shiftl leftchar 4) (N.shiftr v 2))])%list
            else
              a2b_loop rest 0 0 0
                (out ++ [to_byte (N.lor (N.shiftl leftchar 6) v)])%list
        end
  end.

Definition is_7bit (c : Ascii.ascii) : bool := (Ascii.N_of_ascii c <? 128)%N.

(** [base64.b64decode(s)]: an ASCII [str] or [bytes] *)
Definition b64decode (s : value) : exn + list Byte.byte :=
  match s with
  | VStr text =>
      if forallb is_7bit (String.list_ascii_of_string text)
      then a2b_loop text 0 0 0 []
      else inl (Error "ValueError"
                  "string argument should contain only ASCII characters")
  | VBytes b => a2b_loop (String.string_of_list_byte b) 0 0 0 []
  | _ => inl (TypeError "argument should be a bytes-like object or ASCII string")
  end.

End Base64.

Example b64decode_examples :
  Base64.b64decode (VStr "TWFu") = inr [Byte.x4d; Byte.x61; Byte.x6e]
  /\ Base64.b64decode (VStr "TWE=") = inr [Byte.x4d; Byte.x61]
  /\ Base64.b64decode (VStr "TQ==") = inr [Byte.x4d]
  /\ Base64.b64decode (VStr "TW Fu
") = inr [Byte.x4d; Byte.x61; Byte.x6e]
  /\ Base64.b64decode (VStr "TWF") = inl (Error "binascii.Error" "Incorrect padding")
  /\ Base64.b64decode (VStr "TQ=") = inl (Error "binascii.Error" "Incorrect padding").
Proof. repeat split; reflexivity. Qed.

Section Base64RoundTrip.
Import Stdlib.Strings.Ascii KafkaConfig Base64.

Definition sextets : list N := map N.of_nat (seq 0 64).

Lemma sextet_in n : (n < 64)%N -> n ∈ sextets.
Proof.
  intros H. unfold sextets. apply list_elem_of_fmap.
  exists (N.to_nat n). split; [by rewrite N2Nat.id|].
  apply list_elem_of_In, in_seq. lia.
Qed.

(** A character of the alphabet: decoded to its index, not the pad, ASCII. *)
Definition sextet_ok (n : N) : bool :=
  match b64_char n with
  | String ch EmptyString =>
      match table_a2b_base64 ch with
      | Some m => (m =? n)%N
      | None => false
      end && negb (Ascii.eqb ch BASE64_PAD) && is_7bit ch
  | _ => false
  end.

Lemma b64_char_decodes n :
  (n < 64)%N ->
  exists ch,
    b64_char n = String ch EmptyString
    /\ table_a2b_base64 ch = Some n
    /\ Ascii.eqb ch BASE64_PAD = false
    /\ is_7bit ch = true.
Proof.
  intros H.
  assert (Hall : forallb sextet_ok sextets = true) by (vm_compute; reflexivity).
  rewrite forallb_forall in Hall.
  specialize (Hall n (proj1 (list_elem_of_In _ _) (sextet_in n H))).
  unfold sextet_ok in Hall.
  destruct (b64_char n) as [|ch [|]]; try discriminate.
  exists ch. destruct (table_a2b_base64 ch) as [m|]; [|discriminate].
  apply andb_true_iff in Hall as [Hall H7].
  apply andb_true_iff in Hall as [Hm Hp].
  apply N.eqb_eq in Hm. subst m. apply negb_true_iff in Hp. by repeat split.
Qed.

(** The shifts and masks of the decoder on 6-bit values, as arithmetic. *)
Definition bits_ok (x y : N) : bool :=
  ((N.lor (N.shiftl x 2) (N.shiftr y 4) =? x * 4 + y / 16)
   && (N.land y 15 =? y mod 16)
   && (N.lor (N.shiftl (y mod 16) 4) (N.shiftr x 2) =? (y mod 16) * 16 + x / 4)
   && (N.land x 3 =? x mod 4)
   && (N.lor (N.shiftl (y mod 4) 6) x =? (y mod 4) * 64 + x))%N.

Lemma bits_as_arithmetic x y :
  (x < 64)%N -> (y < 64)%N ->
  (N.lor (N.shiftl x 2) (N.shiftr y 4) = x * 4 + y / 16
   /\ N.land y 15 = y mod 16
   /\ N.lor (N.shiftl (y mod 16) 4) (N.shiftr x 2) = (y mod 16) * 16 + x / 4
   /\ N.land x 3 = x mod 4
   /\ N.lor (N.shiftl (y mod 4) 6) x = (y mod 4) * 64 + x)%N.
Proof.
  intros Hx Hy.
  assert (Hall : forallb (fun x => forallb (bits_ok x) sextets) sextets = true)
    by (vm_compute; reflexivity).
  rewrite forallb_forall in Hall.
  specialize (Hall x (proj1 (list_elem_of_In _ _) (sextet_in x Hx))).
  rewrite forallb_forall in Hall.
  specialize (Hall y (proj1 (list_elem_of_In _ _) (sextet_in y Hy))).
  unfold bits_ok in Hall.
  repeat (apply andb_true_iff in Hall as [Hall ?]).
  repeat match goal with H : (_ =? _)%N = true |- _ => apply N.eqb_eq in H end.
  by repeat split.
Qed.

Lemma to_byte_of_byte (a : Byte.byte) : to_byte (Byte.to_N a) = a.
Proof.
  unfold to_byte. pose proof (Byte.to_N_bounded a).
  rewrite N.mod_small by lia. by rewrite Byte.of_to_N.
Qed.

Ltac div_mod_lia := zify; Z.to_euclidean_division_equations; lia.

Lemma char_app ch s : String ch EmptyString +:+ s = String ch s.
Proof. reflexivity. Qed.

(** Decoding the four characters of a full group gives back its three bytes. *)
Lemma a2b_loop_group (a b c : Byte.byte) rest leftchar pads out :
  let n := (Byte.to_N a * 65536 + Byte.to_N b * 256 + Byte.to_N c)%N in
  a2b_loop (b64_char (n / 262144) +:+ b64_char ((n / 4096) mod 64)
            +:+ b64_char ((n / 64) mod 64) +:+ b64_char (n mod 64) +:+ rest)
           0 leftchar pads out
  = a2b_loop rest 0 0 0 (out ++ [a; b; c])%list.
Proof.
  intros n.
  pose proof (Byte.to_N_bounded a) as Ha. pose proof (Byte.to_N_bounded b) as Hb.
  pose proof (Byte.to_N_bounded c) as Hc.
  set (i1 := (n / 262144)%N). set (i2 := ((n / 4096) mod 64)%N).
  set (i3 := ((n / 64) mod 64)%N). set (i4 := (n mod 64)%N).
  assert (H1 : (i1 < 64)%N) by (subst i1 n; div_mod_lia).
  assert (H2 : (i2 < 64)%N) by (subst i2 n; div_mod_lia).
  assert (H3 : (i3 < 64)%N) by (subst i3 n; div_mod_lia).
  assert (H4 : (i4 < 64)%N) by (subst i4 n; div_mod_lia).
  destruct (b64_char_decodes i1 H1) as (c1 & -> & T1 & P1 & _).
  destruct (b64_char_decodes i2 H2) as (c2 & -> & T2 & P2 & _).
  destruct (b64_char_decodes i3 H3) as (c3 & -> & T3 & P3 & _).
  destruct (b64_char_decodes i4 H4) as (c4 & -> & T4 & P4 & _).
  rewrite !char_app. cbn [a2b_loop]. rewrite P1, T1. cbn [N.eqb].
  rewrite P2, T2. cbn [N.eqb Pos.eqb].
  rewrite P3, T3. cbn [N.eqb Pos.eqb].
  rewrite P4, T4. cbn [N.eqb Pos.eqb].
  destruct (bits_as_arithmetic i1 i2 H1 H2) as (E1 & E2 & _).
  destruct (bits_as_arithmetic i3 i2 H3 H2) as (_ & _ & E3 & E4 & _).
  destruct (bits_as_arithmetic i4 i3 H4 H3) as (_ & _ & _ & _ & E5).
  rewrite E1, E2, E3, E4, E5.
  replace (i1 * 4 + i2 / 16)%N with (Byte.to_N a) by (subst i1 i2 n; div_mod_lia).
  replace (i2 mod 16 * 16 + i3 / 4)%N with (Byte.to_N b) by (subst i2 i3 n; div_mod_lia).
  replace (i3 mod 4 * 64 + i4)%N with (Byte.to_N c) by (subst i3 i4 n; div_mod_lia).
  rewrite !to_byte_of_byte, <- !app_assoc. reflexivity.
Qed.

Lemma a2b_loop_one (a : Byte.byte) leftchar pads out :
  a2b_loop (b64encode [a]) 0 leftchar pads out = inr (out ++ [a])%list.
Proof.
  pose proof (Byte.to_N_bounded a) as Ha.
  cbn [b64encode]. set (n := Byte.to_N a) in *.
  set (i1 := (n / 4)%N). set (i2 := (n mod 4 * 16)%N).
  assert (H1 : (i1 < 64)%N) by (subst i1; div_mod_lia).
  assert (H2 : (i2 < 64)%N) by (subst i2; div_mod_lia).
  destruct (b64_char_decodes i1 H1) as (c1 & -> & T1 & P1 & _).
  destruct (b64_char_decodes i2 H2) as (c2 & -> & T2 & P2 & _).
  rewrite !char_app. cbn [a2b_loop]. rewrite P1, T1. cbn [N.eqb].
  rewrite P2, T2. cbn [N.eqb Pos.eqb].
  destruct (bits_as_arithmetic i1 i2 H1 H2) as (E1 & _).
  rewrite E1.
  replace (i1 * 4 + i2 / 16)%N with n by (subst i1 i2; div_mod_lia).
  subst n. rewrite to_byte_of_byte. reflexivity.
Qed.

Lemma a2b_loop_two (a b : Byte.byte) leftchar pads out :
  a2b_loop (b64encode [a; b]) 0 leftchar pads out = inr (out ++ [a; b])%list.
Proof.
  pose proof (Byte.to_N_bounded a) as Ha. pose proof (Byte.to_N_bounded b) as Hb.
  cbn [b64encode]. set (n := (Byte.to_N a * 256 + Byte.to_N b)%N).
  set (i1 := (n / 1024)%N). set (i2 := ((n / 16) mod 64)%N).
  set (i3 := (n mod 16 * 4)%N).
  assert (H1 : (i1 < 64)%N) by (subst i1 n; div_mod_lia).
  assert (H2 : (i2 < 64)%N) by (subst i2 n; div_mod_lia).
  assert (H3 : (i3 < 64)%N) by (subst i3 n; div_mod_lia).
  destruct (b64_char_decodes i1 H1) as (c1 & -> & T1 & P1 & _).
  destruct (b64_char_decodes i2 H2) as (c2 & -> & T2 & P2 & _).
  destruct (b64_char_decodes i3 H3) as (c3 & -> & T3 & P3 & _).
  rewrite !char_app. cbn [a2b_loop]. rewrite P1, T1. cbn [N.eqb].
  rewrite P2, T2. cbn [N.eqb Pos.eqb].
  rewrite P3, T3. cbn [N.eqb Pos.eqb].
  destruct (bits_as_arithmetic i1 i2 H1 H2) as (E1 & E2 & _).
  destruct (bits_as_arithmetic i3 i2 H3 H2) as (_ & _ & E3 & _).
  rewrite E1, E2, E3.
  replace (i1 * 4 + i2 / 16)%N with (Byte.to_N a) by (subst i1 i2 n; div_mod_lia).
  replace (i2 mod 16 * 16 + i3 / 4)%N with (Byte.to_N b) by (subst i2 i3 n; div_mod_lia).
  rewrite !to_byte_of_byte, <- !app_assoc. reflexivity.
Qed.

Lemma bytes_ind3 (P : list Byte.byte -> Prop) :
  P [] -> (forall a, P [a]) -> (forall a b, P [a; b]) ->
  (forall a b c rest, P rest -> P (a :: b :: c :: rest)) ->
  forall l, P l.
Proof.
  intros H0 H1 H2 H3. fix IH 1.
  intros [|a [|b [|c rest]]]; [exact H0|apply H1|apply H2|apply H3, IH].
Qed.

Lemma a2b_loop_b64encode payload : forall leftchar pads out,
  a2b_loop (b64encode payload) 0 leftchar pads out = inr (out ++ payload)%list.
Proof.
  induction payload as [|a|a b|a b c rest IH] using bytes_ind3;
    intros leftchar pads out.
  - cbn. by rewrite app_nil_r.
  - apply a2b_loop_one.
  - apply a2b_loop_two.
  - cbn [b64encode]. rewrite a2b_loop_group, IH, <- app_assoc. reflexivity.
Qed.

Lemma b64encode_is_ascii payload :
  forallb is_7bit (String.list_ascii_of_string (b64encode payload)) = true.
Proof.
  induction payload as [|a|a b|a b c rest IH] using bytes_ind3.
  - reflexivity.
  - pose proof (Byte.to_N_bounded a) as Ha. cbn [b64encode].
    destruct (b64_char_decodes (Byte.to_N a / 4)) as (c1 & -> & _ & _ & A1);
      [div_mod_lia|].
    destruct (b64_char_decodes (Byte.to_N a mod 4 * 16)) as (c2 & -> & _ & _ & A2);
      [div_mod_lia|].
    rewrite !char_app. cbn. by rewrite A1, A2.
  - pose proof (Byte.to_N_bounded a) as Ha. pose proof (Byte.to_N_bounded b) as Hb.
    cbn [b64encode].
    destruct (b64_char_decodes ((Byte.to_N a * 256 + Byte.to_N b) / 1024))
      as (c1 & -> & _ & _ & A1); [div_mod_lia|].
    destruct (b64_char_decodes (((Byte.to_N a * 256 + Byte.to_N b) / 16) mod 64))
      as (c2 & -> & _ & _ & A2); [div_mod_lia|].
    destruct (b64_char_decodes ((Byte.to_N a * 256 + Byte.to_N b) mod 16 * 4))
      as (c3 & -> & _ & _ & A3); [div_mod_lia|].
    rewrite !char_app. cbn. by rewrite A1, A2, A3.
  - pose proof (Byte.to_N_bounded a) as Ha. pose proof (Byte.to_N_bounded b) as Hb.
    pose proof (Byte.to_N_bounded c) as Hc.
    cbn [b64encode].
    set (n := (Byte.to_N a * 65536 + Byte.to_N b * 256 + Byte.to_N c)%N).
    destruct (b64_char_decodes (n / 262144)) as (c1 & -> & _ & _ & A1);
      [subst n; div_mod_lia|].
    destruct (b64_char_decodes ((n / 4096) mod 64)) as (c2 & -> & _ & _ & A2);
      [subst n; div_mod_lia|].
    destruct (b64_char_decodes ((n / 64) mod 64)) as (c3 & -> & _ & _ & A3);
      [subst n; div_mod_lia|].
    destruct (b64_char_decodes (n mod 64)) as (c4 & -> & _ & _ & A4);
      [subst n; div_mod_lia|].
    rewrite !char_app. cbn [String.list_ascii_of_string forallb].
    by rewrite A1, A2, A3, A4, IH.
Qed.

Lemma b64decode_b64encode_payload payload :
  b64decode (VStr (b64encode payload)) = inr payload.
Proof.
  unfold b64decode. rewrite b64encode_is_ascii.
  by rewrite a2b_loop_b64encode.
Qed.

(** X10: decoding what [b64encode] gives returns the bytes that were
    encoded, for every payload and whatever its length modulo 3; the
    encoding never contains a character outside ASCII. *)
Theorem b64decode_b64encode payload :
  b64decode (VStr (b64encode payload)) = inr payload
  /\ forallb is_7bit (String.list_ascii_of_string (b64encode payload)) = true.
Proof. split; [apply b64decode_b64encode_payload|apply b64encode_is_ascii]. Qed.

(** X11: an acknowledged [send_image_for_analysis] adds one record to
    the uploads topic and returns its id: the record is keyed by that id,
    its message carries the id, the file name and status "pending", names
    the user or "anonymous" when none is given, and its [image_data]
    decodes to the bytes that were passed in. *)
Theorem send_image_for_analysis_publishes_job image_data fname user_id uuid now sv :
  acknowledges sv ->
  uuid <> "" ->
  exists msg,
    send_image_for_analysis
      [("image_data", VBytes image_data); ("filename", fname); ("user_id", user_id)]
      uuid now sv
    = (inr uuid,
       {| broker := (broker sv ++ [(IMAGE_UPLOAD_TOPIC, Some uuid, msg)])%list;
          unacked := unacked sv;
          broker_outcomes := tail (broker_outcomes sv);
          store := store sv; store_outcomes := store_outcomes sv;
          calls := (calls sv ++ [KafkaSend IMAGE_UPLOAD_TOPIC (VStr uuid)])%list |})
    /\ msg !! "request_id" = Some (VStr uuid)
    /\ msg !! "filename" = Some fname
    /\ msg !! "status" = Some (VStr "pending")
    /\ msg !! "user_id"
       = Some (if truthy user_id then user_id else VStr "anonymous")
    /\ b64decode (dict_get msg "image_data") = inr image_data.
Proof.
  intros Hack Hne. exists (job_message uuid user_id fname image_data now).
  split.
  - rewrite send_image_for_analysis_run. unfold acknowledges in Hack. rewrite Hack.
    cbn [truthy]. apply String.eqb_neq in Hne. by rewrite Hne.
  - repeat split; try reflexivity. apply b64decode_b64encode_payload.
Qed.

End Base64RoundTrip.

(** ** More on the polling API *)

Section PollingApi.
Import SimpleApi.

(** X12: results published twice for one id do not accumulate: handling
    a second result for an id leaves the tables exactly as if only the
    second one had been handled, and the stored result is the later one. *)
Theorem handle_analysis_result_last_write_wins first second rid st :
  first !! "request_id" = Some (VStr rid) ->
  second !! "request_id" = Some (VStr rid) ->
  rid <> "" ->
  let twice := (handle_analysis_result second (handle_analysis_result first st).2).2 in
  twice = (handle_analysis_result second st).2
  /\ analysis_results twice !! KStr rid = Some second.
Proof.
  intros H1 H2 Hne twice. subst twice.
  rewrite (handle_analysis_result_stores first rid st H1 Hne).
  rewrite !(handle_analysis_result_stores second rid _ H2 Hne).
  cbn. rewrite insert_insert_eq, delete_delete_eq, lookup_insert_eq. by split.
Qed.

(** What the three reads of an id agree on. *)
Definition result_available (r : exn + dict) : option value :=
  match r with
  | inr response => response !! "result_available"
  | inl _ => None
  end.

(** X13: [get_result] answers 200 exactly when [get_status] says
    [result_available: true]; otherwise it answers 202 when the id is in
    the pending table and 404 when it is in neither table.  Neither read
    changes the tables. *)
Theorem get_result_agrees_with_get_status rid st :
  (http_status (get_result rid st).1 = 200
   <-> result_available (get_status rid st).1 = Some (VBool true))
  /\ (http_status (get_result rid st).1 = 202
      <-> analysis_results st !! KStr rid = None
          /\ is_Some (pending_requests st !! KStr rid))
  /\ (http_status (get_result rid st).1 = 404
      <-> analysis_results st !! KStr rid = None
          /\ pending_requests st !! KStr rid = None)
  /\ (get_result rid st).2 = st
  /\ (get_status rid st).2 = st.
Proof.
  split; [|split; [|split; [|split; [|apply get_status_reads_only]]]];
    unfold get_result, get_status, dict_item; run_monad;
    destruct (analysis_results st !! KStr rid) as [result|];
    destruct (pending_requests st !! KStr rid) as [entry|]; cbn;
    try (destruct (entry !! "status"); cbn);
    try (destruct (entry !! "submitted_at"); cbn);
    try reflexivity;
    (split; [intros H; try discriminate H; try done
            |intros H; try discriminate H; try done;
             try (destruct H as [H H']; try discriminate H; try discriminate H';
                  try (by destruct H'))]).
Qed.

(** [completed_at] of a status answer. *)
Definition completed_at (r : exn + dict) : option value :=
  match r with
  | inr response => response !! "completed_at"
  | inl _ => None
  end.

(** X14: once a result with a non-empty id is handled, whatever the
    tables held before, a status read of that id shows "completed" with
    the timestamp of the result, [get_result] answers 200, the id is off
    the pending table, and the other ids read as they did. *)
Theorem stored_result_is_served result_data rid st :
  result_data !! "request_id" = Some (VStr rid) ->
  rid <> "" ->
  let st' := (handle_analysis_result result_data st).2 in
  reported rid st' = Some (VStr "completed")
  /\ completed_at (get_status rid st').1 = Some (dict_get result_data "timestamp")
  /\ http_status (get_result rid st').1 = 200
  /\ pending_requests st' !! KStr rid = None
  /\ forall other, other <> rid ->
       reported other st' = reported other st
       /\ http_status (get_result other st').1 = http_status (get_result other st).1.
Proof.
  intros Hrid Hne st'. subst st'.
  rewrite (handle_analysis_result_stores result_data rid st Hrid Hne). cbn [snd].
  rewrite reported_cases. unfold get_status, get_result. run_monad.
  cbn [analysis_results pending_requests].
  rewrite lookup_insert_eq, lookup_delete_eq. cbn.
  repeat split; try reflexivity.
  - rewrite !reported_cases. cbn [analysis_results pending_requests].
    assert (Hneq : KStr rid <> KStr other) by congruence.
    rewrite lookup_insert_ne by done. rewrite lookup_delete_ne by done.
    reflexivity.
  - assert (Hneq : KStr rid <> KStr other) by congruence.
    rewrite lookup_insert_ne by done. rewrite lookup_delete_ne by done.
    destruct (analysis_results st !! KStr other); [reflexivity|].
    destruct (pending_requests st !! KStr other); reflexivity.
Qed.

(** X15: [cleanup_old_results] reports how many results were stored and
    forgets both tables: afterwards every id reads "not_found" and
    [get_result] answers 404; the services are not touched. *)
Theorem cleanup_forgets_everything st :
  let r := cleanup_old_results st in
  (exists response,
     r.1 = inr response
     /\ response !! "message"
        = Some (VStr ("Cleaned up " +:+ pretty (size (analysis_results st))
                      +:+ " old results"))
     /\ response !! "remaining_results" = Some (VNum 0))
  /\ svc r.2 = svc st
  /\ forall rid,
       reported rid r.2 = Some (VStr "not_found")
       /\ http_status (get_result rid r.2).1 = 404.
Proof.
  cbn. split; [eexists; by repeat split|]. split; [reflexivity|].
  intros rid. by rewrite reported_cases.
Qed.

Lemma analyze_image_valid_run file uuid now uuid_p now_p st :
  valid_upload file ->
  (analyze_image file uuid now uuid_p now_p st).2
  = {| analysis_results := analysis_results st;
       pending_requests := <[KStr uuid := submitted_entry file now]> (pending_requests st);
       svc := svc st |}.
Proof.
  intros [Hct Hsz]. unfold analyze_image, KafkaConfig.send_image_for_analysis, with_svc.
  run_monad. rewrite Hct. cbn [negb]. rewrite Hsz.
  rewrite unexpected_request_id. reflexivity.
Qed.

(** X16: a valid upload, which is answered 500 without anything being
    sent, leaves its entry in the pending table: the id it drew reads
    "submitted" and [get_result] answers 202 for it, although no worker
    will ever see the job. *)
Theorem rejected_job_stays_pending file uuid now uuid_p now_p st :
  valid_upload file ->
  analysis_results st !! KStr uuid = None ->
  let st' := (analyze_image file uuid now uuid_p now_p st).2 in
  reported uuid st' = Some (VStr "submitted")
  /\ http_status (get_result uuid st').1 = 202
  /\ calls (svc st') = calls (svc st)
  /\ broker (svc st') = broker (svc st).
Proof.
  intros Hv Hnone st'. subst st'. rewrite (analyze_image_valid_run _ _ _ _ _ _ Hv).
  split; [|split; [|by split]].
  - rewrite reported_cases. cbn [analysis_results pending_requests].
    rewrite Hnone, lookup_insert_eq. reflexivity.
  - unfold get_result. run_monad. cbn [analysis_results pending_requests].
    rewrite Hnone, lookup_insert_eq. reflexivity.
Qed.

(** The request ids of a sequence of result messages. *)
Definition has_id (rid : string) (message : dict) : Prop :=
  message !! "request_id" = Some (VStr rid).

Definition holds_result_of (messages : list dict) (rid : string) (st : state) : Prop :=
  exists stored, analysis_results st !! KStr rid = Some stored
                 /\ stored ∈ messages /\ has_id rid stored.

Lemma handle_analysis_result_raises_only_Exception :
  raises_only_Exception handle_analysis_result.
Proof.
  intros message s e. unfold handle_analysis_result.
  destruct (truthy (dict_get message "request_id")); [|discriminate].
  destruct (dict_get message "request_id"); try discriminate;
    intros [= <-]; reflexivity.
Qed.

Lemma holds_result_step messages rid st message :
  message ∈ messages ->
  rid <> "" ->
  has_id rid message \/ holds_result_of messages rid st ->
  holds_result_of messages rid (handle_analysis_result message st).2.
Proof.
  intros Hin Hne [Hid|(stored & Hst & Hsin & Hsid)]; unfold holds_result_of.
  - rewrite (handle_analysis_result_stores message rid st Hid Hne).
    cbn [snd analysis_results].
    exists message. rewrite lookup_insert_eq. by repeat split.
  - unfold handle_analysis_result.
    destruct (truthy (dict_get message "request_id")); [|by exists stored].
    run_monad.
    destruct (hash_key (dict_get message "request_id")) as [e|k] eqn:Hk;
      [by exists stored|].
    cbn [snd analysis_results]. destruct (decide (k = KStr rid)) as [->|Hother].
    + exists message. rewrite lookup_insert_eq. repeat split; [done|].
      unfold has_id, dict_get in *.
      destruct (message !! "request_id") as [v|]; cbn in Hk; [|discriminate].
      destruct v; try discriminate; try (by destruct b).
      by inversion Hk.
    + exists stored. rewrite lookup_insert_ne by done. by repeat split.
Qed.

Lemma holds_result_fold messages rid l st :
  (forall m, m ∈ l -> m ∈ messages) ->
  rid <> "" ->
  (exists m, m ∈ l /\ has_id rid m) \/ holds_result_of messages rid st ->
  holds_result_of messages rid (callback_on_all handle_analysis_result l st).
Proof.
  intros Hsub Hne. revert st.
  induction l as [|x l IH]; intros st H.
  - destruct H as [(m & Hm & _)|H]; [by apply elem_of_nil in Hm|exact H].
  - cbn [callback_on_all foldl]. apply IH.
    + intros m Hm. apply Hsub. by right.
    + destruct H as [(m & Hm & Hid)|H].
      * apply elem_of_cons in Hm as [->|Hm].
        -- right. apply holds_result_step; [apply Hsub; by left|done|by left].
        -- left. by exists m.
      * right. apply holds_result_step; [apply Hsub; by left|done|by right].
Qed.

(** X17: after the background consumer has gone through a sequence of
    result messages, every non-empty id that occurs in the sequence reads
    "completed", and what is stored for it is a message of the sequence
    carrying that id -- whatever other messages, well formed or not, came
    in between. *)
Theorem consumed_results_are_completed messages rid message c :
  message ∈ messages ->
  has_id rid message ->
  rid <> "" ->
  let after :=
    KafkaConfig.app
      (KafkaConfig.consume_results handle_analysis_result messages c).2 in
  reported rid after = Some (VStr "completed")
  /\ holds_result_of messages rid after.
Proof.
  intros Hin Hid Hne after. subst after.
  unfold KafkaConfig.consume_results, KafkaConfig.consume.
  pose proof (consume_loop_prefix handle_analysis_result messages []
                (KafkaConfig.app c)) as Hloop.
  rewrite app_nil_r in Hloop. rewrite Hloop; clear Hloop.
  2:{ intros m s e _. apply handle_analysis_result_raises_only_Exception. }
  cbn [KafkaConfig.consume_loop snd KafkaConfig.app ret].
  assert (H : holds_result_of messages rid
            (callback_on_all handle_analysis_result (jobs_of messages)
               (KafkaConfig.app c))).
  { apply holds_result_fold; [|done|].
    - intros m Hm. unfold jobs_of in Hm. by apply list_elem_of_filter in Hm as [? ?].
    - left. exists message. split; [|done].
      unfold jobs_of. apply list_elem_of_filter. split; [|done].
      unfold has_id in Hid. by rewrite Hid. }
  split; [|exact H].
  destruct H as (stored & Hst & _). rewrite reported_cases. by rewrite Hst.
Qed.

(** X28: a result whose id is truthy and hashable but not a [str] -- a
    number, say -- is stored all the same, under that key; no status or
    result read can name it, since a path parameter is a [str], so every
    read answers as before, but the entry is there and [cleanup] will
    count it. *)
Theorem non_str_result_is_stored_out_of_reach result_data v k st :
  result_data !! "request_id" = Some v ->
  truthy v = true ->
  hash_key v = inr k ->
  (forall s, k <> KStr s) ->
  let st' := (handle_analysis_result result_data st).2 in
  (handle_analysis_result result_data st).1 = inr tt
  /\ analysis_results st' !! k = Some result_data
  /\ (forall rid,
        reported rid st' = reported rid st
        /\ http_status (get_result rid st').1 = http_status (get_result rid st).1)
  /\ (analysis_results st !! k = None ->
      size (analysis_results st') = S (size (analysis_results st))).
Proof.
  intros Hv Ht Hk Hnot st'. subst st'.
  unfold handle_analysis_result, dict_get. rewrite Hv. cbn [default from_option id].
  rewrite Ht. run_monad. rewrite Hk. cbn [fst snd].
  split; [reflexivity|]. split; [apply lookup_insert_eq|]. split.
  - intros rid. specialize (Hnot rid).
    rewrite !reported_cases. unfold get_result. run_monad.
    cbn [analysis_results pending_requests].
    rewrite lookup_insert_ne by done. rewrite lookup_delete_ne by done.
    split; [reflexivity|].
    destruct (analysis_results st !! KStr rid); [reflexivity|].
    destruct (pending_requests st !! KStr rid); reflexivity.
  - intros Hfresh. cbn [analysis_results]. by rewrite map_size_insert_None.
Qed.

End PollingApi.

(** ** Client sessions *)

Section Sessions.
Import RealtimeApp.

(** [st] with the frames [fs] written after its own. *)
Definition add_frames (fs : list (nat * dict)) (st : state) : state :=
  {| active_connections := active_connections st; svc := svc st;
     frames := (frames st ++ fs)%list;
     metrics_available := metrics_available st;
     image_uploads := image_uploads st; analysis_errors := analysis_errors st |}.

Lemma add_frames_nil st : add_frames [] st = st.
Proof. destruct st. unfold add_frames. cbn. by rewrite app_nil_r. Qed.

Lemma add_frames_app fs1 fs2 st :
  add_frames fs2 (add_frames fs1 st) = add_frames (fs1 ++ fs2) st.
Proof. unfold add_frames. cbn. by rewrite app_assoc. Qed.

Lemma send_personal_message_open message user_id ws st :
  active_connections st !! user_id = Some ws ->
  ws_open ws = true ->
  send_personal_message message user_id st
  = (inr tt, add_frames [(ws_id ws, message)] st).
Proof.
  intros Hreg Hopen. unfold send_personal_message, send_text. run_monad.
  by rewrite Hreg, Hopen.
Qed.

(** The times at which the pings of a session are handled. *)
Definition pong_times (incoming : list (string * (exn + value))) : list string :=
  flat_map (fun frame =>
              match frame.2 with
              | inr (VDict d) => if is_ping (dict_get d "type") then [frame.1] else []
              | _ => []
              end) incoming.

(** A frame that parses to a JSON object. *)
Definition parses_to_object (frame : string * (exn + value)) : Prop :=
  exists d, frame.2 = inr (VDict d).

Definition pongs (ws : WebSocket) (incoming : list (string * (exn + value)))
  : list (nat * dict) :=
  map (fun now => (ws_id ws, pong_message now)) (pong_times incoming).

Lemma receive_loop_frames user_id ws pre rest st :
  active_connections st !! user_id = Some ws ->
  ws_open ws = true ->
  Forall parses_to_object pre ->
  receive_loop user_id (pre ++ rest) st
  = receive_loop user_id rest (add_frames (pongs ws pre) st).
Proof.
  intros Hreg Hopen Hall. revert st Hreg.
  induction Hall as [|[now parsed] pre [d Hd] _ IH]; intros st Hreg.
  - cbn. by rewrite add_frames_nil.
  - cbn in Hd. subst parsed. cbn [Datatypes.app receive_loop].
    run_monad. cbn [value_get fst snd].
    unfold pongs, pong_times. cbn [flat_map fst snd].
    destruct (is_ping (dict_get d "type")).
    + rewrite (send_personal_message_open _ _ ws st Hreg Hopen).
      rewrite IH by exact Hreg.
      unfold pongs. rewrite add_frames_app. reflexivity.
    + rewrite IH by exact Hreg. reflexivity.
Qed.

(** The times of the pings the client sent: the frames that parse to an
    object whose "type" is the string "ping". *)
Definition ping_times (incoming : list (string * (exn + value))) : list string :=
  flat_map (fun frame =>
              match frame.2 with
              | inr (VDict d) =>
                  match d !! "type" with
                  | Some (VStr s) => if String.eqb s "ping" then [frame.1] else []
                  | _ => []
                  end
              | _ => []
              end) incoming.

(** A frame of type "pong" with the time [now], on the connection [id]. *)
Definition is_pong (id : nat) (now : string) (f : nat * dict) : Prop :=
  f.1 = id
  /\ f.2 !! "type" = Some (VStr "pong")
  /\ f.2 !! "timestamp" = Some (VStr now).

Lemma pongs_are_pongs ws incoming :
  Forall2 (is_pong (ws_id ws)) (ping_times incoming) (pongs ws incoming).
Proof.
  unfold pongs, pong_times, ping_times.
  induction incoming as [|[now parsed] rest IH]; cbn [flat_map fst snd]; [constructor|].
  destruct parsed as [e|[| | | | | |d]]; cbn [Datatypes.app]; try exact IH.
  unfold dict_get.
  destruct (d !! "type") as [[| | |s| | |]|]; cbn [default from_option id is_ping];
    try exact IH.
  destruct (String.eqb s "ping"); [|exact IH].
  cbn [Datatypes.app map]. constructor; [by repeat split|exact IH].
Qed.

(** X18: a session on an open connection whose frames all parse to
    objects.  The client gets a frame of type "connection_established",
    then one frame of type "pong" for each "ping" it sent, in order and
    with the time the ping was handled at, and nothing else; when it
    leaves, the handler returns and the user is off the registry. *)
Theorem websocket_session_answers_pings websocket user_id incoming st :
  ws_open websocket = true ->
  Forall parses_to_object incoming ->
  exists st' welcome answers,
    websocket_endpoint websocket user_id incoming st = (inr tt, st')
    /\ frames st' = (frames st ++ (ws_id websocket, welcome) :: answers)%list
    /\ welcome !! "type" = Some (VStr "connection_established")
    /\ welcome !! "message"
       = Some (VStr "Connected to real-time CLIP analysis service")
    /\ Forall2 (is_pong (ws_id websocket)) (ping_times incoming) answers
    /\ active_connections st' !! user_id = None.
Proof.
  intros Hopen Hall. unfold websocket_endpoint, connect, try_except_class.
  run_monad.
  set (st1 := set_connections (<[user_id:=websocket]> (active_connections st)) st).
  assert (Hreg : active_connections st1 !! user_id = Some websocket)
    by (cbn -[lookup insert]; apply odict_lookup_insert_eq).
  rewrite (send_personal_message_open _ _ websocket st1 Hreg Hopen).
  pose proof (receive_loop_frames user_id websocket incoming []
                (add_frames [(ws_id websocket, connection_established_message)] st1)
                Hreg Hopen Hall) as Hloop.
  rewrite app_nil_r in Hloop. rewrite Hloop. cbn [receive_loop raise].
  cbn [String.eqb Ascii.eqb Bool.eqb].
  match goal with |- context [disconnect user_id ?s] =>
    destruct (disconnect_total user_id s) as (st' & -> & Hr & Hf & _) end.
  exists st', connection_established_message, (pongs websocket incoming).
  split; [reflexivity|]. split; [|split; [reflexivity|split; [reflexivity|split]]].
  - rewrite Hf. cbn. by rewrite <- app_assoc.
  - apply pongs_are_pongs.
  - rewrite Hr. apply odict_lookup_delete_eq.
Qed.

(** What a frame that is not an object makes the loop raise. *)
Definition frame_error (parsed : exn + value) : option exn :=
  match parsed with
  | inl e => Some e
  | inr (VDict _) => None
  | inr _ => Some (AttributeError "object has no attribute 'get'")
  end.

Definition is_disconnect (e : exn) : bool :=
  match e with
  | Error cls _ => String.eqb cls "WebSocketDisconnect"
  | _ => false
  end.

(** X19: a frame that does not parse, or parses to something that is
    not an object, ends the handler with that exception: the frames after
    it are not read, and -- the handler catching [WebSocketDisconnect]
    only -- the user stays on the registry with the same connection. *)
Theorem websocket_session_dies_on_bad_frame websocket user_id pre now bad post st e :
  ws_open websocket = true ->
  Forall parses_to_object pre ->
  frame_error bad = Some e ->
  is_disconnect e = false ->
  exists st',
    websocket_endpoint websocket user_id (pre ++ (now, bad) :: post) st = (inl e, st')
    /\ active_connections st' !! user_id = Some websocket
    /\ frames st'
       = (frames st ++ (ws_id websocket, connection_established_message)
            :: pongs websocket pre)%list.
Proof.
  intros Hopen Hall Hbad Hdis. unfold websocket_endpoint, connect, try_except_class.
  run_monad.
  set (st1 := set_connections (<[user_id:=websocket]> (active_connections st)) st).
  assert (Hreg : active_connections st1 !! user_id = Some websocket)
    by (cbn -[lookup insert]; apply odict_lookup_insert_eq).
  rewrite (send_personal_message_open _ _ websocket st1 Hreg Hopen).
  rewrite (receive_loop_frames user_id websocket pre ((now, bad) :: post)
             (add_frames [(ws_id websocket, connection_established_message)] st1)
             Hreg Hopen Hall).
  cbn [receive_loop]. run_monad.
  eexists. split.
  - destruct bad as [e0|v]; cbn in Hbad.
    + inversion Hbad; subst e0.
      destruct e; cbn in Hdis; try reflexivity. by rewrite Hdis.
    + destruct v; inversion Hbad; subst e; reflexivity.
  - split; [exact Hreg|]. cbn. by rewrite <- app_assoc.
Qed.

End Sessions.

(** ** The correlation store and the registry *)

Section Routing.
Import KafkaConfig RealtimeApp.

(** The store executes the next command. *)
Definition store_answers (sv : services) : Prop :=
  next_outcome "ConnectionError" (store_outcomes sv) = None.

Lemma add_request_for_user_runs user_id request_id st :
  store_accepts (svc st) user_id ->
  exists st',
    add_request_for_user user_id request_id st = (inr tt, st')
    /\ active_connections st' = active_connections st
    /\ frames st' = frames st
    /\ metrics_available st' = metrics_available st
    /\ store_outcomes (svc st') = tail (tail (tail (store_outcomes (svc st))))
    /\ store (svc st') !! ("request_user:" +:+ request_id)
       = Some (RStr user_id, Some 3600).
Proof.
  intros (H1 & H2 & H3 & Hty).
  unfold add_request_for_user, with_svc, Redis.lpush, Redis.expire, Redis.set.
  run_monad.
  set (key := "user_requests:" +:+ user_id) in *.
  destruct (store (svc st) !! key) as [[[s|l] ttl]|] eqn:Hold.
  - by destruct (Hty s ttl).
  - erewrite redis_command_ok;
      [|exact H1|cbn beta; rewrite Hold; reflexivity].
    erewrite redis_command_ok;
      [|exact H2|cbn beta; cbn [store]; rewrite lookup_insert_eq; reflexivity].
    erewrite redis_command_ok; [|exact H3|reflexivity].
    eexists. split; [reflexivity|]. cbn.
    repeat split. by rewrite lookup_insert_eq.
  - erewrite redis_command_ok;
      [|exact H1|cbn beta; rewrite Hold; reflexivity].
    erewrite redis_command_ok;
      [|exact H2|cbn beta; cbn [store]; rewrite lookup_insert_eq; reflexivity].
    erewrite redis_command_ok; [|exact H3|reflexivity].
    eexists. split; [reflexivity|]. cbn.
    repeat split. by rewrite lookup_insert_eq.
Qed.

Lemma get_user_for_request_found request_id user_id ttl st :
  store_answers (svc st) ->
  store (svc st) !! ("request_user:" +:+ request_id) = Some (RStr user_id, ttl) ->
  exists st',
    get_user_for_request request_id st
    = (inr (if truthy (VStr user_id) then Some user_id else None), st')
    /\ active_connections st' = active_connections st
    /\ frames st' = frames st.
Proof.
  intros Hans Hst. unfold get_user_for_request, with_svc, Redis.get. run_monad.
  erewrite redis_command_ok; [|exact Hans|cbn beta; rewrite Hst; reflexivity].
  cbn -[truthy]. destruct (truthy (VStr user_id)); eexists;
    (split; [reflexivity|by split]).
Qed.

Lemma owner_of_unknown request_id st :
  store (svc st) !! ("request_user:" +:+ request_id) = None ->
  owner_of request_id st = None.
Proof.
  intros Hst. unfold owner_of, get_user_for_request, with_svc, Redis.get, Redis.command.
  run_monad.
  destruct (next_outcome "ConnectionError" (store_outcomes (svc st))) as [e|] eqn:Hn.
  - assert (He : is_Exception e = true).
    { destruct (store_outcomes (svc st)) as [|[m|] l]; inversion Hn. reflexivity. }
    cbn. by rewrite He.
  - rewrite Hst. reflexivity.
Qed.

(** X20: what [add_request_for_user] writes, [get_user_for_request]
    reads back: when the store executes the three writes and the lookup,
    the owner found for the request is the user it was added for -- unless
    the user id is the empty string, which the lookup treats as no owner. *)
Theorem correlation_round_trip user_id request_id st :
  store_accepts (svc st) user_id ->
  next_outcome "ConnectionError"
    (tail (tail (tail (store_outcomes (svc st))))) = None ->
  owner_of request_id (add_request_for_user user_id request_id st).2
  = if truthy (VStr user_id) then Some user_id else None.
Proof.
  intros Hacc Hnext.
  destruct (add_request_for_user_runs user_id request_id st Hacc)
    as (st' & -> & _ & _ & _ & Hout & Hrev).
  cbn [snd]. unfold owner_of.
  destruct (get_user_for_request_found request_id user_id (Some 3600) st')
    as (st2 & -> & _); [|exact Hrev|reflexivity].
  unfold store_answers. by rewrite Hout.
Qed.

(** X21: a message for a user whose registered connection is dead is
    not written anywhere; the user is taken off the registry, the store is
    asked to delete the user's list, and the call returns normally. *)
Theorem send_personal_message_drops_dead_connection message user_id ws st :
  active_connections st !! user_id = Some ws ->
  ws_open ws = false ->
  exists st',
    send_personal_message message user_id st = (inr tt, st')
    /\ frames st' = frames st
    /\ active_connections st' = delete user_id (active_connections st)
    /\ calls (svc st')
       = (calls (svc st) ++ [RedisDelete ("user_requests:" +:+ user_id)])%list.
Proof.
  intros Hreg Hopen. unfold send_personal_message, send_text. run_monad.
  rewrite Hreg, Hopen. cbn -[disconnect].
  destruct (disconnect_total user_id st) as (st' & -> & Hr & Hf & Hsvc).
  exists st'. repeat split; try done.
  rewrite Hsvc. apply redis_delete_effect.
Qed.

(** The connections a broadcast can write to, and the users it drops. *)
Definition open_connections (st : state) : list (string * WebSocket) :=
  filter (fun c => ws_open c.2 = true) (items (active_connections st)).

Lemma broadcast_sends_run message conns st :
  broadcast_sends message conns st
  = (inr (filter (fun c => ws_open c.2 = false) conns).*1,
     add_frames (map (fun c => (ws_id c.2, message))
                     (filter (fun c => ws_open c.2 = true) conns)) st).
Proof.
  revert st. induction conns as [|[user_id connection] rest IH]; intros st.
  - cbn. by rewrite add_frames_nil.
  - cbn [broadcast_sends]. unfold send_text. run_monad.
    rewrite !filter_cons. cbn [snd].
    destruct (ws_open connection) eqn:Hopen; cbn.
    + match goal with |- context [broadcast_sends message rest ?s] =>
        change s with (add_frames [(ws_id connection, message)] st) end.
      rewrite IH, add_frames_app. reflexivity.
    + rewrite IH. reflexivity.
Qed.

Lemma filter_ext_elem {A} (P Q : A -> Prop)
    `{!forall x, Decision (P x), !forall x, Decision (Q x)} (l : list A) :
  (forall x, x ∈ l -> (P x <-> Q x)) -> filter P l = filter Q l.
Proof.
  induction l as [|a l IH]; [done|]. intros Hext.
  rewrite !filter_cons.
  assert (Ha : P a <-> Q a) by (apply Hext; by left).
  rewrite IH by (intros x Hx; apply Hext; by right).
  destruct (decide (P a)), (decide (Q a)); tauto.
Qed.

Lemma disconnect_all_registry users st :
  exists st',
    disconnect_all users st = (inr tt, st')
    /\ frames st' = frames st
    /\ items (active_connections st')
       = filter (fun e => e.1 ∉ users) (items (active_connections st)).
Proof.
  revert st. induction users as [|user_id rest IH]; intros st.
  - exists st. split; [reflexivity|]. split; [reflexivity|].
    induction (items (active_connections st)) as [|e l IHl]; [reflexivity|].
    rewrite filter_cons, decide_True, <- IHl; [reflexivity|].
    intros H. by apply elem_of_nil in H.
  - cbn [disconnect_all]. run_monad.
    destruct (disconnect_total user_id st) as (st1 & -> & Hr1 & Hf1 & _).
    destruct (IH st1) as (st2 & -> & Hf2 & Hr2).
    exists st2. split; [reflexivity|]. split; [congruence|].
    rewrite Hr2, Hr1.
    change (items (delete user_id (active_connections st)))
      with (filter (fun e : string * WebSocket => e.1 <> user_id)
                   (items (active_connections st))).
    rewrite list_filter_filter. apply list_filter_iff.
    intros e. rewrite not_elem_of_cons. tauto.
Qed.

(** In a registry, the users whose connection is dead are not the users
    of the open connections. *)
Lemma dead_users_filter (conns : list (string * WebSocket)) :
  NoDup conns.*1 ->
  filter (fun e => e.1 ∉ (filter (fun c => ws_open c.2 = false) conns).*1) conns
  = filter (fun c => ws_open c.2 = true) conns.
Proof.
  intros Hnd. apply filter_ext_elem. intros [u ws] Hin. cbn. split.
  - intros Hnot. destruct (ws_open ws) eqn:Hopen; [reflexivity|].
    destruct Hnot. apply list_elem_of_fmap. exists (u, ws). split; [done|].
    by apply list_elem_of_filter.
  - intros Hopen Hdead.
    apply list_elem_of_fmap in Hdead as ([u' ws'] & E & Hin').
    cbn in E. subst u'. apply list_elem_of_filter in Hin' as [Hd Hin']. cbn in Hd.
    apply (odict_elem_of_items (ODict conns)) in Hin, Hin'; try exact Hnd.
    congruence.
Qed.

(** The registry is a dictionary: no user occurs twice in it.  The empty
    registry is one, and [connect] and [disconnect] keep it one. *)
Definition registry_ok (st : state) : Prop :=
  NoDup (items (active_connections st)).*1.

Lemma connect_registry_ok websocket user_id st :
  registry_ok st -> registry_ok (connect websocket user_id st).2.
Proof. apply odict_insert_NoDup. Qed.

Lemma disconnect_registry_ok user_id st :
  registry_ok st -> registry_ok (disconnect user_id st).2.
Proof.
  intros H. destruct (disconnect_total user_id st) as (st' & -> & Hr & _).
  unfold registry_ok. cbn [snd]. rewrite Hr. by apply odict_delete_NoDup.
Qed.


End Routing.

(** ** More on the upload of the realtime app *)

Section UploadEdges.
Import KafkaConfig RealtimeApp.

(** X23: a form without a file part -- no [file] field, or a plain text
    field under that name -- is answered 500 (the 400 "No file provided"
    is caught like the others) and makes no call to the broker or to the
    store. *)
Theorem upload_without_file_is_500 request uuid now st :
  (forall f, form_file request <> Some (FormFile f)) ->
  exists detail,
    upload_image request uuid now st
    = (inl (HTTPException 500 detail), after_upload_error st)
    /\ svc (after_upload_error st) = svc st.
Proof.
  intros Hno. unfold upload_image, after_upload_error. run_monad.
  destruct (form_file request) as [[f|txt]|]; [by destruct (Hno f)| |];
    cbn; destruct (metrics_available st); eexists; by split.
Qed.

(** X24: when the acknowledgement of the job does not arrive,
    [upload_image] answers 500 with the text of the error, after one call
    of the producer; the store is not called, no frame is written and the
    registry is left as it was.  The job record stays with the producer,
    unacknowledged: if it still reaches the topic, the job is processed
    and no correlation entry exists for its result. *)
Theorem upload_with_broker_down_is_500 file user_id uuid now st msg rest :
  valid_upload file ->
  uuid <> "" ->
  broker_outcomes (svc st) = Some msg :: rest ->
  let r := upload_image {| form_file := Some (FormFile file);
                           form_user_id := user_id |} uuid now st in
  r.1 = inl (HTTPException 500 msg)
  /\ (exists job_msg,
        unacked (svc r.2)
        = (unacked (svc st) ++ [(IMAGE_UPLOAD_TOPIC, Some uuid, job_msg)])%list
        /\ job_msg !! "request_id" = Some (VStr uuid)
        /\ job_msg !! "filename" = Some (filename file))
  /\ store (svc r.2) = store (svc st)
  /\ calls (svc r.2)
     = (calls (svc st) ++ [KafkaSend IMAGE_UPLOAD_TOPIC (VStr uuid)])%list
  /\ frames r.2 = frames st
  /\ active_connections r.2 = active_connections st.
Proof.
  intros [Hct Hsz] Hne Hout. unfold upload_image. run_monad.
  cbn [form_file form_user_id].
  rewrite Hct. cbn [negb fst snd]. rewrite Hsz.
  unfold with_svc, zoom. rewrite send_image_for_analysis_run, Hout.
  cbn [truthy]. apply String.eqb_neq in Hne. rewrite Hne.
  cbn. destruct (metrics_available st); cbn;
    (split; [reflexivity|]); (split; [|by repeat split]);
    eexists; by repeat split.
Qed.

(** X25: when the store refuses the first write of the correlation
    entry, the upload is still answered as a success -- the error is
    swallowed by [add_request_for_user] -- but nothing is stored under
    the request id: a later lookup of that id finds no owner. *)
Theorem upload_with_store_down_is_unroutable file user_id uuid now st msg rest :
  valid_upload file ->
  acknowledges (svc st) ->
  store_outcomes (svc st) = Some msg :: rest ->
  store (svc st) !! ("request_user:" +:+ uuid) = None ->
  let r := upload_image {| form_file := Some (FormFile file);
                           form_user_id := user_id |} uuid now st in
  (exists response,
     r.1 = inr response
     /\ response !! "status" = Some (VStr "success")
     /\ response !! "request_id" = Some (VStr uuid))
  /\ store (svc r.2) !! ("request_user:" +:+ uuid) = None
  /\ owner_of uuid r.2 = None.
Proof.
  intros [Hct Hsz] Hack Hout Hnone r.
  assert (Hgoal : (exists response,
                     r.1 = inr response
                     /\ response !! "status" = Some (VStr "success")
                     /\ response !! "request_id" = Some (VStr uuid))
                  /\ store (svc r.2) !! ("request_user:" +:+ uuid) = None).
  { subst r. unfold upload_image. run_monad. cbn [form_file form_user_id].
    rewrite Hct. cbn [negb fst snd]. rewrite Hsz.
    unfold with_svc, zoom. rewrite send_image_for_analysis_run.
    unfold acknowledges in Hack. rewrite Hack.
    unfold add_request_for_user, with_svc, zoom, Redis.lpush, Redis.command.
    run_monad. cbn [svc store_outcomes]. rewrite Hout. cbn [next_outcome is_Exception].
    match goal with |- context [send_personal_message ?m ?u ?s] =>
      destruct (send_personal_message_total m u s) as (st3 & -> & Hcase);
      set (st2 := s) in * end.
    assert (Hst3 : store (svc st3) !! ("request_user:" +:+ uuid) = None).
    { destruct (active_connections st2 !! default "anonymous" user_id) as [ws|].
      - destruct (ws_open ws).
        + destruct Hcase as (_ & _ & ->). exact Hnone.
        + destruct Hcase as [_ ->].
          destruct (redis_delete_effect
                      ("user_requests:" +:+ default "anonymous" user_id) (svc st2))
            as (_ & _ & Hs).
          rewrite Hs by apply correlation_keys_differ. exact Hnone.
      - subst st3. exact Hnone. }
    destruct (metrics_available st3); cbn; (split; [eexists; by repeat split|exact Hst3]). }
  destruct Hgoal as [Hresp Hstore]. split; [exact Hresp|]. split; [exact Hstore|].
  by apply owner_of_unknown.
Qed.

Definition upload_received_message (request_id : string) (fname : value) : dict :=
  <["type" := VStr "upload_received"]>
  (<["request_id" := VStr request_id]>
  (<["filename" := fname]>
  (<["message" := VStr "Image received and queued for processing"]> ∅))).

Lemma handle_result_writes_to_owner repr now result_data request_id user_id ttl ws st :
  result_data !! "request_id" = Some (VStr request_id) ->
  store_answers (svc st) ->
  store (svc st) !! ("request_user:" +:+ request_id) = Some (RStr user_id, ttl) ->
  user_id <> "" ->
  active_connections st !! user_id = Some ws ->
  ws_open ws = true ->
  exists fs,
    frames (handle_result repr now result_data st).2
    = (frames st
         ++ (ws_id ws, analysis_result_message (VStr request_id) result_data) :: fs)%list
    /\ Forall (fun f => f.2 = system_stats_message now) fs.
Proof.
  intros Hrid Hans Hst Hne Hreg Hopen.
  unfold handle_result, dict_item. rewrite Hrid. run_monad. cbn [fstring].
  destruct (get_user_for_request_found request_id user_id ttl st Hans Hst)
    as (st1 & -> & Hr1 & Hf1).
  cbn [truthy]. apply String.eqb_neq in Hne. rewrite Hne. cbn [negb fst snd].
  rewrite <- Hr1 in Hreg.
  rewrite (send_personal_message_open _ _ ws st1 Hreg Hopen).
  match goal with |- context [broadcast ?m ?s] =>
    destruct (broadcast_total m s) as (st3 & fs & -> & Hw & Hall) end.
  exists fs. split; [|exact Hall].
  unfold wrote in Hw. cbn in *. by rewrite Hw, Hf1, <- app_assoc.
Qed.

(** X26: the whole route on one instance.  A user with an open
    connection uploads a valid image while broker and store answer; when
    the result with the id of that upload is consumed, the user's
    connection has received a frame of type "upload_received" with the id
    and the file name, then a frame of type "analysis_result" with the id
    and the result as its data, and after them only frames of type
    "system_stats". *)
Theorem upload_then_result_reaches_uploader
    repr file user_id ws uuid now later result_data st :
  valid_upload file ->
  user_id <> "" ->
  active_connections st !! user_id = Some ws ->
  ws_open ws = true ->
  acknowledges (svc st) ->
  store_accepts (svc st) user_id ->
  next_outcome "ConnectionError"
    (tail (tail (tail (store_outcomes (svc st))))) = None ->
  result_data !! "request_id" = Some (VStr uuid) ->
  let uploaded := (upload_image {| form_file := Some (FormFile file);
                                   form_user_id := Some user_id |} uuid now st).2 in
  exists received result others,
    frames (handle_result repr later result_data uploaded).2
    = (frames st ++ (ws_id ws, received) :: (ws_id ws, result) :: others)%list
    /\ received !! "type" = Some (VStr "upload_received")
    /\ received !! "request_id" = Some (VStr uuid)
    /\ received !! "filename" = Some (filename file)
    /\ result !! "type" = Some (VStr "analysis_result")
    /\ result !! "request_id" = Some (VStr uuid)
    /\ result !! "data" = Some (VDict result_data)
    /\ Forall (fun f => f.2 !! "type" = Some (VStr "system_stats")) others.
Proof.
  intros [Hct Hsz] Hne Hreg Hopen Hack Hacc Hnext Hrid uploaded.
  assert (Hup : active_connections uploaded !! user_id = Some ws
                /\ frames uploaded
                   = (frames st ++ [(ws_id ws, upload_received_message uuid
                                                 (filename file))])%list
                /\ store_answers (svc uploaded)
                /\ store (svc uploaded) !! ("request_user:" +:+ uuid)
                   = Some (RStr user_id, Some 3600)).
  { subst uploaded. unfold upload_image. run_monad.
    cbn [form_file form_user_id default from_option id].
    rewrite Hct. cbn [negb fst snd]. rewrite Hsz.
    unfold with_svc, zoom. rewrite send_image_for_analysis_run.
    unfold acknowledges in Hack. rewrite Hack.
    match goal with |- context [add_request_for_user user_id uuid ?s] =>
      destruct (add_request_for_user_runs user_id uuid s Hacc)
        as (st2 & -> & Hr2 & Hf2 & Hm2 & Hout2 & Hrev2) end.
    cbn [active_connections frames svc store_outcomes] in Hr2, Hf2, Hout2.
    assert (Hreg2 : active_connections st2 !! user_id = Some ws) by (by rewrite Hr2).
    rewrite (send_personal_message_open _ _ ws st2 Hreg2 Hopen).
    cbn [fst snd]. unfold store_answers.
    destruct (metrics_available _); cbn; rewrite Hf2, Hout2; by repeat split. }
  destruct Hup as (Hreg' & Hfr & Hans & Hrev).
  destruct (handle_result_writes_to_owner repr later result_data uuid user_id (Some 3600)
              ws uploaded Hrid Hans Hrev Hne Hreg' Hopen) as (fs & Hfs & Hall).
  exists (upload_received_message uuid (filename file)),
         (analysis_result_message (VStr uuid) result_data), fs.
  split; [rewrite Hfs, Hfr, <- app_assoc; reflexivity|].
  repeat split; try reflexivity.
  eapply Forall_impl; [exact Hall|]. by intros f ->.
Qed.

End UploadEdges.

(** ** Telemetry *)

(** X27: [send_status_update] never raises, whatever the broker does:
    it calls the producer once, leaves at most one record, on the status
    topic and without a key, and does not touch the store. *)
Theorem send_status_update_never_raises message_type data now sv :
  exists sv',
    KafkaConfig.send_status_update message_type data now sv = (inr tt, sv')
    /\ store sv' = store sv
    /\ calls sv' = (calls sv ++ [KafkaSend KafkaConfig.SYSTEM_STATUS_TOPIC VNone])%list
    /\ (broker sv' = broker sv
        \/ exists msg,
             broker sv' = (broker sv ++ [(KafkaConfig.SYSTEM_STATUS_TOPIC, None, msg)])%list
             /\ msg !! "type" = Some message_type
             /\ msg !! "data" = Some data).
Proof.
  unfold KafkaConfig.send_status_update, KafkaConfig.send_nowait. run_monad.
  destruct (next_outcome "KafkaError" (broker_outcomes sv)) as [e|] eqn:Hn.
  - assert (He : is_Exception e = true).
    { destruct (broker_outcomes sv) as [|[m|] l]; inversion Hn. reflexivity. }
    rewrite He. eexists. repeat split. by left.
  - eexists. repeat split. right. eexists. by repeat split.
Qed.

(** ** Instances *)

Lemma send_image_for_analysis_publishes_job_witness :
  exists msg,
    broker (KafkaConfig.send_image_for_analysis
              [("image_data", VBytes [Byte.x4d; Byte.x61; Byte.x6e]);
               ("filename", VStr "cat.jpg"); ("user_id", VNone)]
              "r1" "t0" no_services).2
    = [(KafkaConfig.IMAGE_UPLOAD_TOPIC, Some "r1", msg)]
    /\ msg !! "user_id" = Some (VStr "anonymous")
    /\ Base64.b64decode (dict_get msg "image_data")
       = inr [Byte.x4d; Byte.x61; Byte.x6e].
Proof.
  assert (Hne : "r1" <> "") by discriminate.
  destruct (send_image_for_analysis_publishes_job [Byte.x4d; Byte.x61; Byte.x6e]
              (VStr "cat.jpg") VNone "r1" "t0" no_services eq_refl Hne)
    as (msg & Hrun & _ & _ & _ & Huser & Hdec).
  exists msg. rewrite Hrun. by repeat split.
Defined.

Definition second_r1 : dict :=
  KafkaConfig.result_message (VStr "r1") (VList []) (VStr "alice") VNone
                             (VStr "timed out") "t9".

Lemma handle_analysis_result_last_write_wins_witness :
  SimpleApi.analysis_results
    (SimpleApi.handle_analysis_result second_r1
       (SimpleApi.handle_analysis_result result_r1 fresh_api).2).2 !! KStr "r1"
  = Some second_r1.
Proof.
  assert (Hne : "r1" <> "") by discriminate.
  exact (proj2 (handle_analysis_result_last_write_wins result_r1 second_r1 "r1"
                  fresh_api eq_refl eq_refl Hne)).
Defined.

Lemma stored_result_is_served_witness :
  reported "r1" (SimpleApi.handle_analysis_result result_r1 completed_r1).2
  = Some (VStr "completed").
Proof.
  assert (Hne : "r1" <> "") by discriminate.
  exact (proj1 (stored_result_is_served result_r1 "r1" completed_r1 eq_refl Hne)).
Defined.

Lemma non_str_result_is_stored_out_of_reach_witness :
  let st' := (SimpleApi.handle_analysis_result result_42 fresh_api).2 in
  SimpleApi.analysis_results st' !! KNum 42 = Some result_42
  /\ reported "42" st' = Some (VStr "not_found")
  /\ size (SimpleApi.analysis_results st') = 1%nat.
Proof.
  assert (Hnot : forall s, KNum 42 <> KStr s) by discriminate.
  destruct (non_str_result_is_stored_out_of_reach result_42 (VNum 42) (KNum 42)
              fresh_api eq_refl eq_refl eq_refl Hnot)
    as (_ & Hst & Hread & Hsize).
  split; [exact Hst|]. split.
  - rewrite (proj1 (Hread "42")). reflexivity.
  - rewrite (Hsize eq_refl). reflexivity.
Defined.

Lemma rejected_job_stays_pending_witness :
  reported "u1" (SimpleApi.analyze_image jpeg_upload "u1" "t0" "u2" "t1" fresh_api).2
  = Some (VStr "submitted").
Proof.
  assert (Hv : valid_upload jpeg_upload) by (split; reflexivity).
  exact (proj1 (rejected_job_stays_pending jpeg_upload "u1" "t0" "u2" "t1" fresh_api
                  Hv eq_refl)).
Defined.

Lemma consumed_results_are_completed_witness :
  reported "r1"
    (KafkaConfig.app
       (KafkaConfig.consume_results SimpleApi.handle_analysis_result
          [∅; result_r1; job "r2"]
          {| KafkaConfig.consumer_closed := false; KafkaConfig.app := fresh_api |}).2)
  = Some (VStr "completed").
Proof.
  assert (Hne : "r1" <> "") by discriminate.
  apply (consumed_results_are_completed [∅; result_r1; job "r2"] "r1" result_r1).
  - right. left.
  - reflexivity.
  - exact Hne.
Defined.

Definition ping_frame (now : string) : string * (exn + value) :=
  (now, inr (VDict (<["type" := VStr "ping"]> ∅))).

Definition chat_frame (now : string) : string * (exn + value) :=
  (now, inr (VDict (<["type" := VStr "hello"]> ∅))).

Lemma websocket_session_answers_pings_witness :
  exists st' welcome pong1 pong3,
    RealtimeApp.websocket_endpoint alice_socket "alice"
      [ping_frame "t1"; chat_frame "t2"; ping_frame "t3"] fresh_realtime
    = (inr tt, st')
    /\ RealtimeApp.frames st' = [(7%nat, welcome); pong1; pong3]
    /\ is_pong 7 "t1" pong1
    /\ is_pong 7 "t3" pong3.
Proof.
  destruct (websocket_session_answers_pings alice_socket "alice"
              [ping_frame "t1"; chat_frame "t2"; ping_frame "t3"] fresh_realtime)
    as (st' & welcome & answers & Hrun & Hfr & _ & _ & Hpongs & _).
  - reflexivity.
  - repeat constructor; eexists; reflexivity.
  - cbn in Hpongs.
    inversion Hpongs as [|t1 pong1 ts1 rest1 H1 Hrest1]; subst.
    inversion Hrest1 as [|t3 pong3 ts3 rest3 H3 Hrest3]; subst.
    inversion Hrest3; subst.
    exists st', welcome, pong1, pong3.
    split; [exact Hrun|]. split; [exact Hfr|]. by split.
Defined.

Lemma websocket_session_dies_on_bad_frame_witness :
  exists st',
    RealtimeApp.websocket_endpoint alice_socket "alice"
      [ping_frame "t1"; ("t2", inl (Error "JSONDecodeError" "Expecting value"));
       ping_frame "t3"] fresh_realtime
    = (inl (Error "JSONDecodeError" "Expecting value"), st')
    /\ RealtimeApp.active_connections st' !! "alice" = Some alice_socket.
Proof.
  destruct (websocket_session_dies_on_bad_frame alice_socket "alice"
              [ping_frame "t1"] "t2" (inl (Error "JSONDecodeError" "Expecting value"))
              [ping_frame "t3"] fresh_realtime
              (Error "JSONDecodeError" "Expecting value"))
    as (st' & Hrun & Hreg & _).
  - reflexivity.
  - repeat constructor; eexists; reflexivity.
  - reflexivity.
  - reflexivity.
  - exists st'. by split.
Defined.

Lemma fresh_store_accepts user_id : store_accepts (RealtimeApp.svc fresh_realtime) user_id.
Proof. repeat split; try reflexivity. intros s ttl. discriminate. Qed.

Lemma correlation_round_trip_witness :
  owner_of "r1" (RealtimeApp.add_request_for_user "alice" "r1" fresh_realtime).2
  = Some "alice".
Proof.
  exact (correlation_round_trip "alice" "r1" fresh_realtime
           (fresh_store_accepts "alice") eq_refl).
Defined.

Definition dead_socket : RealtimeApp.WebSocket :=
  {| RealtimeApp.ws_id := 8; RealtimeApp.ws_open := false |}.

Definition bob_gone : RealtimeApp.state :=
  {| RealtimeApp.active_connections := {[ "bob" := dead_socket ]};
     RealtimeApp.svc := no_services;
     RealtimeApp.frames := []; RealtimeApp.metrics_available := false;
     RealtimeApp.image_uploads := 0; RealtimeApp.analysis_errors := 0 |}.

Lemma send_personal_message_drops_dead_connection_witness :
  exists st',
    RealtimeApp.send_personal_message (RealtimeApp.pong_message "t1") "bob" bob_gone
    = (inr tt, st')
    /\ RealtimeApp.frames st' = []
    /\ RealtimeApp.active_connections st' !! "bob" = None.
Proof.
  destruct (send_personal_message_drops_dead_connection
              (RealtimeApp.pong_message "t1") "bob" dead_socket bob_gone
              eq_refl eq_refl) as (st' & Hrun & Hf & Hr & _).
  exists st'. split; [exact Hrun|]. split; [exact Hf|]. by rewrite Hr.
Defined.

Definition bob_socket : RealtimeApp.WebSocket :=
  {| RealtimeApp.ws_id := 9; RealtimeApp.ws_open := true |}.

(** Bob connected first, then Carol, who has left since, then Alice. *)
Definition three_clients : RealtimeApp.state :=
  {| RealtimeApp.active_connections :=
       ODict [("bob", bob_socket); ("carol", dead_socket); ("alice", alice_socket)];
     RealtimeApp.svc := no_services;
     RealtimeApp.frames := []; RealtimeApp.metrics_available := false;
     RealtimeApp.image_uploads := 0; RealtimeApp.analysis_errors := 0 |}.


Lemma upload_without_file_is_500_witness :
  http_status
    (RealtimeApp.upload_image
       {| RealtimeApp.form_file := Some (RealtimeApp.FormText "cat.jpg");
          RealtimeApp.form_user_id := Some "alice" |} "r1" "t0" fresh_realtime).1
  = 500.
Proof.
  destruct (upload_without_file_is_500
              {| RealtimeApp.form_file := Some (RealtimeApp.FormText "cat.jpg");
                 RealtimeApp.form_user_id := Some "alice" |} "r1" "t0" fresh_realtime)
    as (detail & Hrun & _).
  - intros f. discriminate.
  - by rewrite Hrun.
Defined.

Definition realtime_with (sv : services) : RealtimeApp.state :=
  {| RealtimeApp.active_connections := {[ "alice" := alice_socket ]};
     RealtimeApp.svc := sv;
     RealtimeApp.frames := []; RealtimeApp.metrics_available := true;
     RealtimeApp.image_uploads := 0; RealtimeApp.analysis_errors := 0 |}.

Definition store_down : services :=
  {| broker := []; unacked := []; broker_outcomes := []; store := ∅;
     store_outcomes := [Some "connection refused"]; calls := [] |}.

Lemma upload_with_broker_down_is_500_witness :
  let r := RealtimeApp.upload_image alice_form "r1" "t0" (realtime_with flaky_broker) in
  r.1 = inl (HTTPException 500 "timed out")
  /\ (exists job_msg,
        unacked (RealtimeApp.svc r.2) = [("image-uploads", Some "r1", job_msg)])
  /\ calls (RealtimeApp.svc r.2) = [KafkaSend "image-uploads" (VStr "r1")].
Proof.
  assert (Hv : valid_upload jpeg_upload) by (split; reflexivity).
  assert (Hne : "r1" <> "") by discriminate.
  destruct (upload_with_broker_down_is_500 jpeg_upload (Some "alice") "r1" "t0"
              (realtime_with flaky_broker) "timed out" [] Hv Hne eq_refl)
    as (Hr & (job_msg & Hu & _) & _ & Hc & _).
  split; [exact Hr|]. split; [by exists job_msg|exact Hc].
Defined.

Lemma upload_with_store_down_is_unroutable_witness :
  owner_of "r1" (RealtimeApp.upload_image alice_form "r1" "t0"
                   (realtime_with store_down)).2 = None.
Proof.
  assert (Hv : valid_upload jpeg_upload) by (split; reflexivity).
  exact (proj2 (proj2 (upload_with_store_down_is_unroutable jpeg_upload (Some "alice")
                         "r1" "t0" (realtime_with store_down) "connection refused" []
                         Hv eq_refl eq_refl eq_refl))).
Defined.

Lemma upload_then_result_reaches_uploader_witness :
  exists received result others,
    RealtimeApp.frames
      (RealtimeApp.handle_result repr_int "t2" result_r1
         (RealtimeApp.upload_image alice_form "r1" "t0" (realtime_with no_services)).2).2
    = (7%nat, received) :: (7%nat, result) :: others
    /\ received !! "type" = Some (VStr "upload_received")
    /\ result !! "type" = Some (VStr "analysis_result")
    /\ result !! "data" = Some (VDict result_r1).
Proof.
  assert (Hv : valid_upload jpeg_upload) by (split; reflexivity).
  assert (Hne : "alice" <> "") by discriminate.
  assert (Hacc : store_accepts (RealtimeApp.svc (realtime_with no_services)) "alice").
  { repeat split; try reflexivity. intros s ttl. discriminate. }
  destruct (upload_then_result_reaches_uploader repr_int jpeg_upload "alice" alice_socket
              "r1" "t0" "t2" result_r1 (realtime_with no_services)
              Hv Hne eq_refl eq_refl eq_refl Hacc eq_refl eq_refl)
    as (received & result & others & Hfs & Ht & _ & _ & Hrt & _ & Hd & _).
  exists received, result, others. by repeat split.
Defined.
